(** * Classroom quiz: store, quiz run and fallback report

    A shallow embedding of [database.py], of the student flow of [app.py]
    ([student_quiz], [submit_all_answers]) and of
    [ai_engine.generate_fallback_report], with the properties of the
    session/quiz state machine and of the aggregation pipeline.

    Conventions.
    - The SQLite file is a value of type [Store]: one list of rows per table,
      in insertion order.  Every [database.py] function opens its own
      connection and commits before returning, so a call is a function from
      the store to the new store and a result.
    - Integers are [Z].  SQLite REAL values and Python floats are binary64
      numbers, modelled by [spec_float] (precision 53, maximal exponent 1024)
      with the reference operations of the standard library.  SQLite's
      [ROUND] works in C [long double], taken as the x87 extended format
      (precision 64), and is modelled after SQLite 3.40.
    - SQL NULL is [None].
    - Streamlit's [st.session_state] is the record [RunState]; one execution of
      the script is one call of [student_quiz]. *)

From Stdlib Require Import ZArith List String Ascii Bool Lia QArith.
From Stdlib Require Import Floats.SpecFloat Sorting.Sorted.
From stdpp Require Import base option list gmap strings.

Close Scope Q_scope.
Local Open Scope Z_scope.

(* ===================================================================== *)
(** * Binary64 arithmetic as SQLite and Python use it *)
(* ===================================================================== *)

Module Float64.

Definition prec : Z := 53.
Definition emax : Z := 1024.

Definition fdiv : spec_float -> spec_float -> spec_float := SFdiv prec emax.
Definition fmul : spec_float -> spec_float -> spec_float := SFmul prec emax.

(** The integer [z] as the nearest binary64 number (ties to even): SQLite's
    [CAST(z AS FLOAT)] and its implicit conversion of an integer operand. *)
Definition of_int (z : Z) : spec_float := binary_normalize prec emax z 0 false.

(** The integer [z] with mantissa [|z|] and exponent 0.  [SFdiv] divides two
    such numbers with one rounding, as Python's [int / int] does. *)
Definition exact_int (z : Z) : spec_float :=
  match z with
  | Z0 => S754_zero false
  | Zpos p => S754_finite false p 0
  | Zneg p => S754_finite true p 0
  end.

Definition is_zero (x : spec_float) : bool :=
  match x with S754_zero _ => true | _ => false end.

(** Number of tenths nearest to [m * 2^e], for [e < 0]; [up] decides what a
    remainder does given the quotient, the doubled remainder and the
    divisor. *)
Definition tenths (up : Z -> Z -> Z -> bool) (m : positive) (e : Z) : Z :=
  let den := Z.shiftl 1 (- e) in
  let num := 10 * Zpos m in
  let q := num / den in
  let r := num mod den in
  if up q (2 * r) den then q + 1 else q.

Definition half_even (q r2 den : Z) : bool :=
  (den <? r2) || ((den =? r2) && Z.odd q).

Definition round1_with (up : Z -> Z -> Z -> bool) (x : spec_float) : spec_float :=
  match x with
  | S754_finite s m e =>
      if 0 <=? e then x
      else match tenths up m e with
           | Zpos t => fdiv (S754_finite s t 0) (exact_int 10)
           | _ => S754_zero s
           end
  | _ => x
  end.

(** Python [round(x, 1)] on a float: correctly rounded, halves to even. *)
Definition py_round1 : spec_float -> spec_float := round1_with half_even.

Definition signed (s : bool) (m : positive) : Z := if s then Zneg m else Zpos m.

#[global] Instance spec_float_eq_dec : EqDecision spec_float.
Proof. solve_decision. Defined.

Definition f0 : spec_float := S754_zero false.
Definition f1 : spec_float := S754_finite false 4503599627370496 (-52).
Definition f100 : spec_float := S754_finite false 7036874417766400 (-46).

End Float64.

(* ===================================================================== *)
(** * C long double *)
(* ===================================================================== *)

(** [long double] as SQLite's [LONGDOUBLE_TYPE] on x86-64: the x87 extended
    format, with 64 bits of precision. *)
Module LongDouble.

Definition prec : Z := 64.
Definition emax : Z := 16384.

Definition add : spec_float -> spec_float -> spec_float := SFadd prec emax.
Definition sub : spec_float -> spec_float -> spec_float := SFsub prec emax.
Definition mul : spec_float -> spec_float -> spec_float := SFmul prec emax.
Definition div : spec_float -> spec_float -> spec_float := SFdiv prec emax.

(** A [double] as a [long double]: the same number. *)
Definition of_double (x : spec_float) : spec_float :=
  match x with
  | S754_finite s m e => binary_normalize prec emax (Float64.signed s m) e s
  | _ => x
  end.

(** [(double)x]: the nearest binary64 number. *)
Definition to_double (x : spec_float) : spec_float :=
  match x with
  | S754_finite s m e =>
      binary_normalize Float64.prec Float64.emax (Float64.signed s m) e s
  | _ => x
  end.

Definition of_int (z : Z) : spec_float := binary_normalize prec emax z 0 false.

(** [(int)x]: the integral part. *)
Definition to_int (x : spec_float) : Z :=
  match x with
  | S754_finite s m e =>
      Float64.signed s 1 * (if 0 <=? e then Z.shiftl (Zpos m) e
                            else Z.shiftr (Zpos m) (- e))
  | _ => 0
  end.

Definition ltb (x y : spec_float) : bool :=
  match SFcompare x y with Some Lt => true | _ => false end.

Definition geb (x y : spec_float) : bool :=
  match SFcompare x y with Some Gt | Some Eq => true | _ => false end.

End LongDouble.

(* ===================================================================== *)
(** * SQLite's ROUND *)
(* ===================================================================== *)

(** [ROUND(X, 1)] as SQLite 3.40 computes it ([roundFunc] of func.c): a
    number of magnitude up to 2^52 is printed with [%.1f] by SQLite's own
    [printf] (printf.c), in [long double] arithmetic, and the text is read
    back by [sqlite3AtoF] (util.c). *)
Module SqliteRound.
Import LongDouble.

(** The text [printf] produces: sign, digits before and after the point. *)
Record Decimal := {
  negative : bool;
  integral : list Z;
  fraction : list Z
}.

(** Constants of type [double] in the C source. *)
Definition c_5e_02 : spec_float := S754_finite false 7205759403792794 (-57).
Definition c_3e_16 : spec_float := S754_finite false 6084722881095501 (-104).
Definition c_1e_8 : spec_float := S754_finite false 6044629098073146 (-79).
Definition c_1e100 : spec_float := S754_finite false 5147557589468029 280.
Definition c_1e10 : spec_float := Float64.of_int 10000000000.
Definition c_1e8 : spec_float := Float64.of_int 100000000.
Definition c_10 : spec_float := Float64.of_int 10.
Definition c_1 : spec_float := Float64.of_int 1.
Definition c_2p52 : spec_float := Float64.of_int 4503599627370496.

(** [et_getdigit]: the next digit of [val], while significant digits are
    left. *)
Definition et_getdigit (val : spec_float) (cnt : nat) : Z * spec_float * nat :=
  match cnt with
  | O => (0, val, O)
  | S cnt' =>
      let digit := to_int val in
      (digit, mul (sub val (of_int digit)) (of_double c_10), cnt')
  end.

Fixpoint getdigits (n : nat) (val : spec_float) (cnt : nat)
    : list Z * spec_float * nat :=
  match n with
  | O => ([], val, cnt)
  | S n' =>
      let '(d, val', cnt') := et_getdigit val cnt in
      let '(ds, val'', cnt'') := getdigits n' val' cnt' in
      (d :: ds, val'', cnt'')
  end.

(** [while( realvalue>=step*scale && exp<=350 ){ scale *= step; exp+=by; }] *)
Fixpoint scale_up (fuel : nat) (realvalue step : spec_float) (by_ : Z)
    (scale : spec_float) (exp : Z) : spec_float * Z :=
  match fuel with
  | O => (scale, exp)
  | S fuel' =>
      if geb realvalue (mul (of_double step) scale) && (exp <=? 350)
      then scale_up fuel' realvalue step by_ (mul scale (of_double step)) (exp + by_)
      else (scale, exp)
  end.

(** [while( realvalue<bound ){ realvalue *= step; exp-=by; }] *)
Fixpoint scale_down (fuel : nat) (bound step : spec_float) (by_ : Z)
    (realvalue : spec_float) (exp : Z) : spec_float * Z :=
  match fuel with
  | O => (realvalue, exp)
  | S fuel' =>
      if ltb realvalue (of_double bound)
      then scale_down fuel' bound step by_ (mul realvalue (of_double step)) (exp - by_)
      else (realvalue, exp)
  end.

(** The exponent field of a binary64 number, without its bias. *)
Definition exponent (x : spec_float) : Z :=
  match x with
  | S754_finite _ m e =>
      if Zpos (digits2_pos m) =? 53 then e + 52 else -1023
  | S754_zero _ => -1023
  | _ => 1024
  end.

(** [sqlite3_mprintf("%.*f", 1, r)] for a finite [r].  The loops of the
    source end after fewer rounds than the fuel given here: the number is
    below 2^53 and, with the rounder added, at least 0.05. *)
Definition printf_1f (r : spec_float) : Decimal :=
  let precision := 1 in
  let prefix := SFltb r (S754_zero false) in
  let realvalue := of_double (SFabs r) in
  let rounder := c_5e_02 in
  let rounder :=
    if precision + Z.quot (exponent r) 3 <? 15
    then to_double (add (of_double rounder) (mul realvalue (of_double c_3e_16)))
    else rounder in
  let realvalue := add realvalue (of_double rounder) in
  let '(realvalue, exp) :=
    if ltb (S754_zero false) realvalue then
      let scale := of_double c_1 in
      let '(scale, exp) := scale_up 8 realvalue c_1e100 100 scale 0 in
      let '(scale, exp) := scale_up 40 realvalue c_1e10 10 scale exp in
      let '(scale, exp) := scale_up 400 realvalue c_10 1 scale exp in
      let realvalue := div realvalue scale in
      let '(realvalue, exp) := scale_down 700 c_1e_8 c_1e8 8 realvalue exp in
      scale_down 20 c_1 c_10 1 realvalue exp
    else (realvalue, 0) in
  let nsd := 16%nat in
  let '(before, realvalue, nsd) :=
    if exp <? 0 then ([0], realvalue, nsd)
    else getdigits (Z.to_nat (exp + 1)) realvalue nsd in
  let zeros := Z.min precision (Z.max 0 (- exp - 1)) in
  let '(after, _, _) := getdigits (Z.to_nat (precision - zeros)) realvalue nsd in
  {| negative := prefix;
     integral := before;
     fraction := replicate (Z.to_nat zeros) 0 ++ after |}.

Definition LARGEST_INT64 : Z := 9223372036854775807.

(** Significand and decimal exponent of the text, as [sqlite3AtoF] collects
    them: digits are taken while the significand stays below the limit. *)
Fixpoint significand_int (ds : list Z) (s d : Z) : Z * Z :=
  match ds with
  | [] => (s, d)
  | x :: ds' =>
      let s := s * 10 + x in
      if (LARGEST_INT64 - 9) / 10 <=? s then (s, d + Z.of_nat (length ds'))
      else significand_int ds' s d
  end.

Fixpoint significand_frac (ds : list Z) (s d : Z) : Z * Z :=
  match ds with
  | [] => (s, d)
  | x :: ds' =>
      if s <? (LARGEST_INT64 - 9) / 10 then significand_frac ds' (s * 10 + x) (d - 1)
      else significand_frac ds' s d
  end.

(** [while( e>0 ){ ... }]: trailing zeros of the significand are traded
    against a negative exponent, a positive exponent against room in the
    significand. *)
Fixpoint reduce (fuel : nat) (esign_pos : bool) (s e : Z) : Z * Z :=
  match fuel with
  | O => (s, e)
  | S fuel' =>
      if 0 <? e then
        if esign_pos then
          if LARGEST_INT64 / 10 <=? s then (s, e)
          else reduce fuel' esign_pos (s * 10) (e - 1)
        else
          if negb (Z.rem s 10 =? 0) then (s, e)
          else reduce fuel' esign_pos (Z.quot s 10) (e - 1)
      else (s, e)
  end.

(** [sqlite3Pow10]: ten to the power [E] as a [long double], by squaring. *)
Definition pow10_table : list spec_float :=
  (fun k => of_int (10 ^ k)) <$> [1; 2; 4; 8; 16].

Fixpoint sqlite3Pow10 (table : list spec_float) (E : positive) (r : spec_float)
    : spec_float :=
  match table with
  | [] => r
  | x :: table' =>
      match E with
      | xH => mul r x
      | xO E' => sqlite3Pow10 table' E' r
      | xI E' => sqlite3Pow10 table' E' (mul r x)
      end
  end.

(** [sqlite3AtoF] on such a text; its decimal exponent is below 32. *)
Definition sqlite3AtoF (z : Decimal) : spec_float :=
  let '(s, d) := significand_int (integral z) 0 0 in
  let '(s, d) := significand_frac (fraction z) s d in
  let esign_pos := 0 <=? d in
  let e := Z.abs d in
  if s =? 0 then S754_zero (negative z)
  else
    let '(s, e) := reduce 400 esign_pos s e in
    let s := if negative z then - s else s in
    match e with
    | Zpos p =>
        let scale := sqlite3Pow10 pow10_table p (of_double c_1) in
        to_double (if esign_pos then mul (of_int s) scale else div (of_int s) scale)
    | _ => Float64.of_int s
    end.

(** [ROUND(r, 1)].  A number beyond 2^52 has no fractional part and is
    returned as it is.  SQLite holds no NaN. *)
Definition sql_round1 (r : spec_float) : spec_float :=
  match r with
  | S754_finite _ _ _ =>
      if SFltb r (SFopp c_2p52) || SFltb c_2p52 r then r
      else sqlite3AtoF (printf_1f r)
  | S754_zero _ => sqlite3AtoF (printf_1f r)
  | _ => r
  end.

End SqliteRound.

(* ===================================================================== *)
(** * database.py *)
(* ===================================================================== *)

Module Database.
Import Float64.

(** ** Tables *)

(** [sessions(id, teacher_id, topic, subtopic, created_at, is_active)].
    [is_active] is only ever written as 1 (column default) or 0
    ([close_session]); it is a [bool]. *)
Record Session := {
  ses_id : Z;
  ses_teacher_id : string;
  ses_topic : string;
  ses_subtopic : string;
  ses_created_at : Z;
  ses_is_active : bool
}.

(** [questions(id, question_text, correct_answer, skill_tag, topic, options)]. *)
Record Question := {
  q_id : Z;
  q_question_text : string;
  q_correct_answer : string;
  q_skill_tag : string;
  q_topic : string;
  q_options : string
}.

(** [results(id, session_id, student_id, question_id, selected_answer,
    is_correct, answered_at)].  [is_correct] is written by
    [save_student_answer] as [1 if is_correct else 0]. *)
Record ResultRow := {
  r_id : Z;
  r_session_id : Z;
  r_student_id : string;
  r_question_id : Z;
  r_selected_answer : string;
  r_is_correct : bool;
  r_answered_at : Z
}.

Record Store := {
  sessions : list Session;
  questions : list Question;
  results : list ResultRow
}.

Definition empty_store : Store :=
  {| sessions := []; questions := []; results := [] |}.

(** [INTEGER PRIMARY KEY AUTOINCREMENT]: one more than the largest id ever
    used; no row of these tables is ever deleted. *)
Definition next_id (ids : list Z) : Z := 1 + fold_right Z.max 0 ids.

(** ** Seed data *)

Definition dquote : string := String "034"%char EmptyString.

Definition business_plan : string := "Business Plan".

Definition seed_rows : list (string * string * string * string * string) :=
  [ ("Womit beginnt eine Geschäftsidee im Kern?", "C", "Geschäftsidee",
     business_plan,
     "A) Mit einem schönen Produkt|B) Mit einer hohen Gewinnerwartung|C) Mit einem Kundenproblem|D) Mit Werbung");
    ("Was bedeutet " +:+ dquote +:+ "Value Proposition" +:+ dquote +:+ "?",
     "B", "Value Proposition", business_plan,
     "A) Das Logo des Unternehmens|B) Der zentrale Nutzen für den Kunden|C) Die Kostenstruktur des Unternehmens|D) Die Wettbewerber");
    ("Wozu dient das Business Model Canvas?", "B", "Business Model Canvas",
     business_plan,
     "A) Zur Berechnung von Steuern|B) Zur strukturierten und visuellen Darstellung des Geschäftsmodells|C) Zur Produktgestaltung|D) Zur Erstellung eines Vertrags");
    ("Was sind " +:+ dquote +:+ "Revenue Streams" +:+ dquote +:+ "?",
     "C", "Revenue Streams", business_plan,
     "A) Die Ausgaben eines Unternehmens|B) Die Mitarbeitenden|C) Die Einnahmequellen eines Unternehmens|D) Die Kundensegmente");
    ("Warum ist das Gründerteam im Businessplan wichtig?", "B", "Gründerteam",
     business_plan,
     "A) Weil viele Gründer immer besser sind|B) Weil Investoren zuerst auf die Menschen schauen|C) Weil es gesetzlich vorgeschrieben ist|D) Weil das Team für Werbung zuständig ist") ].

Definition insert_question (db : Store)
    (row : string * string * string * string * string) : Store :=
  let '(text, correct, tag, topic, opts) := row in
  {| sessions := sessions db;
     questions := questions db ++
       [ {| q_id := next_id (q_id <$> questions db);
            q_question_text := text; q_correct_answer := correct;
            q_skill_tag := tag; q_topic := topic; q_options := opts |} ];
     results := results db |}.

Definition seed_business_plan_questions (db : Store) : Store :=
  fold_left insert_question seed_rows db.

(** The part of [init_database] that touches the three tables above: the
    tables are created if missing, and the questions are seeded when no
    question of the topic exists. *)
Definition init_database (db : Store) : Store :=
  if bool_decide (length (filter (fun q => q_topic q = business_plan)
                                  (questions db)) = 0%nat)
  then seed_business_plan_questions db
  else db.

(** ** Sessions *)

Definition create_session (db : Store) (now : Z)
    (teacher_id topic subtopic : string) : Store * Z :=
  let id := next_id (ses_id <$> sessions db) in
  ({| sessions := sessions db ++
        [ {| ses_id := id; ses_teacher_id := teacher_id; ses_topic := topic;
             ses_subtopic := subtopic; ses_created_at := now;
             ses_is_active := true |} ];
      questions := questions db;
      results := results db |}, id).

Definition get_session (db : Store) (session_id : Z) : option Session :=
  find (fun s => bool_decide (ses_id s = session_id)) (sessions db).

Definition deactivate (s : Session) : Session :=
  {| ses_id := ses_id s; ses_teacher_id := ses_teacher_id s;
     ses_topic := ses_topic s; ses_subtopic := ses_subtopic s;
     ses_created_at := ses_created_at s; ses_is_active := false |}.

Definition close_session (db : Store) (session_id : Z) : Store :=
  {| sessions := (fun s => if bool_decide (ses_id s = session_id)
                           then deactivate s else s) <$> sessions db;
     questions := questions db;
     results := results db |}.

(** ** Questions *)

Definition get_questions_by_topic (db : Store) (topic : string) : list Question :=
  filter (fun q => q_topic q = topic) (questions db).

(** The row a student receives: no [correct_answer] column. *)
Record StudentQuestion := {
  sq_id : Z;
  sq_question_text : string;
  sq_skill_tag : string;
  sq_options : string
}.

Definition for_student (q : Question) : StudentQuestion :=
  {| sq_id := q_id q; sq_question_text := q_question_text q;
     sq_skill_tag := q_skill_tag q; sq_options := q_options q |}.

Definition get_questions_for_student (db : Store) (topic : string)
    : list StudentQuestion :=
  for_student <$> filter (fun q => q_topic q = topic) (questions db).

Definition get_correct_answer (db : Store) (question_id : Z) : string :=
  match find (fun q => bool_decide (q_id q = question_id)) (questions db) with
  | Some q => q_correct_answer q
  | None => ""
  end.

(** ** Results *)

Definition save_student_answer (db : Store) (now : Z) (session_id : Z)
    (student_id : string) (question_id : Z) (selected_answer : string)
    (is_correct : bool) : Store :=
  {| sessions := sessions db;
     questions := questions db;
     results := results db ++
       [ {| r_id := next_id (r_id <$> results db);
            r_session_id := session_id; r_student_id := student_id;
            r_question_id := question_id;
            r_selected_answer := selected_answer;
            r_is_correct := is_correct; r_answered_at := now |} ] |}.

Definition of_session (session_id : Z) (r : ResultRow) : Prop :=
  r_session_id r = session_id.

Definition of_student (session_id : Z) (student_id : string) (r : ResultRow) : Prop :=
  r_session_id r = session_id /\ r_student_id r = student_id.

#[global] Instance of_session_dec sid r : Decision (of_session sid r).
Proof. unfold of_session. apply _. Defined.

#[global] Instance of_student_dec sid stu r : Decision (of_student sid stu r).
Proof. unfold of_student. apply _. Defined.

Definition check_student_completed (db : Store) (session_id : Z)
    (student_id : string) : bool :=
  bool_decide (0 < length (filter (of_student session_id student_id) (results db)))%nat.

Definition get_participation_count (db : Store) (session_id : Z) : Z :=
  Z.of_nat (length (remove_dups
    (r_student_id <$> filter (of_session session_id) (results db)))).

(** ** Skill statistics *)

(** One row of [get_skill_statistics]: the four selected columns.
    [success_rate] is an SQL value; [None] is NULL. *)
Record SkillStat := {
  skill_tag : string;
  total_answers : Z;
  correct_answers : Z;
  success_rate : option spec_float
}.

(** [dict(row)]: the column names of the SELECT list and their values. *)
Inductive SqlValue :=
| VText (s : string)
| VInteger (z : Z)
| VReal (x : spec_float)
| VNull.

Definition dict_of_row (r : SkillStat) : list (string * SqlValue) :=
  [ ("skill_tag", VText (skill_tag r));
    ("total_answers", VInteger (total_answers r));
    ("correct_answers", VInteger (correct_answers r));
    ("success_rate", match success_rate r with Some x => VReal x | None => VNull end) ].

(** [results r JOIN questions q ON r.question_id = q.id WHERE r.session_id = ?] *)
Definition joined (db : Store) (session_id : Z) : list (ResultRow * Question) :=
  r ← filter (of_session session_id) (results db);
  q ← filter (fun q => q_id q = r_question_id r) (questions db);
  [(r, q)].

(** SQL [/]: NULL when the divisor is zero. *)
Definition sql_div (x y : spec_float) : option spec_float :=
  if is_zero y then None else Some (fdiv x y).

(** [ROUND(CAST(correct AS FLOAT) / total * 100, 1)] *)
Definition sql_success_rate (correct total : Z) : option spec_float :=
  x ← sql_div (of_int correct) (of_int total);
  Some (SqliteRound.sql_round1 (fmul x (of_int 100))).

Definition count_correct (rows : list (ResultRow * Question)) : Z :=
  Z.of_nat (length (filter (fun rq => r_is_correct rq.1 = true) rows)).

Definition in_group (tag : string) (rq : ResultRow * Question) : Prop :=
  q_skill_tag rq.2 = tag.

#[global] Instance in_group_dec tag rq : Decision (in_group tag rq).
Proof. unfold in_group. apply _. Defined.

Definition skill_row (rows : list (ResultRow * Question)) (tag : string) : SkillStat :=
  let grp := filter (in_group tag) rows in
  let total := Z.of_nat (length grp) in
  let correct := count_correct grp in
  {| skill_tag := tag; total_answers := total; correct_answers := correct;
     success_rate := sql_success_rate correct total |}.

(** The sorter of [GROUP BY]: the keys in ascending order of their bytes
    (the BINARY collation). *)
Fixpoint insert_tag (tag : string) (tags : list string) : list string :=
  match tags with
  | [] => [tag]
  | tag' :: rest =>
      if String.leb tag tag' then tag :: tags else tag' :: insert_tag tag rest
  end.

Definition sort_tags (tags : list string) : list string :=
  foldr insert_tag [] tags.

(** [GROUP BY q.skill_tag]: one output row per tag that occurs among the
    joined rows.  SQLite groups by sorting on the key, so the rows come in
    ascending order of the tag. *)
Definition get_skill_statistics (db : Store) (session_id : Z) : list SkillStat :=
  let rows := joined db session_id in
  skill_row rows <$> sort_tags (remove_dups ((fun rq => q_skill_tag rq.2) <$> rows)).

(** ** Aggregated results *)

Inductive PyError :=
| ZeroDivisionError | TypeError | IndexError | KeyError | IntegrityError
| StreamlitAPIException.

Inductive PyResult (A : Type) :=
| Ok (a : A)
| Raise (e : PyError).
Arguments Ok {A} a.
Arguments Raise {A} e.

#[global] Instance py_bind : MBind PyResult := fun A B f m =>
  match m with Ok a => f a | Raise e => Raise e end.

(** A Python number. *)
Inductive PyNum :=
| PyInt (z : Z)
| PyFloat (x : spec_float).

(** Python [a / b] with [a] a column value that may be [None] and [b] an
    [int]. *)
Definition py_truediv (a : option Z) (b : Z) : PyResult spec_float :=
  match a with
  | None => Raise TypeError
  | Some a => if bool_decide (b = 0) then Raise ZeroDivisionError
              else Ok (fdiv (exact_int a) (exact_int b))
  end.

Record Aggregated := {
  agg_session_id : Z;
  agg_topic : string;
  agg_subtopic : string;
  participant_count : Z;
  overall_success_rate : PyNum;
  skill_breakdown : list SkillStat
}.

(** [SELECT COUNT(id) AS total, SUM(is_correct) AS correct]: [SUM] over no row
    is NULL. *)
Definition overall_row (db : Store) (session_id : Z) : Z * option Z :=
  let rows := filter (of_session session_id) (results db) in
  (Z.of_nat (length rows),
   match rows with
   | [] => None
   | _ => Some (Z.of_nat (length (filter (fun r => r_is_correct r = true) rows)))
   end).

Definition get_aggregated_results (db : Store) (session_id : Z)
    : PyResult Aggregated :=
  let participant_count := get_participation_count db session_id in
  let skill_stats := get_skill_statistics db session_id in
  let '(total, correct) := overall_row db session_id in
  overall_rate ←
    (if bool_decide (total > 0)
     then x ← py_truediv correct total;
          Ok (PyFloat (py_round1 (fmul x (exact_int 100))))
     else Ok (PyInt 0));
  let session := get_session db session_id in
  Ok {| agg_session_id := session_id;
        agg_topic := match session with Some s => ses_topic s | None => "Unknown" end;
        agg_subtopic := match session with Some s => ses_subtopic s | None => "Unknown" end;
        participant_count := participant_count;
        overall_success_rate := overall_rate;
        skill_breakdown := skill_stats |}.

(** ** Sessions of a teacher *)

(** [ORDER BY created_at DESC]: the rows by falling creation time; rows with
    equal times keep their table order, as SQLite's sorter leaves them. *)
Fixpoint insert_newest (s : Session) (l : list Session) : list Session :=
  match l with
  | [] => [s]
  | s' :: rest =>
      if bool_decide (ses_created_at s' <= ses_created_at s) then s :: l
      else s' :: insert_newest s rest
  end.

Definition newest_first (l : list Session) : list Session :=
  foldr insert_newest [] l.

Definition get_teacher_sessions (db : Store) (teacher_id : string) : list Session :=
  newest_first (filter (fun s => ses_teacher_id s = teacher_id) (sessions db)).

(** ** Users *)

(** The [users] table.  No other function of the application reads or
    writes it, so it is kept apart from the store. *)
Record User := {
  u_id : Z;
  u_username : string;
  u_password : string;
  u_role : string
}.

(** The part of [init_database] on the users table: the default teacher is
    inserted when no user of that name exists. *)
Definition seed_default_teacher (users : list User) : list User :=
  if bool_decide (length (filter (fun u => u_username u = "teacher") users) = 0%nat)
  then users ++ [ {| u_id := next_id (u_id <$> users); u_username := "teacher";
                     u_password := "demo123"; u_role := "teacher" |} ]
  else users.

(** The dictionary [authenticate_user] returns: id, username and role. *)
Record UserInfo := {
  ui_id : Z;
  ui_username : string;
  ui_role : string
}.

Definition credentials (username password : string) (u : User) : Prop :=
  u_username u = username /\ u_password u = password.

#[global] Instance credentials_dec username password u :
  Decision (credentials username password u).
Proof. unfold credentials. apply _. Defined.

Definition authenticate_user (users : list User) (username password : string)
    : option UserInfo :=
  match filter (credentials username password) users with
  | row :: _ => Some {| ui_id := u_id row; ui_username := u_username row;
                        ui_role := u_role row |}
  | [] => None
  end.

End Database.

(* ===================================================================== *)
(** * app.py: the student flow *)
(* ===================================================================== *)

Module App.
Import Float64 Database.

(** The student's part of [st.session_state].  Times are microseconds (the
    resolution of [datetime]). *)
Record RunState := {
  student_id : option string;
  current_question : Z;
  answers : gmap Z string;
  quiz_started : bool;
  quiz_end_time : option Z;
  quiz_completed : bool
}.

(** [init_session_state] on a new browser session. *)
Definition init_session_state : RunState :=
  {| student_id := None; current_question := 0; answers := ∅;
     quiz_started := false; quiz_end_time := None; quiz_completed := false |}.

Definition set_student_id (st : RunState) (v : option string) : RunState :=
  {| student_id := v; current_question := current_question st;
     answers := answers st; quiz_started := quiz_started st;
     quiz_end_time := quiz_end_time st; quiz_completed := quiz_completed st |}.

Definition set_current_question (st : RunState) (v : Z) : RunState :=
  {| student_id := student_id st; current_question := v;
     answers := answers st; quiz_started := quiz_started st;
     quiz_end_time := quiz_end_time st; quiz_completed := quiz_completed st |}.

Definition set_answers (st : RunState) (v : gmap Z string) : RunState :=
  {| student_id := student_id st; current_question := current_question st;
     answers := v; quiz_started := quiz_started st;
     quiz_end_time := quiz_end_time st; quiz_completed := quiz_completed st |}.

Definition set_quiz_completed (st : RunState) (v : bool) : RunState :=
  {| student_id := student_id st; current_question := current_question st;
     answers := answers st; quiz_started := quiz_started st;
     quiz_end_time := quiz_end_time st; quiz_completed := v |}.

(** The four assignments of the Start button. *)
Definition start_quiz (st : RunState) (now : Z) : RunState :=
  {| student_id := student_id st; current_question := 0; answers := ∅;
     quiz_started := true; quiz_end_time := Some (now + 300000000);
     quiz_completed := quiz_completed st |}.

(** The button the browser reports as pressed in this execution of the
    script, if any.  [ClickOption k] is the [k]-th option button of the
    question on display. *)
Inductive Click :=
| NoClick
| ClickStart
| ClickOption (k : nat)
| ClickPrevious
| ClickNext
| ClickSubmit.

#[global] Instance Click_eq_dec : EqDecision Click.
Proof. solve_decision. Defined.

(** What one execution of the script gets from outside: the [session_id]
    query parameter (already through [int]), the clock, the identifier
    [str(uuid.uuid4())[:8]] would produce, and the pressed button.

    The parameter is an integer that SQLite can hold.  A parameter that
    [int] does not accept makes [int(session_id)] raise ValueError, and an
    integer beyond 64 bits makes the query of [get_session] raise
    OverflowError, in both cases before anything is read or written; such
    requests are not requests of this model. *)
Record Request := {
  session_id_param : option Z;
  now : Z;
  fresh_id : string;
  click : Click
}.

Inductive View :=
| InvalidAccess
| SessionNotFound
| SessionEnded
| QuizCompletion
| NoQuestions
| StartScreen
| QuizPage (warning : bool).

(** How an execution of the script ends: it runs to its end or to a [return]
    with a page on display, it stops in [st.rerun()], or it raises. *)
Inductive Outcome :=
| Rendered (v : View)
| Rerun
| Raised (e : PyError).

(** ** submit_all_answers *)

Definition submit_answer (now session_id : Z) (student : string)
    (selections : gmap Z string) (db : Store) (question : StudentQuestion) : Store :=
  let q_id := sq_id question in
  let selected := default "" (selections !! q_id) in
  let correct_answer := get_correct_answer db q_id in
  let is_correct := bool_decide (selected = correct_answer) in
  save_student_answer db now session_id student q_id selected is_correct.

(** [student_id] is a NOT NULL column: inserting [None] raises. *)
Definition submit_all_answers (db : Store) (st : RunState) (now session_id : Z)
    (questions : list StudentQuestion) : PyResult Store :=
  match student_id st with
  | Some student =>
      Ok (fold_left (submit_answer now session_id student (answers st)) questions db)
  | None =>
      match questions with
      | [] => Ok db
      | _ => Raise IntegrityError
      end
  end.

(** ** Pieces of the quiz page *)

(** [s.split(sep)] for a one-character separator. *)
Fixpoint split (sep : ascii) (s : string) : list string :=
  match s with
  | EmptyString => [EmptyString]
  | String c rest =>
      if bool_decide (c = sep) then EmptyString :: split sep rest
      else match split sep rest with
           | p :: ps => String c p :: ps
           | [] => [String c EmptyString]
           end
  end.

(** [opt[0]] *)
Definition first_char (opt : string) : PyResult string :=
  match opt with
  | String c _ => Ok (String c EmptyString)
  | EmptyString => Raise IndexError
  end.

(** The loop over the option buttons: the letter of the pressed button, if
    the loop reaches it.  The options of a question are taken to differ in
    their first character, as the seeded ones do: Streamlit refuses a second
    button with the key of an earlier one, which is not modelled. *)
Fixpoint option_buttons (options : list string) (k : nat) (pressed : Click)
    : PyResult (option string) :=
  match options with
  | [] => Ok None
  | opt :: rest =>
      option_letter ← first_char opt;
      if bool_decide (pressed = ClickOption k) then Ok (Some option_letter)
      else option_buttons rest (S k) pressed
  end.

(** [int(remaining.total_seconds())] clipped at 0. *)
Definition remaining_seconds (end_time now : Z) : Z :=
  Z.max 0 (Z.quot (end_time - now) 1000000).

(** ** student_quiz *)

Definition quiz_page (db : Store) (st : RunState) (req : Request)
    (session_id : Z) (questions : list StudentQuestion)
    : Store * RunState * Outcome :=
  let n := Z.of_nat (length questions) in
  let cq := current_question st in
  if bool_decide (cq < 0 \/ n < cq) then (db, st, Raised StreamlitAPIException)
  else
  match questions !! Z.to_nat cq with
  | None => (db, st, Raised IndexError)
  | Some current_q =>
    match option_buttons (split "|" (sq_options current_q)) 0 (click req) with
    | Raise e => (db, st, Raised e)
    | Ok (Some option_letter) =>
        (db, set_answers st (<[sq_id current_q := option_letter]> (answers st)), Rerun)
    | Ok None =>
        if bool_decide (cq > 0) && bool_decide (click req = ClickPrevious)
        then (db, set_current_question st (cq - 1), Rerun)
        else if bool_decide (cq < n - 1) then
          if bool_decide (click req = ClickNext)
          then (db, set_current_question st (cq + 1), Rerun)
          else (db, st, Rendered (QuizPage false))
        else if bool_decide (click req = ClickSubmit) then
          if bool_decide (Z.of_nat (size (answers st)) < n)
          then (db, st, Rendered (QuizPage true))
          else match submit_all_answers db st (now req) session_id questions with
               | Ok db' => (db', set_quiz_completed st true, Rerun)
               | Raise e => (db, st, Raised e)
               end
        else (db, st, Rendered (QuizPage false))
    end
  end.

Definition student_quiz (db : Store) (st : RunState) (req : Request)
    : Store * RunState * Outcome :=
  match session_id_param req with
  | None => (db, st, Rendered InvalidAccess)
  | Some session_id =>
    match get_session db session_id with
    | None => (db, st, Rendered SessionNotFound)
    | Some session =>
      if negb (ses_is_active session) then (db, st, Rendered SessionEnded)
      else
      let st := match student_id st with
                | None => set_student_id st (Some (fresh_id req))
                | Some _ => st
                end in
      let st := if check_student_completed db session_id (default "" (student_id st))
                then set_quiz_completed st true else st in
      if quiz_completed st then (db, st, Rendered QuizCompletion)
      else
      let questions := get_questions_for_student db business_plan in
      match questions with
      | [] => (db, st, Rendered NoQuestions)
      | _ :: _ =>
        if negb (quiz_started st) then
          if bool_decide (click req = ClickStart)
          then (db, start_quiz st (now req), Rerun)
          else (db, st, Rendered StartScreen)
        else
        match quiz_end_time st with
        | Some end_time =>
            if bool_decide (remaining_seconds end_time (now req) <= 0) then
              match submit_all_answers db st (now req) session_id questions with
              | Ok db' => (db', set_quiz_completed st true, Rerun)
              | Raise e => (db, st, Raised e)
              end
            else quiz_page db st req session_id questions
        | None => quiz_page db st req session_id questions
        end
      end
    end
  end.

End App.

(* ===================================================================== *)
(** * The application as a transition system *)
(* ===================================================================== *)

Module System.
Import Database App.

(** The store together with the [st.session_state] of every browser session
    that has loaded the student page. *)
Record State := {
  store : Store;
  clients : gmap nat RunState
}.

(** What can happen next: the teacher starts a session (the form of
    [create_new_session], whose two select boxes offer one choice each) or
    ends one (the End Session button), or the script runs once for a
    student's browser. *)
Inductive Action :=
| StartSession (now : Z) (teacher_id : string)
| EndSession (session_id : Z)
| StudentRun (client : nat) (req : Request).

Definition create_new_session (db : Store) (now : Z) (teacher_id : string)
    : Store * Z :=
  create_session db now teacher_id business_plan "Fundamental Components".

Definition client_state (sys : State) (client : nat) : RunState :=
  default init_session_state (clients sys !! client).

Definition step (sys : State) (a : Action) : State :=
  match a with
  | StartSession now teacher_id =>
      {| store := (create_new_session (store sys) now teacher_id).1;
         clients := clients sys |}
  | EndSession session_id =>
      {| store := close_session (store sys) session_id;
         clients := clients sys |}
  | StudentRun client req =>
      let '(db, st, _) := student_quiz (store sys) (client_state sys client) req in
      {| store := db; clients := <[client := st]> (clients sys) |}
  end.

Definition run (sys : State) (actions : list Action) : State :=
  fold_left step actions sys.

(** The system after [init_database] on a new file, with no browser
    connected. *)
Definition initial : State :=
  {| store := init_database empty_store; clients := ∅ |}.

End System.

(* ===================================================================== *)
(** * ai_engine.py: the local fallback report *)
(* ===================================================================== *)

Module AiEngine.

(** One entry of ["skill_breakdown"] as the report reads it: ['skill_tag'] is
    indexed, ["success_rate"] is read with [.get] and may be missing.  A
    success rate is a Python number, taken here as the rational it denotes. *)
Record SkillEntry := {
  se_skill_tag : string;
  se_success_rate : option Q
}.

(** The dictionary [aggregated_results]; every key is read with [.get]. *)
Record ReportInput := {
  in_topic : option string;
  in_subtopic : option string;
  in_participant_count : option Z;
  in_overall_success_rate : option Q;
  in_skill_breakdown : option (list SkillEntry)
}.

Inductive Indicator := Green | Yellow | Red.

(** The pieces the report string is concatenated from, one per [report +=]
    group of the source, with the values its f-strings interpolate. *)
Inductive Fragment :=
| Header (topic subtopic : string) (participants : Z) (overall : Q)
| SkillLine (indicator : Indicator) (tag : string) (rate : Q)
| RecommendationsHeading
| FocusArea (tag : string) (rate : Q)
| Strength (tag : string) (rate : Q)
| ReviewNote
| ExcellentNote
| Footer.

Inductive Report :=
| NoData
| Full (fragments : list Fragment).

Definition Qltb (a b : Q) : bool := negb (Qle_bool b a).

(** [x.get("success_rate", 0)], the sort key. *)
Definition sort_key (s : SkillEntry) : Q := default 0%Q (se_success_rate s).

(** [sorted(l, key=...)] is stable and compares keys with [<] only. *)
Fixpoint insert_stable (x : SkillEntry) (l : list SkillEntry) : list SkillEntry :=
  match l with
  | [] => [x]
  | y :: ys =>
      if Qltb (sort_key y) (sort_key x) then y :: insert_stable x ys
      else x :: y :: ys
  end.

Definition sorted (l : list SkillEntry) : list SkillEntry :=
  fold_right insert_stable [] l.

Definition skill_line (skill : SkillEntry) : Fragment :=
  let rate := default 0%Q (se_success_rate skill) in
  let indicator :=
    if Qle_bool 80 rate then Green
    else if Qle_bool 60 rate then Yellow
    else Red in
  SkillLine indicator (se_skill_tag skill) rate.

Definition focus_area (weakest : option SkillEntry) : list Fragment :=
  match weakest with
  | Some w =>
      if Qltb (default 100%Q (se_success_rate w)) 70
      then [FocusArea (se_skill_tag w) (default 100%Q (se_success_rate w))]
      else []
  | None => []
  end.

Definition strength (strongest : option SkillEntry) : list Fragment :=
  match strongest with
  | Some s =>
      if Qle_bool 80 (default 0%Q (se_success_rate s))
      then [Strength (se_skill_tag s) (default 0%Q (se_success_rate s))]
      else []
  | None => []
  end.

Definition general_note (overall_rate : Q) : list Fragment :=
  if Qltb overall_rate 60 then [ReviewNote]
  else if Qle_bool 80 overall_rate then [ExcellentNote]
  else [].

Definition generate_fallback_report (aggregated_results : ReportInput) : Report :=
  let skill_breakdown := default [] (in_skill_breakdown aggregated_results) in
  match skill_breakdown with
  | [] => NoData
  | _ :: _ =>
      let sorted_skills := sorted skill_breakdown in
      let weakest := head sorted_skills in
      let strongest := last sorted_skills in
      Full
        ([Header (default "Unknown" (in_topic aggregated_results))
                 (default "Unknown" (in_subtopic aggregated_results))
                 (default 0 (in_participant_count aggregated_results))
                 (default 0%Q (in_overall_success_rate aggregated_results))]
         ++ (skill_line <$> skill_breakdown)
         ++ [RecommendationsHeading]
         ++ focus_area weakest
         ++ strength strongest
         ++ general_note (default 0%Q (in_overall_success_rate aggregated_results))
         ++ [Footer])
  end.

(** ** analyze_individual_performance *)

(** The dictionary [student_results]; both keys are read with [.get]. *)
Record StudentResults := {
  sr_correct : option Z;
  sr_total : option Z
}.

(** The four messages of [analyze_individual_performance], with the values
    their f-strings interpolate. *)
Inductive Analysis :=
| NoAnswersRecorded
| Excellent (correct total : Z) (percentage : spec_float)
| GoodJob (correct total : Z) (percentage : spec_float)
| ReviewAgain (correct total : Z) (percentage : spec_float).

(** Python [x >= n] for a float [x] and an integer [n] that binary64 holds
    exactly. *)
Definition float_ge (x : spec_float) (n : Z) : bool :=
  match SFcompare x (Float64.of_int n) with
  | Some Gt | Some Eq => true
  | _ => false
  end.

(** The two counts are integers whose quotient binary64 can hold: where
    [correct / total] lies beyond the largest float, Python raises
    OverflowError, which is not modelled. *)
Definition analyze_individual_performance (student_results : StudentResults)
    : Analysis :=
  let correct := default 0 (sr_correct student_results) in
  let total := default 0 (sr_total student_results) in
  if bool_decide (total = 0) then NoAnswersRecorded
  else
    let percentage :=
      Float64.fmul (Float64.fdiv (Float64.exact_int correct) (Float64.exact_int total))
                   (Float64.exact_int 100) in
    if float_ge percentage 80 then Excellent correct total percentage
    else if float_ge percentage 60 then GoodJob correct total percentage
    else ReviewAgain correct total percentage.

End AiEngine.

(* ===================================================================== *)
(** * Vocabulary of the properties *)
(* ===================================================================== *)

Module Props.
Import Float64 Database App System.

(** ** Stores *)

Definition unique_session_ids (db : Store) : Prop := NoDup (ses_id <$> sessions db).

Definition unique_question_ids (db : Store) : Prop := NoDup (q_id <$> questions db).

(** What the schema and the two writers of the tables guarantee: the primary
    keys, the topic of every session the form creates, and a correct answer
    that is an option letter, so not the empty string. *)
Definition well_formed (db : Store) : Prop :=
  unique_session_ids db /\ unique_question_ids db /\
  (forall s, s ∈ sessions db -> ses_topic s = business_plan) /\
  (forall q, q ∈ questions db -> q_correct_answer q <> "").

(** The session is in the table and its flag is 0. *)
Definition closed (db : Store) (session_id : Z) : Prop :=
  exists s, get_session db session_id = Some s /\ ses_is_active s = false.

(** ** Answer records *)

Definition of_triple (sid : Z) (stu : string) (qid : Z) (r : ResultRow) : Prop :=
  r_session_id r = sid /\ r_student_id r = stu /\ r_question_id r = qid.

#[global] Instance of_triple_dec sid stu qid r : Decision (of_triple sid stu qid r).
Proof. unfold of_triple. apply _. Defined.

(** Number of answer records of the triple. *)
Definition answer_count (db : Store) (sid : Z) (stu : string) (qid : Z) : nat :=
  length (filter (of_triple sid stu qid) (results db)).

Definition at_most_once (db : Store) : Prop :=
  forall sid stu qid, (answer_count db sid stu qid <= 1)%nat.

(** [r] is the row [submit_answer] inserts for [q]. *)
Definition answer_row (db : Store) (now session_id : Z) (student : string)
    (selections : gmap Z string) (q : StudentQuestion) (r : ResultRow) : Prop :=
  r_session_id r = session_id /\ r_student_id r = student /\
  r_question_id r = sq_id q /\
  r_selected_answer r = default "" (selections !! sq_id q) /\
  r_is_correct r =
    bool_decide (default "" (selections !! sq_id q) = get_correct_answer db (sq_id q)) /\
  r_answered_at r = now.

(** ** Runs *)

(** The question set of the session's topic, as a student receives it. *)
Definition topic_set (db : Store) (session : Session) : list StudentQuestion :=
  get_questions_for_student db (ses_topic session).

(** The test of the timer block holds: no second of the five minutes is
    left. *)
Definition deadline_passed (st : RunState) (req : Request) : Prop :=
  exists end_time, quiz_end_time st = Some end_time /\
                   remaining_seconds end_time (now req) <= 0.

#[global] Instance deadline_passed_dec st req : Decision (deadline_passed st req).
Proof.
  unfold deadline_passed. destruct (quiz_end_time st) as [t|].
  - destruct (decide (remaining_seconds t (now req) <= 0)).
    + left. eauto.
    + right. intros (t' & [= <-] & H). contradiction.
  - right. intros (t' & [=] & _).
Defined.

(** The student identifier the script works with once it is past the
    identifier step, and the state after that step. *)
Definition effective_id (st : RunState) (req : Request) : string :=
  match student_id st with Some s => s | None => fresh_id req end.

Definition with_id (st : RunState) (req : Request) : RunState :=
  match student_id st with
  | None => set_student_id st (Some (fresh_id req))
  | Some _ => st
  end.

(** The run of [student] in the session is in progress: started, not
    completed, and nothing of it is in the store yet. *)
Definition in_progress (db : Store) (session_id : Z) (student : string)
    (st : RunState) : Prop :=
  student_id st = Some student /\ quiz_started st = true /\
  quiz_completed st = false /\
  check_student_completed db session_id student = false.

(** Every selection is for a question of the set on offer. *)
Definition selections_in_set (db : Store) (st : RunState) : Prop :=
  forall qid, is_Some (answers st !! qid) ->
              qid ∈ sq_id <$> get_questions_for_student db business_plan.

(** [student_quiz db st req] went through [submit_all_answers] and ended with
    [db'] and [st']. *)
Definition submitted (db : Store) (st : RunState) (req : Request)
    (db' : Store) (st' : RunState) : Prop :=
  exists session_id session rows,
    let student := effective_id st req in
    let served := get_questions_for_student db business_plan in
    session_id_param req = Some session_id /\
    get_session db session_id = Some session /\
    ses_is_active session = true /\
    check_student_completed db session_id student = false /\
    quiz_completed st = false /\ quiz_started st = true /\
    served <> [] /\
    (deadline_passed st req \/
     ~ deadline_passed st req /\ click req = ClickSubmit /\
     (length served <= size (answers st))%nat) /\
    sessions db' = sessions db /\ questions db' = questions db /\
    results db' = results db ++ rows /\
    Forall2 (answer_row db (now req) session_id student (answers st)) served rows /\
    student_id st' = Some student /\ current_question st' = current_question st /\
    answers st' = answers st /\ quiz_started st' = true /\
    quiz_end_time st' = quiz_end_time st /\ quiz_completed st' = true.

(** ** Aggregation *)

(** The question with its text replaced. *)
Definition with_question_text (text : Question -> string) (q : Question) : Question :=
  {| q_id := q_id q; q_question_text := text q;
     q_correct_answer := q_correct_answer q; q_skill_tag := q_skill_tag q;
     q_topic := q_topic q; q_options := q_options q |}.

(** The store with the text of every question replaced. *)
Definition rewrite_texts (text : Question -> string) (db : Store) : Store :=
  {| sessions := sessions db;
     questions := with_question_text text <$> questions db;
     results := results db |}.

(** The rows of the join that fall into the group of a tag. *)
Definition group_of (db : Store) (session_id : Z) (tag : string)
    : list (ResultRow * Question) :=
  filter (in_group tag) (joined db session_id).

(** The joined row with the text of its question replaced. *)
Definition retext_pair (text : Question -> string) (rq : ResultRow * Question)
    : ResultRow * Question :=
  (rq.1, with_question_text text rq.2).

(** ** The success rate in the words of the specification *)

(** The question an answer record answers. *)
Definition question_of (db : Store) (r : ResultRow) : option Question :=
  find (fun q => bool_decide (q_id q = r_question_id r)) (questions db).

(** The answer record belongs to the session and its question carries the
    tag. *)
Definition of_skill (db : Store) (session_id : Z) (tag : string) (r : ResultRow)
    : Prop :=
  r_session_id r = session_id /\ q_skill_tag <$> question_of db r = Some tag.

#[global] Instance of_skill_dec db sid tag r : Decision (of_skill db sid tag r).
Proof. unfold of_skill. apply _. Defined.







(** ** Further vocabulary *)

(** The question with its correct answer replaced. *)
Definition with_correct_answer (answer : Question -> string) (q : Question) : Question :=
  {| q_id := q_id q; q_question_text := q_question_text q;
     q_correct_answer := answer q; q_skill_tag := q_skill_tag q;
     q_topic := q_topic q; q_options := q_options q |}.

(** The store with the correct answer of every question replaced. *)
Definition rewrite_answers (answer : Question -> string) (db : Store) : Store :=
  {| sessions := sessions db;
     questions := with_correct_answer answer <$> questions db;
     results := results db |}.

(** The sum of a column of the skill statistics. *)
Definition sum_of (f : SkillStat -> Z) (rows : list SkillStat) : Z :=
  foldr Z.add 0 (f <$> rows).

(** The question pointer is an index into the set on offer (or 0 when the
    set is empty). *)
Definition pointer_in_range (db : Store) (st : RunState) : Prop :=
  0 <= current_question st /\
  (current_question st = 0 \/
   current_question st < Z.of_nat (length (get_questions_for_student db business_plan))).

(** Every option of every question on offer has at least one character. *)
Definition options_well_formed (db : Store) : Prop :=
  forall q, q ∈ get_questions_for_student db business_plan ->
            Forall (fun opt => opt <> "") (split "|" (sq_options q)).

(** The letter of an option: its first character. *)
Definition letter_of (opt : string) : string :=
  match opt with String c _ => String c EmptyString | EmptyString => EmptyString end.

(** A student with an answer record in a session has exactly one record for
    every question on offer. *)
Definition complete_or_absent (db : Store) : Prop :=
  forall sid stu, check_student_completed db sid stu = true ->
    forall q, q ∈ get_questions_for_student db business_plan ->
              answer_count db sid stu (sq_id q) = 1%nat.

(** The same session, except that the active flag may have dropped. *)
Definition same_session_but_flag (s s' : Session) : Prop :=
  ses_id s' = ses_id s /\ ses_teacher_id s' = ses_teacher_id s /\
  ses_topic s' = ses_topic s /\ ses_subtopic s' = ses_subtopic s /\
  ses_created_at s' = ses_created_at s /\
  (ses_is_active s = false -> ses_is_active s' = false).

(** ** The report *)

(** Entries in ascending order of their sort key. *)
Definition ascending : list AiEngine.SkillEntry -> Prop :=
  StronglySorted (fun a b => (AiEngine.sort_key a <= AiEngine.sort_key b)%Q).

(** The answer record with its student renamed. *)
Definition with_student (name : string -> string) (r : ResultRow) : ResultRow :=
  {| r_id := r_id r; r_session_id := r_session_id r;
     r_student_id := name (r_student_id r); r_question_id := r_question_id r;
     r_selected_answer := r_selected_answer r; r_is_correct := r_is_correct r;
     r_answered_at := r_answered_at r |}.

(** The store with the students of all answer records renamed. *)
Definition rename_students (name : string -> string) (db : Store) : Store :=
  {| sessions := sessions db;
     questions := questions db;
     results := with_student name <$> results db |}.

Definition info_of (u : User) : UserInfo :=
  {| ui_id := u_id u; ui_username := u_username u; ui_role := u_role u |}.

End Props.

(* ===================================================================== *)
(** * A classroom scenario *)
(* ===================================================================== *)

Module Scenario.
Import Database App System Props.

Definition student : string := "3f9a1c2e".

Definition request (now : Z) (click : Click) : Request :=
  {| session_id_param := Some 1; now := now; fresh_id := student; click := click |}.

(** A teacher starts session 1; a student loads the page, starts the quiz at
    time 0, answers the first question with C (correct) and the second with
    A (wrong), then moves to the last question. *)
Definition answering : list Action :=
  [ StartSession 0 "teacher";
    StudentRun 0 (request 0 NoClick);
    StudentRun 0 (request 0 ClickStart);
    StudentRun 0 (request 20000000 (ClickOption 2));
    StudentRun 0 (request 30000000 ClickNext);
    StudentRun 0 (request 40000000 (ClickOption 0));
    StudentRun 0 (request 50000000 ClickNext);
    StudentRun 0 (request 51000000 ClickNext);
    StudentRun 0 (request 52000000 ClickNext) ].

Definition two_answered : State := run initial answering.

(** The five minutes end at 300000000. *)
Definition late : Request := request 300000000 NoClick.

Definition early_submit : Request := request 60000000 ClickSubmit.

Definition timed_out : State := step two_answered (StudentRun 0 late).

Definition ended_in_flight : State := step two_answered (EndSession 1).

Definition ended_after : State := step timed_out (EndSession 1).

(** [submit_all_answers] called twice in a row. *)
Definition submitted_twice : PyResult Store :=
  let st := client_state two_answered 0 in
  let qs := get_questions_for_student (store two_answered) business_plan in
  db1 ← submit_all_answers (store two_answered) st 300000000 1 qs;
  submit_all_answers db1 st 300000000 1 qs.

(** A student who starts the quiz and lets the time run out without a
    selection. *)
Definition blank_timed_out : State :=
  run initial [ StartSession 0 "teacher";
                StudentRun 0 (request 0 ClickStart);
                StudentRun 0 late ].

(** After the time-out the teacher opens a second session. *)
Definition second_session : State :=
  step timed_out (StartSession 400000000 "teacher").



(** The input of the example: skill A at 40, skill B at 90, nothing else. *)
Definition two_skills : AiEngine.ReportInput :=
  {| AiEngine.in_topic := None; AiEngine.in_subtopic := None; AiEngine.in_participant_count := None;
     AiEngine.in_overall_success_rate := None;
     AiEngine.in_skill_breakdown :=
       Some [ {| AiEngine.se_skill_tag := "A"; AiEngine.se_success_rate := Some 40%Q |};
              {| AiEngine.se_skill_tag := "B"; AiEngine.se_success_rate := Some 90%Q |} ] |}.

End Scenario.

(* ===================================================================== *)
(** * Properties of the binary64 operations *)
(* ===================================================================== *)

Module Float64Facts.
Import Float64.

(** ** Division of a number by itself *)

Lemma div_eucl_shifted (m : positive) (k : Z) :
  0 <= k -> Z.div_eucl (Z.shiftl (Zpos m) k) (Zpos m) = (2 ^ k, 0).
Proof.
  intros Hk. rewrite Z.shiftl_mul_pow2 by exact Hk.
  pose proof (Z.div_mul (2 ^ k) (Zpos m) ltac:(lia)) as Hq.
  pose proof (Z.mod_mul (2 ^ k) (Zpos m) ltac:(lia)) as Hr.
  unfold Z.div, Z.modulo in Hq, Hr.
  rewrite (Z.mul_comm (Zpos m)).
  destruct (Z.div_eucl (2 ^ k * Zpos m) (Zpos m)) as [q r].
  simpl in Hq, Hr. congruence.
Qed.

Lemma fdiv_self (s : bool) (m : positive) (e : Z) :
  fdiv (S754_finite s m e) (S754_finite s m e) = f1.
Proof.
  unfold fdiv, SFdiv, SFdiv_core_binary.
  rewrite !Z.sub_diag.
  change (Z.min (fexp prec emax 0) 0) with (-53).
  change (0 - -53) with 53.
  cbv beta iota zeta.
  rewrite (div_eucl_shifted m 53) by lia.
  assert (Hloc : new_location (Zpos m) 0 = loc_Exact).
  { unfold new_location. destruct (Z.even (Zpos m)); reflexivity. }
  rewrite Hloc. rewrite xorb_nilpotent. vm_compute. reflexivity.
Qed.

(** ** Conversion of an integer *)














(** ** The two exact success rates *)


End Float64Facts.

(* ===================================================================== *)
(** * Properties of the store *)
(* ===================================================================== *)

Module DatabaseFacts.
Import Float64 Database Props.

(** ** Identifiers *)

Lemma next_id_above (ids : list Z) (x : Z) : x ∈ ids -> x < next_id ids.
Proof.
  unfold next_id. induction ids as [|y ids IH]; intros Hx.
  - inversion Hx.
  - apply elem_of_cons in Hx as [->|Hx]; simpl; [lia|].
    specialize (IH Hx). lia.
Qed.

Lemma next_id_fresh (ids : list Z) : next_id ids ∉ ids.
Proof. intros H. apply next_id_above in H. lia. Qed.

(** ** Sessions *)

Lemma find_session_app (l k : list Session) (x : Z) :
  find (fun s => bool_decide (ses_id s = x)) (l ++ k) =
  match find (fun s => bool_decide (ses_id s = x)) l with
  | Some s => Some s
  | None => find (fun s => bool_decide (ses_id s = x)) k
  end.
Proof.
  induction l as [|s l IH]; simpl; [reflexivity|].
  destruct (bool_decide (ses_id s = x)); [reflexivity | exact IH].
Qed.

Lemma find_session_none (l : list Session) (x : Z) :
  x ∉ ses_id <$> l -> find (fun s => bool_decide (ses_id s = x)) l = None.
Proof.
  induction l as [|s l IH]; simpl; intros Hx; [reflexivity|].
  rewrite ?fmap_cons in Hx. apply not_elem_of_cons in Hx as [Hne Hx].
  rewrite bool_decide_eq_false_2 by congruence. auto.
Qed.

Lemma get_session_create_old db now teacher topic subtopic x s :
  get_session db x = Some s ->
  get_session (create_session db now teacher topic subtopic).1 x = Some s.
Proof.
  unfold get_session. simpl. intros H. rewrite find_session_app, H. reflexivity.
Qed.

Lemma get_session_create_new db now teacher topic subtopic :
  let '(db', id) := create_session db now teacher topic subtopic in
  get_session db id = None /\
  exists s, get_session db' id = Some s /\ ses_is_active s = true
            /\ ses_teacher_id s = teacher /\ ses_topic s = topic
            /\ ses_subtopic s = subtopic.
Proof.
  unfold create_session, get_session. simpl.
  pose proof (find_session_none (sessions db) _ (next_id_fresh (ses_id <$> sessions db))) as Hn.
  split; [exact Hn|].
  rewrite find_session_app, Hn. simpl.
  rewrite bool_decide_eq_true_2 by reflexivity. eauto 10.
Qed.

Lemma get_session_close db sid x :
  get_session (close_session db sid) x =
  (fun s => if bool_decide (ses_id s = sid) then deactivate s else s) <$> get_session db x.
Proof.
  unfold get_session, close_session. simpl.
  induction (sessions db) as [|s l IH]; simpl; [reflexivity|].
  replace (ses_id (if bool_decide (ses_id s = sid) then deactivate s else s))
    with (ses_id s) by (destruct (bool_decide (ses_id s = sid)); reflexivity).
  destruct (bool_decide (ses_id s = x)); [reflexivity | exact IH].
Qed.

Lemma get_session_id db x s : get_session db x = Some s -> ses_id s = x.
Proof.
  unfold get_session. intros H. apply find_some in H as [_ H].
  apply bool_decide_eq_true_1 in H. exact H.
Qed.

Lemma deactivate_closed s : ses_is_active s = false -> deactivate s = s.
Proof. destruct s; simpl; intros ->; reflexivity. Qed.

Lemma closed_create db now teacher topic subtopic x :
  closed db x -> closed (create_session db now teacher topic subtopic).1 x.
Proof.
  intros (s & Hs & Ha). exists s. split; [|exact Ha].
  apply get_session_create_old. exact Hs.
Qed.

Lemma closed_close db sid x : closed db x -> closed (close_session db sid) x.
Proof.
  intros (s & Hs & Ha). unfold closed. rewrite get_session_close, Hs. simpl.
  destruct (bool_decide (ses_id s = sid)); eauto.
Qed.

Lemma close_closes db sid s :
  get_session db sid = Some s -> closed (close_session db sid) sid.
Proof.
  intros Hs. unfold closed. rewrite get_session_close, Hs. simpl.
  rewrite bool_decide_eq_true_2 by (eapply get_session_id; eauto).
  eauto.
Qed.

Lemma close_session_idempotent db sid :
  close_session (close_session db sid) sid = close_session db sid.
Proof.
  unfold close_session. simpl. f_equal.
  rewrite <- list_fmap_compose. apply list_fmap_ext. intros _ s _. simpl.
  destruct (bool_decide (ses_id s = sid)) eqn:E; simpl; rewrite ?E; reflexivity.
Qed.

Lemma close_session_unknown db sid :
  get_session db sid = None -> close_session db sid = db.
Proof.
  unfold get_session, close_session. destruct db as [ss qs rs]. simpl.
  intros H. f_equal.
  induction ss as [|s l IH]; simpl in *; [reflexivity|].
  destruct (bool_decide (ses_id s = sid)); [discriminate|].
  f_equal. auto.
Qed.

Lemma close_session_closed db sid :
  unique_session_ids db -> closed db sid -> close_session db sid = db.
Proof.
  unfold unique_session_ids, closed, get_session, close_session.
  destruct db as [ss qs rs]. simpl. intros Hnd (s & Hs & Ha). f_equal.
  induction ss as [|s0 l IH]; simpl in *; [reflexivity|].
  apply NoDup_cons in Hnd as [Hnot Hnd].
  destruct (bool_decide (ses_id s0 = sid)) eqn:E.
  - injection Hs as ->. rewrite deactivate_closed by exact Ha. f_equal.
    apply bool_decide_eq_true_1 in E. subst sid.
    clear IH Hnd. induction l as [|s1 l IH]; [reflexivity|].
    simpl in *. apply not_elem_of_cons in Hnot as [Hne Hnot].
    rewrite bool_decide_eq_false_2 by congruence. f_equal. auto.
  - f_equal. auto.
Qed.

Lemma unique_session_ids_create db now teacher topic subtopic :
  unique_session_ids db ->
  unique_session_ids (create_session db now teacher topic subtopic).1.
Proof.
  unfold unique_session_ids. simpl. intros H. rewrite fmap_app. simpl.
  apply NoDup_app. split; [exact H|]. split; [|apply NoDup_singleton].
  intros x Hx Hin. apply list_elem_of_singleton in Hin. subst x.
  exact (next_id_fresh _ Hx).
Qed.

Lemma unique_session_ids_close db sid :
  unique_session_ids db -> unique_session_ids (close_session db sid).
Proof.
  unfold unique_session_ids. simpl. intros H.
  rewrite <- list_fmap_compose.
  erewrite list_fmap_ext; [exact H|]. intros _ s _. simpl.
  destruct (bool_decide (ses_id s = sid)); reflexivity.
Qed.

End DatabaseFacts.

(* ===================================================================== *)
(** * Properties of the student flow *)
(* ===================================================================== *)

Module AppFacts.
Import Float64 Database App System Props DatabaseFacts.

(** ** What a submission writes *)

Lemma get_correct_answer_questions db1 db2 x :
  questions db1 = questions db2 -> get_correct_answer db1 x = get_correct_answer db2 x.
Proof. unfold get_correct_answer. intros ->. reflexivity. Qed.

Lemma submit_fold now sid stu sel qs : forall db,
  let db' := fold_left (submit_answer now sid stu sel) qs db in
  sessions db' = sessions db /\ questions db' = questions db /\
  exists rows, results db' = results db ++ rows /\
               Forall2 (answer_row db now sid stu sel) qs rows.
Proof.
  induction qs as [|q qs IH]; intros db; simpl.
  - repeat split. exists []. rewrite app_nil_r. split; [reflexivity | constructor].
  - specialize (IH (submit_answer now sid stu sel db q)).
    simpl in IH. destruct IH as (Hs & Hq & rows & Hr & Hall).
    split; [rewrite Hs; reflexivity|]. split; [rewrite Hq; reflexivity|].
    eexists (_ :: rows). split.
    + rewrite Hr. simpl. rewrite <- app_assoc. reflexivity.
    + constructor.
      * repeat split.
      * eapply Forall2_impl; [exact Hall|].
        intros q' r (?&?&?&?&Hc&?). repeat split; auto.
Qed.

(** ** The executions of [student_quiz] that write *)

Lemma submit_all_answers_some db st now sid qs stu :
  student_id st = Some stu ->
  submit_all_answers db st now sid qs =
  Ok (fold_left (submit_answer now sid stu (answers st)) qs db).
Proof. unfold submit_all_answers. intros ->. reflexivity. Qed.

Lemma quiz_page_cases db st req sid qs db' st' out :
  quiz_page db st req sid qs = (db', st', out) ->
  db' = db \/
  (click req = ClickSubmit /\ (length qs <= size (answers st))%nat /\
   submit_all_answers db st (now req) sid qs = Ok db' /\
   st' = set_quiz_completed st true /\ out = Rerun).
Proof.
  unfold quiz_page. intros H.
  repeat (case_match; simplify_eq; auto).
  right. repeat split; auto.
  match goal with H : bool_decide (_ = ClickSubmit) = true |- _ =>
    apply bool_decide_eq_true_1 in H; auto end.
  match goal with H : bool_decide (Z.of_nat (size _) < _) = false |- _ =>
    apply bool_decide_eq_false_1 in H; lia end.
Qed.

Lemma with_id_fields st req :
  student_id (with_id st req) = Some (effective_id st req) /\
  current_question (with_id st req) = current_question st /\
  answers (with_id st req) = answers st /\
  quiz_started (with_id st req) = quiz_started st /\
  quiz_end_time (with_id st req) = quiz_end_time st /\
  quiz_completed (with_id st req) = quiz_completed st.
Proof.
  unfold with_id, effective_id. destruct (student_id st) eqn:E; simpl; auto 10.
Qed.

Lemma with_id_known st req s : student_id st = Some s -> with_id st req = st.
Proof. unfold with_id. intros ->. reflexivity. Qed.

Lemma submitted_intro db st req sid ses db' :
  session_id_param req = Some sid ->
  get_session db sid = Some ses -> ses_is_active ses = true ->
  check_student_completed db sid (effective_id st req) = false ->
  quiz_completed st = false -> quiz_started st = true ->
  get_questions_for_student db business_plan <> [] ->
  (deadline_passed st req \/
   ~ deadline_passed st req /\ click req = ClickSubmit /\
   (length (get_questions_for_student db business_plan) <= size (answers st))%nat) ->
  submit_all_answers db (with_id st req) (now req) sid
    (get_questions_for_student db business_plan) = Ok db' ->
  submitted db st req db' (set_quiz_completed (with_id st req) true).
Proof.
  intros Hp Hs Ha Hc Hq Hst Hne Hwhy Hsub.
  destruct (with_id_fields st req) as (Hid & Hcq & Hans & Hstarted & Hend & Hcompl).
  rewrite (submit_all_answers_some _ _ _ _ _ _ Hid) in Hsub. injection Hsub as <-.
  destruct (submit_fold (now req) sid (effective_id st req) (answers (with_id st req))
              (get_questions_for_student db business_plan) db)
    as (Hss & Hqs & rows & Hrows & Hall).
  exists sid, ses, rows. simpl.
  rewrite Hans in Hrows, Hall, Hss, Hqs.
  rewrite Hans. rewrite Hstarted, Hst.
  repeat split; auto.
Qed.

Lemma student_quiz_cases db st req db' st' out :
  student_quiz db st req = (db', st', out) ->
  db' = db \/ (submitted db st req db' st' /\ out = Rerun).
Proof.
  unfold student_quiz.
  destruct (session_id_param req) as [sid|] eqn:Hp; [|intros [= <- <- <-]; auto].
  destruct (get_session db sid) as [ses|] eqn:Hs; [|intros [= <- <- <-]; auto].
  destruct (ses_is_active ses) eqn:Ha; simpl; [|intros [= <- <- <-]; auto].
  fold (with_id st req).
  destruct (with_id_fields st req) as (Hid & Hcq & Hans & Hstarted & Hend & Hcompl).
  rewrite Hid. simpl.
  destruct (check_student_completed db sid (effective_id st req)) eqn:Hc;
    simpl; [intros [= <- <- <-]; auto|].
  rewrite Hcompl.
  destruct (quiz_completed st) eqn:Hq; [intros [= <- <- <-]; auto|].
  destruct (get_questions_for_student db business_plan) as [|q qs] eqn:Hqs;
    [intros [= <- <- <-]; auto|].
  rewrite Hstarted.
  destruct (quiz_started st) eqn:Hst; simpl;
    [|case_match; intros [= <- <- <-]; auto].
  assert (Hne : get_questions_for_student db business_plan <> [])
    by (rewrite Hqs; discriminate).
  rewrite Hend.
  destruct (decide (deadline_passed st req)) as [Hd|Hd].
  - destruct Hd as (t & Ht & Hrem). rewrite Ht.
    rewrite bool_decide_eq_true_2 by exact Hrem.
    destruct (submit_all_answers _ _ _ _ _) as [db1|e] eqn:Hsub;
      intros [= <- <- <-]; auto.
    right. split; [|reflexivity].
    eapply submitted_intro; eauto.
    + left. exists t. auto.
    + rewrite Hqs. exact Hsub.
  - assert (Hpage : forall r, quiz_page db (with_id st req) req sid (q :: qs) = r ->
              r = (db', st', out) ->
              db' = db \/ (submitted db st req db' st' /\ out = Rerun)).
    { intros r Hr ->. apply quiz_page_cases in Hr.
      destruct Hr as [->|(Hclick & Hlen & Hsub & -> & ->)]; auto.
      right. split; [|reflexivity].
      eapply submitted_intro; eauto.
      + right. rewrite Hqs. rewrite <- Hans. auto.
      + rewrite Hqs. exact Hsub. }
    destruct (quiz_end_time st) as [t|] eqn:Ht.
    + rewrite bool_decide_eq_false_2
        by (intros Hrem; apply Hd; exists t; auto).
      eauto.
    + eauto.
Qed.

(** ** Counting answer records *)

Lemma filter_nil_iff {A} (P : A -> Prop) `{forall x, Decision (P x)} (l : list A) :
  filter P l = [] <-> forall x, x ∈ l -> ~ P x.
Proof.
  split.
  - intros Hf x Hx HP. eapply filter_nil_not_elem_of; eauto.
  - intros Hall. induction l as [|y l IH]; [reflexivity|].
    rewrite filter_cons_False.
    + apply IH. intros x Hx. apply Hall. right. exact Hx.
    + apply Hall. left.
Qed.

Lemma not_completed_no_rows db sid stu :
  check_student_completed db sid stu = false <->
  filter (of_student sid stu) (results db) = [].
Proof.
  unfold check_student_completed. split.
  - intros H. apply bool_decide_eq_false_1 in H.
    destruct (filter _ _); [reflexivity | simpl in H; lia].
  - intros ->. reflexivity.
Qed.

Lemma not_completed_count db sid stu qid :
  check_student_completed db sid stu = false -> answer_count db sid stu qid = 0%nat.
Proof.
  intros H. apply not_completed_no_rows in H.
  unfold answer_count. replace (filter _ _) with (@nil ResultRow); [reflexivity|].
  symmetry. apply filter_nil_iff. intros r Hr (H1 & H2 & _).
  apply (filter_nil_not_elem_of _ _ r H); [split; assumption | exact Hr].
Qed.

Lemma rows_count db now sid stu sel qs rows sid' stu' qid :
  Forall2 (answer_row db now sid stu sel) qs rows ->
  length (filter (of_triple sid' stu' qid) rows) =
  if decide (sid' = sid /\ stu' = stu)
  then length (filter (fun q => sq_id q = qid) qs) else 0%nat.
Proof.
  induction 1 as [|q r qs rows (H1 & H2 & H3 & _) _ IH]; [case_decide; reflexivity|].
  rewrite !filter_cons.
  repeat case_decide; simpl; try lia; exfalso; unfold of_triple in *;
    match goal with
    | H : ~ _ |- _ => apply H; destruct_and?; repeat split; congruence
    end.
Qed.

Lemma NoDup_count (qs : list StudentQuestion) (qid : Z) :
  NoDup (sq_id <$> qs) ->
  length (filter (fun q => sq_id q = qid) qs) =
  if decide (qid ∈ sq_id <$> qs) then 1%nat else 0%nat.
Proof.
  induction qs as [|q qs IH]; intros Hnd.
  - rewrite decide_False; [reflexivity | apply not_elem_of_nil].
  - rewrite fmap_cons in Hnd |- *.
    apply NoDup_cons in Hnd as [Hq Hnd]. specialize (IH Hnd).
    rewrite filter_cons. destruct (decide (sq_id q = qid)) as [<-|Hne]; simpl.
    + rewrite IH. rewrite decide_False by exact Hq.
      rewrite decide_True by left. reflexivity.
    + rewrite IH. destruct (decide (qid ∈ sq_id <$> qs)).
      * rewrite decide_True by (right; assumption). reflexivity.
      * rewrite decide_False; [reflexivity|].
        intros [?|?]%elem_of_cons; congruence.
Qed.

Lemma served_ids_NoDup db topic :
  unique_question_ids db -> NoDup (sq_id <$> get_questions_for_student db topic).
Proof.
  unfold unique_question_ids, get_questions_for_student. intros H.
  rewrite <- list_fmap_compose.
  induction (questions db) as [|q l IH]; simpl; [constructor|].
  simpl in H. apply NoDup_cons in H as [Hq H].
  rewrite filter_cons. case_decide; simpl; auto.
  apply NoDup_cons. split; auto.
  intros Hin. apply Hq. apply list_elem_of_fmap in Hin as (q' & -> & Hin).
  apply list_elem_of_filter in Hin as [_ Hin].
  apply list_elem_of_fmap. exists q'. auto.
Qed.

Lemma answer_count_app db db' rows sid stu qid :
  results db' = results db ++ rows ->
  answer_count db' sid stu qid =
  (answer_count db sid stu qid + length (filter (of_triple sid stu qid) rows))%nat.
Proof.
  unfold answer_count. intros ->. rewrite filter_app, length_app. reflexivity.
Qed.

(** After a submission the student has exactly one record per served
    question, and no triple has gained more than it can hold. *)
Lemma submitted_counts db st req db' st' :
  unique_question_ids db -> submitted db st req db' st' ->
  (forall q, q ∈ get_questions_for_student db business_plan ->
     forall sid, session_id_param req = Some sid ->
     answer_count db' sid (effective_id st req) (sq_id q) = 1%nat) /\
  (at_most_once db -> at_most_once db').
Proof.
  intros Hu (sid & ses & rows & Hsub). simpl in Hsub.
  destruct Hsub as (Hp & Hs & Ha & Hc & _ & _ & _ & _ & _ & _ & Hr & Hall & _).
  pose proof (served_ids_NoDup db business_plan Hu) as Hnd.
  split.
  - intros q Hq sid' Hp'. rewrite Hp in Hp'. injection Hp' as <-.
    rewrite (answer_count_app _ _ _ _ _ _ Hr).
    rewrite not_completed_count by exact Hc.
    rewrite (rows_count _ _ _ _ _ _ _ _ _ _ Hall).
    rewrite decide_True by auto. rewrite NoDup_count by exact Hnd.
    rewrite decide_True; [reflexivity|]. apply list_elem_of_fmap. eauto.
  - intros Hone sid' stu' qid.
    rewrite (answer_count_app _ _ _ _ _ _ Hr).
    rewrite (rows_count _ _ _ _ _ _ _ _ _ _ Hall).
    case_decide as Hd.
    + destruct Hd as [-> ->]. rewrite not_completed_count by exact Hc.
      rewrite NoDup_count by exact Hnd. case_decide; lia.
    + specialize (Hone sid' stu' qid). lia.
Qed.
(** ** A closed session *)

Lemma student_quiz_closed db st req sid :
  session_id_param req = Some sid -> closed db sid ->
  student_quiz db st req = (db, st, Rendered SessionEnded).
Proof.
  intros Hp (s & Hs & Ha). unfold student_quiz. rewrite Hp, Hs, Ha. reflexivity.
Qed.

(** ** The deadline path *)

Lemma passed_of_elapsed st req end_time :
  quiz_end_time st = Some end_time -> end_time - now req <= 0 ->
  deadline_passed st req.
Proof.
  intros Ht Hle. exists end_time. split; [exact Ht|].
  unfold remaining_seconds.
  assert (Z.quot (end_time - now req) 1000000 <= 0); [|lia].
  apply Z.quot_le_upper_bound; lia.
Qed.

Lemma student_quiz_deadline db st req sid ses stu :
  session_id_param req = Some sid ->
  get_session db sid = Some ses -> ses_is_active ses = true ->
  in_progress db sid stu st ->
  get_questions_for_student db business_plan <> [] ->
  deadline_passed st req ->
  exists db', student_quiz db st req = (db', set_quiz_completed st true, Rerun) /\
              submitted db st req db' (set_quiz_completed st true).
Proof.
  intros Hp Hs Ha (Hid & Hst & Hq & Hc) Hne (t & Ht & Hrem).
  assert (Heff : effective_id st req = stu) by (unfold effective_id; rewrite Hid; reflexivity).
  assert (Hw : with_id st req = st) by (eapply with_id_known; eauto).
  destruct (submit_all_answers db st (now req) sid
              (get_questions_for_student db business_plan)) as [db'|e] eqn:Hsub.
  2:{ rewrite (submit_all_answers_some _ _ _ _ _ _ Hid) in Hsub. discriminate. }
  exists db'. split.
  - unfold student_quiz. rewrite Hp, Hs, Ha. simpl.
    fold (with_id st req). rewrite Hw, Hid. simpl.
    rewrite Hc, Hq.
    destruct (get_questions_for_student db business_plan) as [|q qs] eqn:Hqs;
      [congruence|].
    rewrite Hst, Ht. simpl. rewrite bool_decide_eq_true_2 by exact Hrem.
    rewrite Hsub. reflexivity.
  - rewrite <- Hw at 2. eapply submitted_intro; eauto.
    + rewrite Heff. exact Hc.
    + left. exists t. auto.
    + rewrite Hw. exact Hsub.
Qed.

(** The correct answer the store returns for a served question is the
    correct answer of a question of the table. *)
Lemma get_correct_answer_served db topic q :
  q ∈ get_questions_for_student db topic ->
  exists q0, q0 ∈ questions db /\ get_correct_answer db (sq_id q) = q_correct_answer q0.
Proof.
  unfold get_questions_for_student, get_correct_answer. intros Hq.
  apply list_elem_of_fmap in Hq as (q1 & -> & Hq1).
  apply list_elem_of_filter in Hq1 as [_ Hq1].
  destruct (find _ _) as [q0|] eqn:Hf.
  - apply find_some in Hf as [Hin _]. exists q0. split; [|reflexivity].
    apply list_elem_of_In. exact Hin.
  - exfalso. apply list_elem_of_In in Hq1.
    eapply find_none in Hf; [|exact Hq1]. simpl in Hf.
    rewrite bool_decide_eq_true_2 in Hf by reflexivity. discriminate.
Qed.

Lemma blank_is_incorrect db now sid stu sel q r :
  (forall q0, q0 ∈ questions db -> q_correct_answer q0 <> "") ->
  q ∈ get_questions_for_student db business_plan ->
  answer_row db now sid stu sel q r -> sel !! sq_id q = None ->
  r_selected_answer r = "" /\ r_is_correct r = false.
Proof.
  intros Hwf Hq (_ & _ & _ & Hsel & Hcor & _) Hnone.
  rewrite Hnone in Hsel, Hcor. simpl in *. split; [exact Hsel|].
  rewrite Hcor. apply bool_decide_eq_false_2.
  destruct (get_correct_answer_served _ _ _ Hq) as (q0 & Hin & ->).
  intros Heq. apply (Hwf q0 Hin). congruence.
Qed.

Lemma topic_set_served db ses :
  (forall s, s ∈ sessions db -> ses_topic s = business_plan) ->
  forall sid, get_session db sid = Some ses ->
  topic_set db ses = get_questions_for_student db business_plan.
Proof.
  intros Hwf sid Hs. unfold topic_set. rewrite Hwf; [reflexivity|].
  unfold get_session in Hs. apply find_some in Hs as [Hin _].
  apply list_elem_of_In. exact Hin.
Qed.


(** ** The entry guard *)

Lemma student_quiz_completed db st req sid ses :
  session_id_param req = Some sid ->
  get_session db sid = Some ses -> ses_is_active ses = true ->
  check_student_completed db sid (effective_id st req) = true ->
  student_quiz db st req =
  (db, set_quiz_completed (with_id st req) true, Rendered QuizCompletion).
Proof.
  intros Hp Hs Ha Hc. unfold student_quiz. rewrite Hp, Hs, Ha. simpl.
  fold (with_id st req).
  destruct (with_id_fields st req) as (Hid & _).
  rewrite Hid. simpl. rewrite Hc. reflexivity.
Qed.

Lemma option_buttons_no_option options pressed : forall k,
  (forall j, pressed <> ClickOption j) ->
  option_buttons options k pressed = Ok None \/
  exists e, option_buttons options k pressed = Raise e.
Proof.
  induction options as [|opt rest IH]; intros k Hno; simpl; [auto|].
  destruct opt as [|c opt]; simpl; [eauto|].
  rewrite bool_decide_eq_false_2 by apply Hno. apply IH. exact Hno.
Qed.

(** Only the Start button sets [quiz_started], only an option button changes
    the selections, and neither of them writes. *)
Lemma quiz_page_started db st req sid qs db' st' out :
  quiz_page db st req sid qs = (db', st', out) ->
  quiz_started st' = quiz_started st.
Proof.
  unfold quiz_page. intros H.
  repeat (case_match; simplify_eq; auto).
Qed.

Lemma student_quiz_start db st req db' st' out :
  student_quiz db st req = (db', st', out) ->
  quiz_started st = false -> quiz_started st' = true ->
  exists sid ses,
    session_id_param req = Some sid /\ get_session db sid = Some ses /\
    ses_is_active ses = true /\
    check_student_completed db sid (effective_id st req) = false /\
    get_questions_for_student db business_plan <> [] /\
    click req = ClickStart /\
    db' = db /\ st' = start_quiz (with_id st req) (now req) /\ out = Rerun.
Proof.
  unfold student_quiz. intros H Hst Hst'.
  destruct (session_id_param req) as [sid|] eqn:Hp; [|simplify_eq; congruence].
  destruct (get_session db sid) as [ses|] eqn:Hs; [|simplify_eq; congruence].
  destruct (ses_is_active ses) eqn:Ha; simpl in H; [|simplify_eq; congruence].
  fold (with_id st req) in H.
  destruct (with_id_fields st req) as (Hid & Hcq & Hans & Hstarted & Hend & Hcompl).
  rewrite Hid in H. simpl in H.
  destruct (check_student_completed db sid (effective_id st req)) eqn:Hc; simpl in H.
  { simplify_eq. simpl in Hst'. congruence. }
  rewrite Hcompl in H.
  destruct (quiz_completed st) eqn:Hq; [simplify_eq; congruence|].
  destruct (get_questions_for_student db business_plan) as [|q qs] eqn:Hqs;
    [simplify_eq; congruence|].
  rewrite Hstarted, Hst in H. simpl in H.
  destruct (bool_decide (click req = ClickStart)) eqn:Hclick;
    [|simplify_eq; congruence].
  apply bool_decide_eq_true_1 in Hclick. simplify_eq.
  exists sid, ses. repeat split; auto.
Qed.

Lemma student_quiz_has_records db st req sid db' st' out :
  student_quiz db st req = (db', st', out) ->
  session_id_param req = Some sid ->
  check_student_completed db sid (effective_id st req) = true ->
  db' = db /\ quiz_started st' = quiz_started st /\ answers st' = answers st /\
  (out = Rendered SessionNotFound \/ out = Rendered SessionEnded \/
   out = Rendered QuizCompletion).
Proof.
  intros H Hp Hc.
  destruct (get_session db sid) as [ses|] eqn:Hs.
  - destruct (ses_is_active ses) eqn:Ha.
    + rewrite (student_quiz_completed _ _ _ _ _ Hp Hs Ha Hc) in H. simplify_eq.
      destruct (with_id_fields st req) as (_ & _ & Hans & Hstarted & _).
      simpl. auto 10.
    + rewrite (student_quiz_closed db st req sid Hp) in H by (exists ses; auto).
      simplify_eq. auto 10.
  - unfold student_quiz in H. rewrite Hp, Hs in H. simplify_eq. auto 10.
Qed.

(** ** The manual submit *)

Lemma quiz_page_rejects db st req sid qs :
  click req = ClickSubmit ->
  (size (answers st) < length qs)%nat ->
  exists out, quiz_page db st req sid qs = (db, st, out).
Proof.
  intros Hclick Hlt. unfold quiz_page.
  case_bool_decide; [eauto|].
  destruct (qs !! Z.to_nat (current_question st)) as [q|]; [|eauto].
  destruct (option_buttons_no_option (split "|" (sq_options q)) (click req) 0%nat)
    as [->|(e & ->)]; [rewrite Hclick; discriminate| |eauto].
  rewrite Hclick.
  rewrite (bool_decide_eq_false_2 (ClickSubmit = ClickPrevious)) by discriminate.
  rewrite andb_false_r.
  rewrite (bool_decide_eq_false_2 (ClickSubmit = ClickNext)) by discriminate.
  rewrite (bool_decide_eq_true_2 (ClickSubmit = ClickSubmit)) by reflexivity.
  rewrite (bool_decide_eq_true_2 (Z.of_nat (size (answers st)) < _)) by lia.
  case_bool_decide; eauto.
Qed.

Lemma student_quiz_rejects db st req sid stu :
  session_id_param req = Some sid -> in_progress db sid stu st ->
  click req = ClickSubmit -> ~ deadline_passed st req ->
  (size (answers st) < length (get_questions_for_student db business_plan))%nat ->
  exists out, student_quiz db st req = (db, st, out).
Proof.
  intros Hp (Hid & Hst & Hq & Hc) Hclick Hd Hlt.
  assert (Hw : with_id st req = st) by (eapply with_id_known; eauto).
  unfold student_quiz. rewrite Hp.
  destruct (get_session db sid) as [ses|]; [|eauto].
  destruct (ses_is_active ses); simpl; [|eauto].
  fold (with_id st req). rewrite Hw, Hid. simpl. rewrite Hc, Hq.
  destruct (get_questions_for_student db business_plan) as [|q qs] eqn:Hqs; [eauto|].
  rewrite Hst. simpl.
  destruct (quiz_end_time st) as [t|] eqn:Ht.
  - rewrite bool_decide_eq_false_2 by (intros Hrem; apply Hd; exists t; auto).
    apply quiz_page_rejects; auto.
  - apply quiz_page_rejects; auto.
Qed.

Lemma all_selected (sel : gmap Z string) (qs : list StudentQuestion) :
  NoDup (sq_id <$> qs) ->
  (forall qid, is_Some (sel !! qid) -> qid ∈ sq_id <$> qs) ->
  (length qs <= size sel)%nat ->
  forall q, q ∈ qs -> is_Some (sel !! sq_id q).
Proof.
  intros Hnd Hin Hlen q Hq.
  assert (Heq : dom sel = list_to_set (sq_id <$> qs)).
  { apply set_subseteq_size_eq.
    - intros x Hx. apply elem_of_dom in Hx. apply elem_of_list_to_set. auto.
    - rewrite size_dom. rewrite size_list_to_set by exact Hnd.
      rewrite length_fmap. exact Hlen. }
  apply elem_of_dom. rewrite Heq. apply elem_of_list_to_set.
  apply list_elem_of_fmap. eauto.
Qed.

(** The selections stay inside the set on offer. *)
Lemma quiz_page_selections db st req sid qs db' st' out :
  quiz_page db st req sid qs = (db', st', out) ->
  forall qid, is_Some (answers st' !! qid) ->
  is_Some (answers st !! qid) \/ qid ∈ sq_id <$> qs.
Proof.
  unfold quiz_page. intros H qid.
  repeat (case_match; simplify_eq; auto).
  simpl. intros Hsome.
  match goal with H : qs !! _ = Some ?q |- _ =>
    destruct (decide (sq_id q = qid)) as [<-|Hne];
    [right; apply list_elem_of_fmap; exists q; split;
       [reflexivity | eapply list_elem_of_lookup_2; eauto]
    |left; rewrite lookup_insert_ne in Hsome by exact Hne; exact Hsome]
  end.
Qed.

Lemma student_quiz_selections db st req db' st' out :
  student_quiz db st req = (db', st', out) ->
  selections_in_set db st -> selections_in_set db' st'.
Proof.
  intros H Hsel.
  assert (Hq : questions db' = questions db).
  { destruct (student_quiz_cases _ _ _ _ _ _ H) as [->|[(?&?&?&Hsub) _]]; [reflexivity|].
    simpl in Hsub. tauto. }
  assert (Hserved : get_questions_for_student db' business_plan =
                    get_questions_for_student db business_plan).
  { unfold get_questions_for_student. rewrite Hq. reflexivity. }
  unfold selections_in_set. rewrite Hserved. clear Hq Hserved.
  revert H. unfold student_quiz.
  destruct (session_id_param req) as [sid|]; [|intros; simplify_eq; auto].
  destruct (get_session db sid) as [ses|]; [|intros; simplify_eq; auto].
  destruct (ses_is_active ses); simpl; [|intros; simplify_eq; auto].
  fold (with_id st req).
  destruct (with_id_fields st req) as (Hid & Hcq & Hans & Hstarted & Hend & Hcompl).
  assert (Hsel1 : forall qid, is_Some (answers (with_id st req) !! qid) ->
            qid ∈ sq_id <$> get_questions_for_student db business_plan).
  { rewrite Hans. exact Hsel. }
  assert (Hpage : forall sid qs, qs = get_questions_for_student db business_plan ->
            quiz_page db (with_id st req) req sid qs = (db', st', out) ->
            forall qid, is_Some (answers st' !! qid) ->
            qid ∈ sq_id <$> get_questions_for_student db business_plan).
  { intros sid0 qs -> Hpg qid Hsome.
    destruct (quiz_page_selections _ _ _ _ _ _ _ _ Hpg qid Hsome); auto. }
  destruct (get_questions_for_student db business_plan) as [|q qs] eqn:Hqs.
  { intros H qid. repeat (case_match; simplify_eq; auto). }
  intros H qid.
  repeat (case_match; simplify_eq; simpl; eauto).
  rewrite lookup_empty. intros [? [=]].
Qed.

End AppFacts.

(* ===================================================================== *)
(** * Properties of the application as a whole *)
(* ===================================================================== *)

Module SystemFacts.
Import Float64 Database App System Props DatabaseFacts AppFacts.

(** ** Steps of the application *)

Lemma student_quiz_frame db st req db' st' out :
  student_quiz db st req = (db', st', out) ->
  sessions db' = sessions db /\ questions db' = questions db /\
  exists rows, results db' = results db ++ rows /\
    forall r, r ∈ rows -> session_id_param req = Some (r_session_id r).
Proof.
  intros H.
  destruct (student_quiz_cases _ _ _ _ _ _ H) as [->|[(sid & ses & rows & Hsub) _]].
  - repeat split. exists []. rewrite app_nil_r. split; [reflexivity|].
    intros r Hr. inversion Hr.
  - simpl in Hsub.
    destruct Hsub as (Hp & _ & _ & _ & _ & _ & _ & _ & Hs & Hq & Hr & Hall & _).
    repeat split; auto. exists rows. split; [exact Hr|].
    intros r Hin. rewrite Hp. f_equal.
    apply list_elem_of_lookup in Hin as [i Hi].
    destruct (Forall2_lookup_r _ _ _ _ _ Hall Hi) as (q & _ & Hrow).
    destruct Hrow as (-> & _). reflexivity.
Qed.

Lemma step_frame sys a :
  questions (store (step sys a)) = questions (store sys) /\
  exists rows, results (store (step sys a)) = results (store sys) ++ rows.
Proof.
  destruct a as [now teacher|sid|client req]; simpl.
  - split; [reflexivity|]. exists []. rewrite app_nil_r. reflexivity.
  - split; [reflexivity|]. exists []. rewrite app_nil_r. reflexivity.
  - destruct (student_quiz _ _ _) as [[db st] out] eqn:H. simpl.
    destruct (student_quiz_frame _ _ _ _ _ _ H) as (_ & Hq & rows & Hr & _).
    eauto.
Qed.

Lemma well_formed_create db now teacher :
  well_formed db -> well_formed (create_new_session db now teacher).1.
Proof.
  intros (Hs & Hq & Ht & Hc). split; [|split; [|split]].
  - apply unique_session_ids_create. exact Hs.
  - exact Hq.
  - simpl. intros s [Hin|Hin]%elem_of_app; [auto|].
    apply list_elem_of_singleton in Hin. subst s. reflexivity.
  - exact Hc.
Qed.

Lemma well_formed_close db sid : well_formed db -> well_formed (close_session db sid).
Proof.
  intros (Hs & Hq & Ht & Hc). split; [|split; [|split]].
  - apply unique_session_ids_close. exact Hs.
  - exact Hq.
  - simpl. intros s Hin. apply list_elem_of_fmap in Hin as (s0 & -> & Hin).
    specialize (Ht s0 Hin). case_bool_decide; simpl; exact Ht.
  - exact Hc.
Qed.

Lemma well_formed_frame db db' :
  sessions db' = sessions db -> questions db' = questions db ->
  well_formed db -> well_formed db'.
Proof.
  unfold well_formed, unique_session_ids, unique_question_ids.
  intros -> ->. auto.
Qed.

Lemma well_formed_step sys a : well_formed (store sys) -> well_formed (store (step sys a)).
Proof.
  destruct a as [now teacher|sid|client req]; simpl.
  - apply well_formed_create.
  - apply well_formed_close.
  - destruct (student_quiz _ _ _) as [[db st] out] eqn:H. simpl.
    destruct (student_quiz_frame _ _ _ _ _ _ H) as (Hs & Hq & _).
    apply well_formed_frame; assumption.
Qed.

Lemma well_formed_run actions : forall sys,
  well_formed (store sys) -> well_formed (store (run sys actions)).
Proof.
  induction actions as [|a actions IH]; intros sys H; simpl; [exact H|].
  apply IH, well_formed_step, H.
Qed.

Lemma at_most_once_step sys a :
  unique_question_ids (store sys) ->
  at_most_once (store sys) -> at_most_once (store (step sys a)).
Proof.
  intros Hu H. destruct a as [now teacher|sid|client req]; simpl; [exact H..|].
  destruct (student_quiz _ _ _) as [[db st] out] eqn:Hq. simpl.
  destruct (student_quiz_cases _ _ _ _ _ _ Hq) as [->|[Hsub _]]; [exact H|].
  apply (submitted_counts _ _ _ _ _ Hu Hsub). exact H.
Qed.

Lemma at_most_once_run actions : forall sys,
  unique_question_ids (store sys) ->
  at_most_once (store sys) -> at_most_once (store (run sys actions)).
Proof.
  induction actions as [|a actions IH]; intros sys Hu H; simpl; [exact H|].
  apply IH.
  - unfold unique_question_ids. rewrite (proj1 (step_frame sys a)). exact Hu.
  - apply at_most_once_step; assumption.
Qed.

Lemma answer_count_step sys a sid stu qid :
  (answer_count (store sys) sid stu qid <= answer_count (store (step sys a)) sid stu qid)%nat.
Proof.
  destruct (step_frame sys a) as (_ & rows & Hr).
  rewrite (answer_count_app _ _ _ _ _ _ Hr). lia.
Qed.

Lemma answer_count_run actions : forall sys sid stu qid,
  (answer_count (store sys) sid stu qid <= answer_count (store (run sys actions)) sid stu qid)%nat.
Proof.
  induction actions as [|a actions IH]; intros sys sid stu qid; simpl; [lia|].
  etransitivity; [apply (answer_count_step sys a)|apply IH].
Qed.

Lemma closed_frame db db' sid :
  sessions db' = sessions db -> closed db sid -> closed db' sid.
Proof. unfold closed, get_session. intros ->. auto. Qed.

Lemma closed_step sys a sid : closed (store sys) sid -> closed (store (step sys a)) sid.
Proof.
  destruct a as [now teacher|sid'|client req]; simpl.
  - apply closed_create.
  - apply closed_close.
  - destruct (student_quiz _ _ _) as [[db st] out] eqn:H. simpl.
    destruct (student_quiz_frame _ _ _ _ _ _ H) as (Hs & _).
    apply closed_frame. exact Hs.
Qed.

Lemma closed_run actions : forall sys sid,
  closed (store sys) sid -> closed (store (run sys actions)) sid.
Proof.
  induction actions as [|a actions IH]; intros sys sid H; simpl; [exact H|].
  apply IH, closed_step, H.
Qed.

(** No step writes an answer record of a closed session. *)
Lemma closed_results_step sys a sid :
  closed (store sys) sid ->
  filter (of_session sid) (results (store (step sys a))) =
  filter (of_session sid) (results (store sys)).
Proof.
  intros Hc. destruct a as [now teacher|sid'|client req]; simpl; [reflexivity..|].
  destruct (student_quiz _ _ _) as [[db st] out] eqn:H. simpl.
  destruct (decide (session_id_param req = Some sid)) as [Hp|Hp].
  - rewrite (student_quiz_closed _ _ _ _ Hp Hc) in H. simplify_eq. reflexivity.
  - destruct (student_quiz_frame _ _ _ _ _ _ H) as (_ & _ & rows & -> & Hrows).
    rewrite filter_app.
    replace (filter (of_session sid) rows) with (@nil ResultRow);
      [apply app_nil_r|].
    symmetry. apply filter_nil_iff. intros r Hr Hs. apply Hp.
    rewrite (Hrows r Hr). f_equal. exact Hs.
Qed.

Lemma closed_results_run actions : forall sys sid,
  closed (store sys) sid ->
  filter (of_session sid) (results (store (run sys actions))) =
  filter (of_session sid) (results (store sys)).
Proof.
  induction actions as [|a actions IH]; intros sys sid H; simpl; [reflexivity|].
  rewrite IH by (apply closed_step, H). apply closed_results_step, H.
Qed.

Lemma well_formed_initial : well_formed (store initial).
Proof.
  split; [|split; [|split]].
  - constructor.
  - unfold unique_question_ids. apply (bool_decide_unpack _). vm_compute. exact I.
  - intros s Hs. inversion Hs.
  - intros q Hq. apply list_elem_of_In in Hq. vm_compute in Hq.
    intuition (subst; discriminate).
Qed.

Lemma at_most_once_empty db : results db = [] -> at_most_once db.
Proof. intros H sid stu qid. unfold answer_count. rewrite H. simpl. lia. Qed.

End SystemFacts.



(* ===================================================================== *)
(** * Properties of the aggregation *)
(* ===================================================================== *)

Module AggregationFacts.
Import Float64 Database Props DatabaseFacts AppFacts Float64Facts.

Lemma elem_of_joined db sid r q :
  (r, q) ∈ joined db sid <->
  r ∈ results db /\ r_session_id r = sid /\ q ∈ questions db /\ q_id q = r_question_id r.
Proof.
  unfold joined. rewrite list_elem_of_bind. split.
  - intros (r' & Hin & Hr). apply list_elem_of_filter in Hr as [Hs Hr].
    apply list_elem_of_bind in Hin as (q' & Hin & Hq).
    apply list_elem_of_singleton in Hin. injection Hin as -> ->.
    apply list_elem_of_filter in Hq as [Hid Hq]. auto.
  - intros (Hr & Hs & Hq & Hid). exists r. split.
    + apply list_elem_of_bind. exists q. split; [apply list_elem_of_singleton; reflexivity|].
      apply list_elem_of_filter. auto.
    + apply list_elem_of_filter. auto.
Qed.

Lemma joined_no_results db sid :
  filter (of_session sid) (results db) = [] -> joined db sid = [].
Proof. unfold joined. intros ->. reflexivity. Qed.

Lemma insert_tag_perm tag tags : insert_tag tag tags ≡ₚ tag :: tags.
Proof.
  induction tags as [|tag' tags IH]; simpl; [reflexivity|].
  destruct (String.leb tag tag'); [reflexivity|].
  rewrite IH. apply Permutation_swap.
Qed.

Lemma sort_tags_perm tags : sort_tags tags ≡ₚ tags.
Proof.
  induction tags as [|tag tags IH]; simpl; [reflexivity|].
  rewrite insert_tag_perm, IH. reflexivity.
Qed.

Lemma elem_of_sort_tags tag tags : tag ∈ sort_tags tags <-> tag ∈ tags.
Proof. rewrite sort_tags_perm. reflexivity. Qed.

Lemma NoDup_sort_tags tags : NoDup tags -> NoDup (sort_tags tags).
Proof. rewrite sort_tags_perm. auto. Qed.

Lemma elem_of_statistics db sid row :
  row ∈ get_skill_statistics db sid <->
  group_of db sid (skill_tag row) <> [] /\
  row = skill_row (joined db sid) (skill_tag row).
Proof.
  unfold get_skill_statistics, group_of. rewrite list_elem_of_fmap. split.
  - intros (tag & -> & Htag). simpl. split; [|reflexivity].
    apply elem_of_sort_tags, elem_of_remove_dups, list_elem_of_fmap in Htag
      as (rq & -> & Hrq).
    intros Hnil. apply (filter_nil_not_elem_of _ _ rq Hnil); [reflexivity | exact Hrq].
  - intros (Hne & Hrow). exists (skill_tag row). split; [exact Hrow|].
    apply elem_of_sort_tags, elem_of_remove_dups, list_elem_of_fmap.
    destruct (filter (in_group (skill_tag row)) (joined db sid)) as [|rq l] eqn:Hf;
      [congruence|].
    assert (Hin : rq ∈ filter (in_group (skill_tag row)) (joined db sid))
      by (rewrite Hf; left).
    apply list_elem_of_filter in Hin as [Hg Hin]. exists rq. auto.
Qed.

Lemma statistics_tags_NoDup db sid : NoDup (skill_tag <$> get_skill_statistics db sid).
Proof.
  unfold get_skill_statistics. rewrite <- list_fmap_compose.
  erewrite list_fmap_ext;
    [rewrite list_fmap_id; apply NoDup_sort_tags, NoDup_remove_dups|].
  intros i x _. reflexivity.
Qed.

Lemma count_correct_le rows : 0 <= count_correct rows <= Z.of_nat (length rows).
Proof. unfold count_correct. pose proof (length_filter (fun rq : ResultRow * Question => r_is_correct rq.1 = true) rows). lia. Qed.

Lemma question_filter_le (qs : list Question) (x : Z) :
  NoDup (q_id <$> qs) -> (length (filter (fun q => q_id q = x) qs) <= 1)%nat.
Proof.
  induction qs as [|q qs IH]; intros Hnd; [simpl; lia|].
  rewrite fmap_cons in Hnd. apply NoDup_cons in Hnd as [Hq Hnd].
  rewrite filter_cons. case_decide as Hx; [|auto].
  replace (filter (fun q0 => q_id q0 = x) qs) with (@nil Question); [simpl; lia|].
  symmetry. apply filter_nil_iff. intros q' Hq' Hid. apply Hq.
  apply list_elem_of_fmap. exists q'. split; [congruence | exact Hq'].
Qed.

Lemma joined_length db sid :
  unique_question_ids db -> (length (joined db sid) <= length (results db))%nat.
Proof.
  intros Hu. unfold joined.
  etransitivity; [|apply (length_filter (of_session sid))].
  induction (filter (of_session sid) (results db)) as [|r l IH]; [simpl; lia|].
  rewrite bind_cons, length_app. simpl length at 3.
  assert (Hone : (length (filter (fun q => q_id q = r_question_id r) (questions db)
                          ≫= fun q => [(r, q)]) <= 1)%nat).
  { pose proof (question_filter_le (questions db) (r_question_id r) Hu) as Hle.
    destruct (filter _ (questions db)) as [|q [|q' qs]]; simpl in *; lia. }
  lia.
Qed.


Lemma filter_fmap {A B} (g : A -> B) (P : B -> Prop) `{forall y, Decision (P y)}
    (l : list A) :
  filter P (g <$> l) = g <$> filter (fun x => P (g x)) l.
Proof.
  induction l as [|x l IH]; [reflexivity|].
  rewrite fmap_cons, !filter_cons. case_decide; rewrite IH; reflexivity.
Qed.

Lemma joined_rewrite_texts text db sid :
  joined (rewrite_texts text db) sid = retext_pair text <$> joined db sid.
Proof.
  unfold joined. simpl.
  induction (filter (of_session sid) (results db)) as [|r l IH]; [reflexivity|].
  rewrite !bind_cons, fmap_app, IH. f_equal.
  rewrite filter_fmap. simpl.
  induction (filter (fun q => q_id q = r_question_id r) (questions db)) as [|q qs IHq];
    [reflexivity|].
  rewrite fmap_cons, !bind_cons, fmap_app, IHq. reflexivity.
Qed.

Lemma skill_row_rewrite_texts text rows tag :
  skill_row (retext_pair text <$> rows) tag = skill_row rows tag.
Proof.
  unfold skill_row, count_correct.
  rewrite (filter_fmap (retext_pair text) (in_group tag)).
  rewrite (filter_fmap (retext_pair text) (fun rq => r_is_correct rq.1 = true)).
  rewrite !length_fmap. reflexivity.
Qed.

Lemma statistics_rewrite_texts text db sid :
  get_skill_statistics (rewrite_texts text db) sid = get_skill_statistics db sid.
Proof.
  unfold get_skill_statistics. rewrite joined_rewrite_texts.
  rewrite <- list_fmap_compose.
  apply list_fmap_ext. intros _ tag _. apply skill_row_rewrite_texts.
Qed.

Lemma aggregated_rewrite_texts text db sid :
  get_aggregated_results (rewrite_texts text db) sid = get_aggregated_results db sid.
Proof.
  unfold get_aggregated_results. rewrite statistics_rewrite_texts. reflexivity.
Qed.

(** ** The statistics against the specification *)







(** The aggregation never raises. *)
Lemma aggregated_defined db sid : exists a, get_aggregated_results db sid = Ok a.
Proof.
  unfold get_aggregated_results, overall_row.
  destruct (filter (of_session sid) (results db)) as [|r l]; [simpl; eauto|].
  unfold py_truediv.
  rewrite bool_decide_eq_true_2 by (simpl length; lia).
  rewrite bool_decide_eq_false_2 by (simpl length; lia).
  simpl. eauto.
Qed.

End AggregationFacts.

(* ===================================================================== *)
(** * Properties of the report *)
(* ===================================================================== *)

Module AiEngineFacts.
Import AiEngine Props.

Lemma Qltb_lt (a b : Q) : Qltb a b = true <-> (a < b)%Q.
Proof.
  unfold Qltb. rewrite negb_true_iff. split.
  - intros H. apply Qnot_le_lt. intros Hle. apply Qle_bool_iff in Hle. congruence.
  - intros H. destruct (Qle_bool b a) eqn:E; [|reflexivity].
    apply Qle_bool_iff in E. exfalso. exact (Qlt_not_le _ _ H E).
Qed.

Lemma Qltb_ge (a b : Q) : Qltb a b = false <-> (b <= a)%Q.
Proof.
  unfold Qltb. rewrite negb_false_iff. apply Qle_bool_iff.
Qed.

Lemma Qle_bool_lt (a b : Q) : Qle_bool a b = false <-> (b < a)%Q.
Proof.
  rewrite <- Qltb_lt. unfold Qltb. rewrite negb_true_iff. reflexivity.
Qed.

(** ** The sort *)

Lemma elem_of_insert_stable x y l : y ∈ insert_stable x l <-> y = x \/ y ∈ l.
Proof.
  induction l as [|z l IH]; simpl.
  - rewrite list_elem_of_singleton. rewrite elem_of_nil. tauto.
  - destruct (Qltb (sort_key z) (sort_key x)).
    + rewrite !elem_of_cons, IH. tauto.
    + rewrite !elem_of_cons. tauto.
Qed.

Lemma elem_of_sorted y l : y ∈ sorted l <-> y ∈ l.
Proof.
  induction l as [|x l IH]; simpl; [reflexivity|].
  rewrite elem_of_insert_stable, elem_of_cons, IH. reflexivity.
Qed.

Lemma insert_stable_ascending x l : ascending l -> ascending (insert_stable x l).
Proof.
  unfold ascending. induction 1 as [|z l Hs IH Hall]; simpl.
  - repeat constructor.
  - destruct (Qltb (sort_key z) (sort_key x)) eqn:E.
    + constructor; [exact IH|].
      apply Forall_forall. intros y Hy. apply elem_of_insert_stable in Hy as [->|Hy].
      * apply Qlt_le_weak, Qltb_lt, E.
      * rewrite Forall_forall in Hall. auto.
    + apply Qltb_ge in E. constructor; [constructor; assumption|].
      constructor; [exact E|].
      eapply Forall_impl; [exact Hall|]. intros y Hy. simpl in Hy.
      eapply Qle_trans; eauto.
Qed.

Lemma sorted_ascending l : ascending (sorted l).
Proof.
  induction l as [|x l IH]; simpl; [constructor | apply insert_stable_ascending, IH].
Qed.

Lemma ascending_head l w :
  ascending l -> head l = Some w ->
  forall s, s ∈ l -> (sort_key w <= sort_key s)%Q.
Proof.
  intros Hs Hw s Hin. destruct l as [|x l]; [discriminate|].
  injection Hw as ->. apply StronglySorted_inv in Hs as [_ Hall].
  apply elem_of_cons in Hin as [->|Hin]; [apply Qle_refl|].
  rewrite Forall_forall in Hall. auto.
Qed.

Lemma ascending_last l w :
  ascending l -> last l = Some w ->
  forall s, s ∈ l -> (sort_key s <= sort_key w)%Q.
Proof.
  induction 1 as [|x l Hs IH Hall]; intros Hw s Hin; [discriminate|].
  destruct l as [|y l].
  - injection Hw as ->. apply list_elem_of_singleton in Hin as ->. apply Qle_refl.
  - change (last (x :: y :: l)) with (last (y :: l)) in Hw.
    apply elem_of_cons in Hin as [->|Hin]; [|auto].
    rewrite Forall_forall in Hall. apply Hall.
    apply last_Some_elem_of in Hw. exact Hw.
Qed.

(** The first of the sorted entries is an entry of lowest key, the last one an
    entry of highest key. *)
Lemma sorted_extremes l :
  l <> [] ->
  exists weakest strongest,
    head (sorted l) = Some weakest /\ last (sorted l) = Some strongest /\
    weakest ∈ l /\ strongest ∈ l /\
    forall s, s ∈ l ->
      (sort_key weakest <= sort_key s)%Q /\ (sort_key s <= sort_key strongest)%Q.
Proof.
  intros Hne.
  assert (Hne' : sorted l <> []).
  { destruct l as [|x l]; [congruence|]. intros Hnil.
    assert (Hx : x ∈ sorted (x :: l)) by (apply elem_of_sorted; left).
    rewrite Hnil in Hx. inversion Hx. }
  destruct (sorted l) as [|w rest] eqn:Hs; [congruence|].
  destruct (last (w :: rest)) as [g|] eqn:Hl.
  2:{ apply last_None in Hl. discriminate. }
  exists w, g. split; [reflexivity|]. split; [reflexivity|].
  pose proof (sorted_ascending l) as Hasc. rewrite Hs in Hasc.
  split; [apply elem_of_sorted; rewrite Hs; left|].
  split; [apply elem_of_sorted; rewrite Hs; apply last_Some_elem_of; exact Hl|].
  intros s Hin. apply elem_of_sorted in Hin. rewrite Hs in Hin. split.
  - eapply ascending_head; eauto.
  - eapply ascending_last; eauto.
Qed.

End AiEngineFacts.

(* ===================================================================== *)
(** * The session lifecycle *)
(* ===================================================================== *)

Module SessionLifecycle.
Import Database App System Props Scenario DatabaseFacts AppFacts SystemFacts.

(** C8.  A session is created with its active flag set; once the flag of a
    session is cleared it stays cleared whatever the teacher and the students
    do next (there is no transition from closed to active); closing a closed
    session changes nothing, closing twice is closing once, and
    [close_session] returns normally in every case. *)
Theorem active_flag_only_falls (sys : State) (actions : list Action)
    (now : Z) (teacher_id topic subtopic : string) (session_id : Z) :
  unique_session_ids (store sys) ->
  (let '(db', id) := create_session (store sys) now teacher_id topic subtopic in
   get_session (store sys) id = None /\
   exists s, get_session db' id = Some s /\ ses_is_active s = true) /\
  (closed (store sys) session_id ->
   closed (store (run sys actions)) session_id) /\
  (forall s, get_session (store sys) session_id = Some s ->
   closed (close_session (store sys) session_id) session_id) /\
  (closed (store sys) session_id ->
   close_session (store sys) session_id = store sys) /\
  close_session (close_session (store sys) session_id) session_id =
  close_session (store sys) session_id.
Proof.
  intros Hu. split; [|split; [|split; [|split]]].
  - pose proof (get_session_create_new (store sys) now teacher_id topic subtopic) as H.
    destruct (create_session _ _ _ _ _) as [db' id].
    destruct H as (Hnone & s & Hs & Ha & _). eauto.
  - apply closed_run.
  - intros s. apply close_closes.
  - apply close_session_closed. exact Hu.
  - apply close_session_idempotent.
Qed.

Lemma active_flag_only_falls_witness :
  unique_session_ids (store ended_in_flight) /\
  closed (store ended_in_flight) 1 /\
  closed (store (run ended_in_flight
                   [StartSession 7 "teacher"; StudentRun 0 late; EndSession 1])) 1 /\
  close_session (store ended_in_flight) 1 = store ended_in_flight.
Proof.
  assert (Hu : unique_session_ids (store ended_in_flight)).
  { unfold unique_session_ids. apply (bool_decide_unpack _). vm_compute. exact I. }
  assert (Hc : closed (store ended_in_flight) 1).
  { eexists. split; [vm_compute; reflexivity | reflexivity]. }
  destruct (active_flag_only_falls ended_in_flight
              [StartSession 7 "teacher"; StudentRun 0 late; EndSession 1]
              7 "teacher" business_plan "Fundamental Components" 1 Hu)
    as (_ & Hrun & _ & Hnoop & _).
  auto.
Defined.

End SessionLifecycle.

(* ===================================================================== *)
(** * The quiz run *)
(* ===================================================================== *)

Module QuizRun.
Import Database App System Props Scenario DatabaseFacts AppFacts SystemFacts.

(** C10.  When the session of the request is closed, an execution of
    [student_quiz] shows the warning and returns with the store and the run
    state as they were; and whatever the teacher and the students do from a
    state in which the session is closed, the answer records of that session
    stay the same. *)
Theorem closed_session_takes_no_answers (sys : State) (actions : list Action)
    (session_id : Z) (st : RunState) (req : Request) :
  closed (store sys) session_id ->
  (session_id_param req = Some session_id ->
   student_quiz (store sys) st req = (store sys, st, Rendered SessionEnded)) /\
  filter (of_session session_id) (results (store (run sys actions))) =
  filter (of_session session_id) (results (store sys)).
Proof.
  intros Hc. split.
  - intros Hp. apply (student_quiz_closed _ _ _ session_id); assumption.
  - apply closed_results_run. exact Hc.
Qed.

Lemma closed_session_takes_no_answers_witness :
  closed (store ended_in_flight) 1 /\
  student_quiz (store ended_in_flight) (client_state ended_in_flight 0) late =
    (store ended_in_flight, client_state ended_in_flight 0, Rendered SessionEnded) /\
  filter (of_session 1)
    (results (store (run ended_in_flight
                       [StudentRun 0 early_submit; StudentRun 0 late]))) =
  filter (of_session 1) (results (store ended_in_flight)).
Proof.
  assert (Hc : closed (store ended_in_flight) 1).
  { eexists. split; [vm_compute; reflexivity | reflexivity]. }
  destruct (closed_session_takes_no_answers ended_in_flight
              [StudentRun 0 early_submit; StudentRun 0 late] 1
              (client_state ended_in_flight 0) late Hc) as [Hview Hres].
  split; [exact Hc|]. split; [apply Hview; reflexivity | exact Hres].
Defined.

(** C3, on a session that is still active.  An in-progress run observed with
    [deadline - now <= 0] in an active session whose topic has questions is
    submitted by that execution: the store gains one answer record per
    question of the topic's set, in order, each with the selection made so
    far; a question without a selection is recorded with the empty selection
    and as incorrect; the student then has exactly one record per question
    and the run is completed. *)
Theorem deadline_forces_submission (db : Store) (st : RunState) (req : Request)
    (session_id : Z) (session : Session) (student : string) (end_time : Z) :
  well_formed db ->
  session_id_param req = Some session_id ->
  get_session db session_id = Some session ->
  ses_is_active session = true ->
  in_progress db session_id student st ->
  topic_set db session <> [] ->
  quiz_end_time st = Some end_time ->
  end_time - now req <= 0 ->
  exists db' rows,
    student_quiz db st req = (db', set_quiz_completed st true, Rerun) /\
    results db' = results db ++ rows /\
    Forall2 (fun q r =>
               answer_row db (now req) session_id student (answers st) q r /\
               (answers st !! sq_id q = None ->
                r_selected_answer r = "" /\ r_is_correct r = false))
            (topic_set db session) rows /\
    (forall q, q ∈ topic_set db session ->
               answer_count db' session_id student (sq_id q) = 1%nat) /\
    check_student_completed db' session_id student = true.
Proof.
  intros Hwf Hp Hs Ha Hin Hne Ht Hle.
  pose proof Hwf as (_ & Hu & Htopic & Hcorrect).
  rewrite (topic_set_served db session Htopic session_id Hs) in *.
  pose proof (passed_of_elapsed st req end_time Ht Hle) as Hd.
  destruct (student_quiz_deadline db st req session_id session student
              Hp Hs Ha Hin Hne Hd) as (db' & Heq & Hsub).
  pose proof Hin as (Hid & _).
  assert (Heff : effective_id st req = student)
    by (unfold effective_id; rewrite Hid; reflexivity).
  pose proof (submitted_counts db st req db' _ Hu Hsub) as [Hcount _].
  destruct Hsub as (sid & ses & rows & Hsub). simpl in Hsub.
  destruct Hsub as (Hp' & _ & _ & _ & _ & _ & _ & _ & _ & _ & Hr & Hall & _).
  rewrite Hp in Hp'. injection Hp' as <-. rewrite Heff in Hall.
  exists db', rows. split; [exact Heq|]. split; [exact Hr|]. split; [|split].
  - apply Forall2_same_length_lookup. split; [eapply Forall2_length; eauto|].
    intros i q r Hq Hrow.
    pose proof (Forall2_lookup_lr _ _ _ _ _ _ Hall Hq Hrow) as Hqr.
    split; [exact Hqr|].
    intros Hnone. eapply blank_is_incorrect; eauto.
    eapply list_elem_of_lookup_2; eauto.
  - intros q Hq. rewrite <- Heff. apply Hcount; auto.
  - destruct (get_questions_for_student db business_plan) as [|q qs] eqn:Hqs;
      [congruence|].
    apply Forall2_cons_inv_l in Hall as (r & rows' & (H1 & H2 & _) & _ & ->).
    unfold check_student_completed. apply bool_decide_eq_true_2.
    rewrite Hr, !filter_app, filter_cons_True by (split; assumption).
    rewrite !length_app. simpl. lia.
Qed.

Lemma deadline_forces_submission_witness :
  exists db' rows,
    student_quiz (store two_answered) (client_state two_answered 0) late =
      (db', set_quiz_completed (client_state two_answered 0) true, Rerun) /\
    results db' = results (store two_answered) ++ rows /\
    length rows = 5%nat /\
    check_student_completed db' 1 student = true.
Proof.
  assert (Hwf : well_formed (store two_answered))
    by apply well_formed_run, well_formed_initial.
  destruct (deadline_forces_submission (store two_answered)
              (client_state two_answered 0) late 1
              {| ses_id := 1; ses_teacher_id := "teacher";
                 ses_topic := business_plan;
                 ses_subtopic := "Fundamental Components";
                 ses_created_at := 0; ses_is_active := true |}
              student 300000000 Hwf)
    as (db' & rows & Heq & Hr & Hall & _ & Hdone).
  - reflexivity.
  - vm_compute. reflexivity.
  - reflexivity.
  - repeat (apply conj); vm_compute; reflexivity.
  - vm_compute. discriminate.
  - vm_compute. reflexivity.
  - vm_compute. discriminate.
  - exists db', rows. repeat split; auto.
    apply Forall2_length in Hall. rewrite <- Hall. vm_compute. reflexivity.
Defined.

(** C3 as stated fails on a closed session: the run of the scenario is in
    progress and its deadline has passed, yet the execution returns with the
    warning of a closed session, writes nothing and leaves the run as it
    was. *)
Lemma deadline_in_closed_session :
  in_progress (store ended_in_flight) 1 student (client_state ended_in_flight 0) /\
  quiz_end_time (client_state ended_in_flight 0) = Some 300000000 /\
  300000000 - now late <= 0 /\
  student_quiz (store ended_in_flight) (client_state ended_in_flight 0) late =
    (store ended_in_flight, client_state ended_in_flight 0, Rendered SessionEnded) /\
  results (store ended_in_flight) = [] /\
  quiz_completed (client_state ended_in_flight 0) = false.
Proof. repeat (apply conj); vm_compute; congruence. Qed.

(** C1, for the application run one step at a time.  From a well-formed
    store with at most one answer record per (session, student, question),
    whatever the teacher and the students do, there is at most one record per
    triple at every moment; and when an execution of the student view
    submits (by the button or by the deadline), the topic's set is not empty
    and from then on the student has exactly one record for each of its
    questions. *)
Theorem one_record_per_triple (sys : State) (before after : list Action)
    (client : nat) (req : Request) :
  well_formed (store sys) ->
  at_most_once (store sys) ->
  let s1 := run sys before in
  let s2 := step s1 (StudentRun client req) in
  let s3 := run s2 after in
  at_most_once (store s1) /\ at_most_once (store s2) /\ at_most_once (store s3) /\
  (results (store s2) <> results (store s1) ->
   exists session_id session,
     session_id_param req = Some session_id /\
     get_session (store s1) session_id = Some session /\
     topic_set (store s1) session <> [] /\
     forall q, q ∈ topic_set (store s1) session ->
       answer_count (store s3) session_id
         (effective_id (client_state s1 client) req) (sq_id q) = 1%nat).
Proof.
  intros Hwf Hone s1 s2 s3.
  assert (Hwf1 : well_formed (store s1)) by apply well_formed_run, Hwf.
  assert (Hwf2 : well_formed (store s2)) by apply well_formed_step, Hwf1.
  assert (H1 : at_most_once (store s1)) by (apply at_most_once_run; [apply Hwf|exact Hone]).
  assert (H2 : at_most_once (store s2)) by (apply at_most_once_step; [apply Hwf1|exact H1]).
  assert (H3 : at_most_once (store s3)) by (apply at_most_once_run; [apply Hwf2|exact H2]).
  repeat (split; [assumption|]).
  intros Hchange. subst s2. simpl in *.
  destruct (student_quiz (store s1) (client_state s1 client) req)
    as [[db st] out] eqn:Hq. simpl in *.
  destruct (student_quiz_cases _ _ _ _ _ _ Hq) as [->|[Hsub _]]; [congruence|].
  pose proof Hwf1 as (_ & Hu & Htopic & _).
  pose proof (submitted_counts _ _ _ _ _ Hu Hsub) as [Hcount _].
  destruct Hsub as (sid & ses & rows & Hsub). simpl in Hsub.
  destruct Hsub as (Hp & Hs & _ & _ & _ & _ & Hne & _).
  exists sid, ses. rewrite (topic_set_served _ ses Htopic sid Hs).
  repeat (split; [assumption|]).
  intros q Hin. specialize (Hcount q Hin sid Hp).
  pose proof (answer_count_run after
                {| store := db; clients := <[client:=st]> (clients s1) |}
                sid (effective_id (client_state s1 client) req) (sq_id q)) as Hmono.
  specialize (H3 sid (effective_id (client_state s1 client) req) (sq_id q)).
  simpl in Hmono. fold s3 in Hmono. lia.
Qed.

Lemma one_record_per_triple_witness :
  well_formed (store initial) /\ at_most_once (store initial) /\
  let s1 := run initial answering in
  let s2 := step s1 (StudentRun 0 late) in
  let s3 := run s2 [StudentRun 0 late; StudentRun 0 early_submit] in
  results (store s2) <> results (store s1) /\
  at_most_once (store s3) /\
  exists session_id session,
    session_id_param late = Some session_id /\
    get_session (store s1) session_id = Some session /\
    topic_set (store s1) session <> [] /\
    forall q, q ∈ topic_set (store s1) session ->
      answer_count (store s3) session_id
        (effective_id (client_state s1 0) late) (sq_id q) = 1%nat.
Proof.
  assert (Hone : at_most_once (store initial))
    by (apply at_most_once_empty; vm_compute; reflexivity).
  split; [exact well_formed_initial|]. split; [exact Hone|].
  intros s1 s2 s3.
  assert (Hchange : results (store s2) <> results (store s1)).
  { intros H. apply (f_equal length) in H. vm_compute in H. discriminate. }
  split; [exact Hchange|].
  destruct (one_record_per_triple initial answering
              [StudentRun 0 late; StudentRun 0 early_submit] 0 late
              well_formed_initial Hone) as (_ & _ & H3 & Hsub).
  split; [exact H3|]. exact (Hsub Hchange).
Defined.

(** C1 as stated fails for the submission itself: it has no guard and the
    table no uniqueness constraint, so two calls of [submit_all_answers] for
    the same session and student leave two records per question. *)
Lemma submission_fired_twice :
  exists db, submitted_twice = Ok db /\
             answer_count db 1 student 1 = 2%nat /\
             ~ at_most_once db.
Proof.
  eexists. split; [vm_compute; reflexivity|]. split; [vm_compute; reflexivity|].
  intros H. specialize (H 1 student 1). vm_compute in H. lia.
Qed.

(** C6, for the view of an active session.  An execution of [student_quiz]
    starts a run only on the Start button, in an active session, for a
    student without an answer record in it, and then writes nothing.  For a
    student who has an answer record in the session: in an active session
    the execution sets the completed flag and shows the completion screen;
    in every case it writes nothing and neither starts a run nor changes
    the selections, and it ends on the completion screen or on the message
    of a closed or unknown session. *)
Theorem entry_guard (db : Store) (st : RunState) (req : Request)
    (db' : Store) (st' : RunState) (out : Outcome) :
  student_quiz db st req = (db', st', out) ->
  (quiz_started st = false -> quiz_started st' = true ->
   exists session_id session,
     session_id_param req = Some session_id /\
     get_session db session_id = Some session /\
     ses_is_active session = true /\
     check_student_completed db session_id (effective_id st req) = false /\
     click req = ClickStart /\ db' = db) /\
  (forall session_id,
     session_id_param req = Some session_id ->
     check_student_completed db session_id (effective_id st req) = true ->
     db' = db /\ quiz_started st' = quiz_started st /\ answers st' = answers st /\
     (out = Rendered SessionNotFound \/ out = Rendered SessionEnded \/
      out = Rendered QuizCompletion) /\
     (forall session, get_session db session_id = Some session ->
        ses_is_active session = true ->
        quiz_completed st' = true /\ out = Rendered QuizCompletion)).
Proof.
  intros H. split.
  - intros Hst Hst'.
    destruct (student_quiz_start _ _ _ _ _ _ H Hst Hst')
      as (sid & ses & Hp & Hs & Ha & Hc & _ & Hclick & Hdb & _).
    exists sid, ses. auto 10.
  - intros sid Hp Hc.
    destruct (student_quiz_has_records _ _ _ _ _ _ _ H Hp Hc) as (Hdb & Hst & Hans & Hout).
    repeat (split; [assumption|]).
    intros ses Hs Ha.
    rewrite (student_quiz_completed _ _ _ _ _ Hp Hs Ha Hc) in H.
    simplify_eq. auto.
Qed.

Lemma entry_guard_witness :
  check_student_completed (store timed_out) 1 student = true /\
  student_quiz (store timed_out) (set_student_id init_session_state (Some student))
    (request 400000000 ClickStart) =
  (store timed_out,
   set_quiz_completed (set_student_id init_session_state (Some student)) true,
   Rendered QuizCompletion).
Proof.
  split; [vm_compute; reflexivity|].
  destruct (student_quiz (store timed_out)
              (set_student_id init_session_state (Some student))
              (request 400000000 ClickStart)) as [[db' st'] out] eqn:H.
  destruct (entry_guard _ _ _ _ _ _ H) as [_ Hrec].
  destruct (Hrec 1 eq_refl) as (Hdb & _ & _ & _ & Hdone);
    [vm_compute; reflexivity|].
  destruct (Hdone _ ltac:(vm_compute; reflexivity) eq_refl) as [_ ->].
  subst db'. f_equal. f_equal.
  vm_compute in H. injection H as <-. reflexivity.
Defined.

(** C6 as stated fails on a closed session: the student of the scenario has
    answer records in session 1, and after the teacher has ended the session
    the view shows the message of a closed session, not the completion
    screen, whether the browser holds the student's completed run or only
    the student's identifier; in the second case the completed flag stays
    unset. *)
Lemma completed_student_in_closed_session :
  check_student_completed (store ended_after) 1 student = true /\
  student_quiz (store ended_after) (client_state ended_after 0) late =
    (store ended_after, client_state ended_after 0, Rendered SessionEnded) /\
  student_quiz (store ended_after)
    (set_student_id init_session_state (Some student)) late =
    (store ended_after, set_student_id init_session_state (Some student),
     Rendered SessionEnded) /\
  quiz_completed (set_student_id init_session_state (Some student)) = false.
Proof. repeat (apply conj); vm_compute; reflexivity. Qed.

(** C7.  An execution of [student_quiz] that writes answer records either
    found the deadline passed or was a press of the Submit button with a
    selection for every question of the topic's set; and a press of the
    Submit button on an in-progress run with fewer selections than
    questions, before the deadline, leaves the store and the run state as
    they were. *)
Theorem manual_submit_needs_all_answers (db : Store) (st : RunState) (req : Request)
    (session_id : Z) (session : Session) (db' : Store) (st' : RunState)
    (out : Outcome) :
  well_formed db -> selections_in_set db st ->
  session_id_param req = Some session_id ->
  get_session db session_id = Some session ->
  student_quiz db st req = (db', st', out) ->
  (db' <> db ->
   deadline_passed st req \/
   (click req = ClickSubmit /\
    forall q, q ∈ topic_set db session -> is_Some (answers st !! sq_id q))) /\
  (forall student,
     in_progress db session_id student st ->
     click req = ClickSubmit -> ~ deadline_passed st req ->
     (size (answers st) < length (topic_set db session))%nat ->
     db' = db /\ st' = st /\ in_progress db' session_id student st').
Proof.
  intros Hwf Hsel Hp Hs H.
  pose proof Hwf as (_ & Hu & Htopic & _).
  rewrite (topic_set_served db session Htopic session_id Hs).
  split.
  - intros Hne.
    destruct (student_quiz_cases _ _ _ _ _ _ H) as [->|[Hsub _]]; [congruence|].
    destruct Hsub as (sid & ses & rows & Hsub). simpl in Hsub.
    destruct Hsub as (_ & _ & _ & _ & _ & _ & _ & [Hd|(Hd & Hclick & Hlen)] & _);
      [left; exact Hd|].
    right. split; [exact Hclick|].
    apply all_selected; auto. apply served_ids_NoDup. exact Hu.
  - intros student Hin Hclick Hd Hlt.
    destruct (student_quiz_rejects db st req session_id student Hp Hin Hclick Hd Hlt)
      as [out' Heq].
    rewrite Heq in H. simplify_eq. auto.
Qed.

Lemma manual_submit_needs_all_answers_witness :
  in_progress (store two_answered) 1 student (client_state two_answered 0) /\
  (size (answers (client_state two_answered 0)) <
   length (get_questions_for_student (store two_answered) business_plan))%nat /\
  student_quiz (store two_answered) (client_state two_answered 0) early_submit =
    (store two_answered, client_state two_answered 0, Rendered (QuizPage true)).
Proof.
  assert (Hin : in_progress (store two_answered) 1 student (client_state two_answered 0))
    by (repeat (apply conj); vm_compute; reflexivity).
  assert (Hlt : (size (answers (client_state two_answered 0)) <
                 length (get_questions_for_student (store two_answered) business_plan))%nat)
    by (vm_compute; lia).
  split; [exact Hin|]. split; [exact Hlt|].
  destruct (student_quiz (store two_answered) (client_state two_answered 0) early_submit)
    as [[db' st'] out] eqn:H.
  assert (Hwf : well_formed (store two_answered))
    by apply well_formed_run, well_formed_initial.
  assert (Hsel : selections_in_set (store two_answered) (client_state two_answered 0)).
  { intros qid [v Hv].
    apply list_elem_of_In. vm_compute.
    destruct (decide (qid = 1)) as [->|?]; [auto|].
    destruct (decide (qid = 2)) as [->|?]; [auto|].
    exfalso. revert Hv. unfold two_answered. vm_compute answers.
    change (<[2:="A"%string]> (<[1:="C"%string]> (∅ : gmap Z string)) !! qid = Some v -> False).
    rewrite !lookup_insert_ne, lookup_empty by congruence. discriminate. }
  destruct (manual_submit_needs_all_answers (store two_answered)
              (client_state two_answered 0) early_submit 1
              {| ses_id := 1; ses_teacher_id := "teacher";
                 ses_topic := business_plan;
                 ses_subtopic := "Fundamental Components";
                 ses_created_at := 0; ses_is_active := true |}
              db' st' out Hwf Hsel eq_refl ltac:(vm_compute; reflexivity) H) as [_ Hrej].
  destruct (Hrej student Hin eq_refl) as (-> & -> & _).
  - intros (t & Ht & Hrem). vm_compute in Ht. injection Ht as <-.
    vm_compute in Hrem. apply Hrem. reflexivity.
  - exact Hlt.
  - f_equal. vm_compute in H. injection H as <-. reflexivity.
Defined.

End QuizRun.

(* ===================================================================== *)
(** * The aggregation *)
(* ===================================================================== *)

Module Aggregation.
Import Float64 Database System Props Scenario DatabaseFacts AppFacts Float64Facts
  AggregationFacts.

(** C2.  Replacing the text of every question by any other text changes
    neither the skill statistics nor the aggregated results of any session,
    and every record of the statistics has exactly the four keys skill tag,
    total answers, correct answers and success rate. *)
Theorem statistics_hide_question_text (db : Store) (session_id : Z)
    (text : Question -> string) :
  get_skill_statistics (rewrite_texts text db) session_id =
    get_skill_statistics db session_id /\
  get_aggregated_results (rewrite_texts text db) session_id =
    get_aggregated_results db session_id /\
  Forall (fun row => (dict_of_row row).*1 =
            ["skill_tag"; "total_answers"; "correct_answers"; "success_rate"])
         (get_skill_statistics db session_id).
Proof.
  split; [apply statistics_rewrite_texts|].
  split; [apply aggregated_rewrite_texts|].
  apply Forall_forall. intros row _. reflexivity.
Qed.

(** C4.  For a session without answer records the aggregation returns
    normally, with no participant, the overall success rate 0 and an empty
    skill breakdown. *)
Theorem aggregate_without_answers (db : Store) (session_id : Z) :
  filter (of_session session_id) (results db) = [] ->
  get_skill_statistics db session_id = [] /\
  exists a, get_aggregated_results db session_id = Ok a /\
            participant_count a = 0 /\
            overall_success_rate a = PyInt 0 /\
            skill_breakdown a = [].
Proof.
  intros Hnone.
  assert (Hstats : get_skill_statistics db session_id = []).
  { unfold get_skill_statistics. rewrite joined_no_results by exact Hnone. reflexivity. }
  split; [exact Hstats|].
  unfold get_aggregated_results, overall_row, get_participation_count.
  rewrite Hstats, Hnone. simpl. eauto.
Qed.

Lemma aggregate_without_answers_witness :
  filter (of_session 1) (results (store two_answered)) = [] /\
  exists a, get_aggregated_results (store two_answered) 1 = Ok a /\
            overall_success_rate a = PyInt 0 /\ skill_breakdown a = [].
Proof.
  assert (H : filter (of_session 1) (results (store two_answered)) = [])
    by (vm_compute; reflexivity).
  split; [exact H|].
  destruct (aggregate_without_answers (store two_answered) 1 H)
    as (_ & a & Ha & _ & Ho & Hs).
  eauto.
Defined.



End Aggregation.

(* ===================================================================== *)
(** * The fallback report *)
(* ===================================================================== *)

Module Fallback.
Import AiEngine Props Scenario AiEngineFacts.

(** C9.  For a non-empty skill breakdown whose entries all carry a success
    rate, the fallback report is the header, one line per skill, the
    recommendations heading, then: the focus area, naming an entry of lowest
    rate, exactly when that rate is below 70; the strength, naming an entry
    of highest rate, exactly when that rate is at least 80; the review note
    when the overall rate is below 60, the note of excellence when it is at
    least 80 and no note in between; and the footer.  For skill A at 40 and
    skill B at 90 the focus area is A and the strength is B. *)
Theorem fallback_flags_extremes (aggregated_results : ReportInput)
    (skills : list SkillEntry) :
  in_skill_breakdown aggregated_results = Some skills ->
  skills <> [] ->
  Forall (fun s => is_Some (se_success_rate s)) skills ->
  let overall := default 0%Q (in_overall_success_rate aggregated_results) in
  (exists weakest strongest focus strong note,
    generate_fallback_report aggregated_results =
      Full ([Header (default "Unknown" (in_topic aggregated_results))
                    (default "Unknown" (in_subtopic aggregated_results))
                    (default 0 (in_participant_count aggregated_results))
                    overall]
            ++ (skill_line <$> skills) ++ [RecommendationsHeading]
            ++ focus ++ strong ++ note ++ [Footer]) /\
    weakest ∈ skills /\ strongest ∈ skills /\
    Forall (fun s => (sort_key weakest <= sort_key s)%Q /\
                     (sort_key s <= sort_key strongest)%Q) skills /\
    se_success_rate weakest = Some (sort_key weakest) /\
    se_success_rate strongest = Some (sort_key strongest) /\
    ((sort_key weakest < 70)%Q ->
       focus = [FocusArea (se_skill_tag weakest) (sort_key weakest)]) /\
    ((70 <= sort_key weakest)%Q -> focus = []) /\
    ((80 <= sort_key strongest)%Q ->
       strong = [Strength (se_skill_tag strongest) (sort_key strongest)]) /\
    ((sort_key strongest < 80)%Q -> strong = []) /\
    ((overall < 60)%Q -> note = [ReviewNote]) /\
    ((80 <= overall)%Q -> note = [ExcellentNote]) /\
    ((60 <= overall)%Q -> (overall < 80)%Q -> note = [])) /\
  generate_fallback_report two_skills =
    Full [Header "Unknown" "Unknown" 0 0%Q;
          SkillLine Red "A" 40%Q; SkillLine Green "B" 90%Q;
          RecommendationsHeading;
          FocusArea "A" 40%Q; Strength "B" 90%Q;
          ReviewNote; Footer].
Proof.
  intros Hbreak Hne Hrates overall. split; [|vm_compute; reflexivity].
  destruct (sorted_extremes skills Hne)
    as (weakest & strongest & Hhead & Hlast & Hw & Hs & Hext).
  assert (Hkey : forall s, s ∈ skills -> se_success_rate s = Some (sort_key s)).
  { intros s Hin. rewrite Forall_forall in Hrates.
    destruct (Hrates s Hin) as [r Hr]. unfold sort_key. rewrite Hr. reflexivity. }
  exists weakest, strongest, (focus_area (Some weakest)),
    (strength (Some strongest)), (general_note overall).
  split.
  { unfold generate_fallback_report. rewrite Hbreak. simpl default.
    destruct skills as [|s0 skills']; [congruence|].
    rewrite Hhead, Hlast. reflexivity. }
  split; [exact Hw|]. split; [exact Hs|].
  split; [apply Forall_forall; exact Hext|].
  split; [apply Hkey, Hw|]. split; [apply Hkey, Hs|].
  unfold focus_area, strength, general_note.
  rewrite (Hkey weakest Hw), (Hkey strongest Hs). simpl default.
  repeat split.
  - intros H. apply Qltb_lt in H. rewrite H. reflexivity.
  - intros H. apply Qltb_ge in H. rewrite H. reflexivity.
  - intros H. apply Qle_bool_iff in H. rewrite H. reflexivity.
  - intros H. apply Qle_bool_lt in H. rewrite H. reflexivity.
  - intros H. apply Qltb_lt in H. rewrite H. reflexivity.
  - intros H. assert (Hge : (60 <= overall)%Q).
    { eapply Qle_trans; [|exact H]. vm_compute. discriminate. }
    apply Qltb_ge in Hge. apply Qle_bool_iff in H. rewrite Hge, H. reflexivity.
  - intros H1 H2. apply Qltb_ge in H1. apply Qle_bool_lt in H2.
    rewrite H1, H2. reflexivity.
Qed.

Lemma fallback_flags_extremes_witness :
  exists fragments,
    generate_fallback_report two_skills = Full fragments /\
    FocusArea "A" 40%Q ∈ fragments /\ Strength "B" 90%Q ∈ fragments.
Proof.
  destruct (fallback_flags_extremes two_skills
              [ {| se_skill_tag := "A"; se_success_rate := Some 40%Q |};
                {| se_skill_tag := "B"; se_success_rate := Some 90%Q |} ]
              eq_refl ltac:(discriminate)) as [_ Hreport].
  - repeat constructor; eexists; reflexivity.
  - eexists. split; [exact Hreport|].
    split; apply list_elem_of_In; simpl; tauto.
Defined.

End Fallback.

(* ===================================================================== *)
(** * Further properties of the store *)
(* ===================================================================== *)

Module StoreExtras.
Import Float64 Database App System Props Scenario DatabaseFacts AppFacts SystemFacts
  Float64Facts AggregationFacts.

(** ** init_database *)

Lemma insert_question_frame db row :
  sessions (insert_question db row) = sessions db /\
  results (insert_question db row) = results db /\
  exists q, questions (insert_question db row) = questions db ++ [q] /\
            q_id q = next_id (q_id <$> questions db) /\
            q_topic q = row.1.2.
Proof.
  destruct row as [[[[text correct] tag] topic] opts]. simpl. eauto 10.
Qed.

Lemma unique_question_ids_insert db row :
  unique_question_ids db -> unique_question_ids (insert_question db row).
Proof.
  unfold unique_question_ids. intros H.
  destruct (insert_question_frame db row) as (_ & _ & q & -> & Hid & _).
  rewrite fmap_app. apply NoDup_app. split; [exact H|]. split; [|apply NoDup_singleton].
  intros x Hx Hin. apply list_elem_of_singleton in Hin. subst x. simpl in Hx.
  rewrite Hid in Hx. exact (next_id_fresh _ Hx).
Qed.

Lemma seed_frame rows : forall db,
  sessions (fold_left insert_question rows db) = sessions db /\
  results (fold_left insert_question rows db) = results db /\
  (unique_question_ids db -> unique_question_ids (fold_left insert_question rows db)) /\
  exists qs, questions (fold_left insert_question rows db) = questions db ++ qs /\
             (q_topic <$> qs) = ((fun row => row.1.2) <$> rows).
Proof.
  induction rows as [|row rows IH]; intros db; simpl.
  - repeat split; auto. exists []. rewrite app_nil_r. auto.
  - destruct (IH (insert_question db row)) as (Hs & Hr & Hu & qs & Hq & Ht).
    destruct (insert_question_frame db row) as (Hs' & Hr' & q & Hq' & _ & Ht').
    split; [congruence|]. split; [congruence|].
    split; [intros H; apply Hu, unique_question_ids_insert, H|].
    exists (q :: qs). rewrite Hq, Hq', <- app_assoc. split; [reflexivity|].
    rewrite !fmap_cons. f_equal; assumption.
Qed.

(** X1.  [init_database] can be run again and again (the application runs it
    at the start of every execution of the script): a second run changes
    nothing.  It never touches sessions or results, it keeps the question
    ids unique, and after it the topic Business Plan has questions. *)
Theorem init_database_idempotent (db : Store) :
  init_database (init_database db) = init_database db /\
  sessions (init_database db) = sessions db /\
  results (init_database db) = results db /\
  get_questions_by_topic (init_database db) business_plan <> [] /\
  get_questions_for_student (init_database db) business_plan <> [] /\
  (get_questions_by_topic db business_plan <> [] -> init_database db = db) /\
  (unique_question_ids db -> unique_question_ids (init_database db)).
Proof.
  assert (Hseeded : get_questions_by_topic (seed_business_plan_questions db)
                      business_plan <> []).
  { unfold seed_business_plan_questions, get_questions_by_topic.
    destruct (seed_frame seed_rows db) as (_ & _ & _ & qs & -> & Ht).
    rewrite filter_app. destruct qs as [|q qs]; [discriminate|].
    injection Ht as Hq _. rewrite filter_cons_True by exact Hq.
    intros H. apply app_eq_nil in H as [_ H]. discriminate. }
  assert (Hne : get_questions_by_topic (init_database db) business_plan <> []).
  { unfold init_database. case_bool_decide as Hc; [exact Hseeded|].
    unfold get_questions_by_topic. intros Hnil. rewrite Hnil in Hc. apply Hc. reflexivity. }
  assert (Hid : forall db0, get_questions_by_topic db0 business_plan <> [] ->
                            init_database db0 = db0).
  { intros db0 H. unfold init_database. rewrite bool_decide_eq_false_2; [reflexivity|].
    unfold get_questions_by_topic in H. destruct (filter _ _); [congruence|discriminate]. }
  split; [apply Hid, Hne|].
  destruct (seed_frame seed_rows db) as (Hs & Hr & Hu & _).
  split; [unfold init_database; case_bool_decide; [exact Hs|reflexivity]|].
  split; [unfold init_database; case_bool_decide; [exact Hr|reflexivity]|].
  split; [exact Hne|].
  split.
  { unfold get_questions_for_student. unfold get_questions_by_topic in Hne.
    destruct (filter _ _); [congruence|discriminate]. }
  split; [apply Hid|].
  intros H. unfold init_database. case_bool_decide; [apply Hu, H|exact H].
Qed.


Lemma init_database_idempotent_witness :
  init_database (init_database empty_store) = init_database empty_store /\
  unique_question_ids (init_database empty_store).
Proof.
  destruct (init_database_idempotent empty_store) as (Hid & _ & _ & _ & _ & _ & Hu).
  split; [exact Hid|]. apply Hu. constructor.
Defined.

(** ** Questions *)

Lemma find_question_unique (qs : list Question) (q : Question) :
  NoDup (q_id <$> qs) -> q ∈ qs ->
  find (fun q0 => bool_decide (q_id q0 = q_id q)) qs = Some q.
Proof.
  induction qs as [|q0 qs IH]; intros Hnd Hin; [inversion Hin|].
  rewrite fmap_cons in Hnd. apply NoDup_cons in Hnd as [Hq0 Hnd]. simpl.
  apply elem_of_cons in Hin as [->|Hin].
  - rewrite bool_decide_eq_true_2 by reflexivity. reflexivity.
  - rewrite bool_decide_eq_false_2; [auto|].
    intros Heq. apply Hq0. rewrite Heq. apply list_elem_of_fmap. eauto.
Qed.

Lemma find_question_absent (qs : list Question) (x : Z) :
  x ∉ q_id <$> qs -> find (fun q0 => bool_decide (q_id q0 = x)) qs = None.
Proof.
  induction qs as [|q0 qs IH]; intros Hx; [reflexivity|].
  rewrite fmap_cons in Hx. apply not_elem_of_cons in Hx as [Hne Hx]. simpl.
  rewrite bool_decide_eq_false_2 by congruence. auto.
Qed.

(** X2.  With unique question ids, [get_correct_answer] returns the correct
    answer of the question that has the id; for an id that no question has
    it returns the empty string instead of failing. *)
Theorem get_correct_answer_lookup (db : Store) (q : Question) (unknown : Z) :
  unique_question_ids db ->
  (q ∈ questions db -> get_correct_answer db (q_id q) = q_correct_answer q) /\
  (unknown ∉ q_id <$> questions db -> get_correct_answer db unknown = "").
Proof.
  intros Hu. unfold get_correct_answer. split.
  - intros Hin. rewrite (find_question_unique _ _ Hu Hin). reflexivity.
  - intros Hx. rewrite (find_question_absent _ _ Hx). reflexivity.
Qed.

Lemma get_correct_answer_lookup_witness :
  get_correct_answer (store initial) 2 = "B" /\
  get_correct_answer (store initial) 6 = "".
Proof.
  assert (Hu : unique_question_ids (store initial)) by apply well_formed_initial.
  split.
  - destruct (get_correct_answer_lookup (store initial)
                {| q_id := 2;
                   q_question_text :=
                     "Was bedeutet " +:+ dquote +:+ "Value Proposition" +:+ dquote +:+ "?";
                   q_correct_answer := "B"; q_skill_tag := "Value Proposition";
                   q_topic := business_plan;
                   q_options := "A) Das Logo des Unternehmens|B) Der zentrale Nutzen für den Kunden|C) Die Kostenstruktur des Unternehmens|D) Die Wettbewerber" |}
                6 Hu) as [Hknown _].
    apply Hknown. apply list_elem_of_In. vm_compute. tauto.
  - destruct (get_correct_answer_lookup (store initial)
                {| q_id := 0; q_question_text := ""; q_correct_answer := "";
                   q_skill_tag := ""; q_topic := ""; q_options := "" |}
                6 Hu) as [_ Hunknown].
    apply Hunknown. intros Hin. apply list_elem_of_In in Hin. vm_compute in Hin.
    intuition discriminate.
Defined.

(** X3.  What a student receives does not depend on the correct answers:
    replacing the correct answer of every question leaves
    [get_questions_for_student] unchanged; and the questions a student
    receives are those of [get_questions_by_topic], in the same order. *)
Theorem student_questions_hide_answers (db : Store) (topic : string)
    (answer : Question -> string) :
  get_questions_for_student (rewrite_answers answer db) topic =
    get_questions_for_student db topic /\
  get_questions_for_student db topic = for_student <$> get_questions_by_topic db topic /\
  sq_id <$> get_questions_for_student db topic = q_id <$> get_questions_by_topic db topic.
Proof.
  split; [|split].
  - unfold get_questions_for_student, rewrite_answers. simpl.
    rewrite (filter_fmap (with_correct_answer answer) (fun q => q_topic q = topic)).
    rewrite <- list_fmap_compose. apply list_fmap_ext. intros _ q _. reflexivity.
  - reflexivity.
  - unfold get_questions_for_student, get_questions_by_topic.
    rewrite <- list_fmap_compose. reflexivity.
Qed.


(** ** Participation *)

Lemma remove_dups_new_student (l k : list string) (stu : string) :
  stu ∉ l -> k <> [] -> (forall x, x ∈ k -> x = stu) ->
  length (remove_dups (l ++ k)) = S (length (remove_dups l)).
Proof.
  intros Hnew Hne Hall. induction l as [|x l IH].
  - simpl. clear Hnew. induction k as [|y k IHk]; [congruence|].
    assert (Hy : y = stu) by (apply Hall; left). subst y.
    destruct k as [|z k].
    + reflexivity.
    + assert (Hz : z = stu) by (apply Hall; right; left). subst z.
      cbn [remove_dups] in *.
      destruct (decide_rel elem_of stu (stu :: k)) as [_|Hn];
        [|exfalso; apply Hn; left].
      apply IHk; [discriminate|]. intros x Hx. apply Hall. right. exact Hx.
  - apply not_elem_of_cons in Hnew as [Hne' Hnew]. specialize (IH Hnew).
    rewrite <- app_comm_cons. cbn [remove_dups].
    destruct (decide_rel elem_of x l) as [Hin|Hout];
      destruct (decide_rel elem_of x (l ++ k)) as [Hin'|Hout'].
    + exact IH.
    + exfalso. apply Hout'. apply elem_of_app. auto.
    + exfalso. apply elem_of_app in Hin' as [Hin'|Hin']; [contradiction|].
      apply Hall in Hin'. congruence.
    + simpl. rewrite IH. reflexivity.
Qed.

Lemma filter_rows_same db now sid stu sel qs rows :
  Forall2 (answer_row db now sid stu sel) qs rows ->
  filter (of_session sid) rows = rows /\
  (forall sid', sid' <> sid -> filter (of_session sid') rows = []) /\
  forall r, r ∈ rows -> r_student_id r = stu.
Proof.
  induction 1 as [|q r qs rows (H1 & H2 & _) _ (IH1 & IH2 & IH3)].
  - repeat split. intros r Hr. inversion Hr.
  - split; [|split].
    + rewrite filter_cons_True by exact H1. rewrite IH1. reflexivity.
    + intros sid' Hne. rewrite filter_cons_False; [auto|].
      unfold of_session. congruence.
    + intros r' [->|Hin]%elem_of_cons; auto.
Qed.

(** X4.  A submission through [student_quiz] raises the participation count
    of its session by exactly one and leaves the count of every other
    session as it was; the count of a session is zero exactly when the
    session has no answer record. *)
Theorem participation_counts_submissions (db : Store) (st : RunState) (req : Request)
    (db' : Store) (st' : RunState) (out : Outcome) (session_id other : Z) :
  student_quiz db st req = (db', st', out) ->
  results db' <> results db ->
  session_id_param req = Some session_id ->
  get_participation_count db' session_id = get_participation_count db session_id + 1 /\
  (other <> session_id ->
   get_participation_count db' other = get_participation_count db other) /\
  (get_participation_count db other = 0 <->
   filter (of_session other) (results db) = []).
Proof.
  intros Hquiz Hchange Hp.
  destruct (student_quiz_cases _ _ _ _ _ _ Hquiz) as [->|[Hsub _]]; [congruence|].
  destruct Hsub as (sid & ses & rows & Hsub). simpl in Hsub.
  destruct Hsub as (Hp' & _ & _ & Hc & _ & _ & Hne & _ & _ & _ & Hr & Hall & _).
  rewrite Hp in Hp'. injection Hp' as <-.
  destruct (filter_rows_same _ _ _ _ _ _ _ Hall) as (Hsame & Hother & Hstu).
  unfold get_participation_count. rewrite Hr, !filter_app, Hsame.
  split; [|split].
  - rewrite fmap_app.
    rewrite (remove_dups_new_student _ _ (effective_id st req)); [lia| | |].
    + intros Hin. apply list_elem_of_fmap in Hin as (r & Hid & Hin).
      apply list_elem_of_filter in Hin as [Hs Hin].
      apply not_completed_no_rows in Hc.
      apply (filter_nil_not_elem_of _ _ r Hc); [split; auto | exact Hin].
    + apply Forall2_length in Hall.
      destruct rows; [|discriminate].
      destruct (get_questions_for_student db business_plan); [congruence|discriminate].
    + intros x Hx. apply list_elem_of_fmap in Hx as (r & -> & Hin). auto.
  - intros Hneq. rewrite (Hother other Hneq), app_nil_r. reflexivity.
  - split.
    + intros H0. destruct (filter (of_session other) (results db)) as [|r l] eqn:Hf;
        [reflexivity|].
      exfalso. rewrite fmap_cons in H0.
      assert (Hin : r_student_id r ∈ remove_dups (r_student_id r :: (r_student_id <$> l)))
        by (apply elem_of_remove_dups; left).
      destruct (remove_dups _); [inversion Hin | simpl in H0; lia].
    + intros ->. reflexivity.
Qed.

Lemma participation_counts_submissions_witness :
  get_participation_count (store timed_out) 1 =
  get_participation_count (store two_answered) 1 + 1.
Proof.
  apply (participation_counts_submissions (store two_answered)
           (client_state two_answered 0) late (store timed_out)
           (set_quiz_completed (client_state two_answered 0) true) Rerun 1 1).
  - vm_compute. reflexivity.
  - intros H. apply (f_equal length) in H. vm_compute in H. discriminate.
  - reflexivity.
Defined.


(** ** Aggregated results *)

(** X5.  [get_aggregated_results] returns normally for every store and every
    session id, also for a session that does not exist, whose topic and
    subtopic are then reported as Unknown; its participant count and skill
    breakdown are those of [get_participation_count] and
    [get_skill_statistics], and its overall rate is the integer 0 exactly
    when the session has no answer record. *)
Theorem aggregated_results_total (db : Store) (session_id : Z) :
  exists a,
    get_aggregated_results db session_id = Ok a /\
    agg_session_id a = session_id /\
    participant_count a = get_participation_count db session_id /\
    skill_breakdown a = get_skill_statistics db session_id /\
    agg_topic a = from_option ses_topic "Unknown" (get_session db session_id) /\
    agg_subtopic a = from_option ses_subtopic "Unknown" (get_session db session_id) /\
    (overall_success_rate a = PyInt 0 <->
     filter (of_session session_id) (results db) = []).
Proof.
  unfold get_aggregated_results, overall_row.
  destruct (filter (of_session session_id) (results db)) as [|r l] eqn:Hf.
  - simpl. eexists. split; [reflexivity|].
    repeat (split; [destruct (get_session db session_id); reflexivity|]).
    split; reflexivity.
  - unfold py_truediv.
    rewrite bool_decide_eq_true_2 by (simpl length; lia).
    rewrite bool_decide_eq_false_2 by (simpl length; lia).
    simpl. eexists. split; [reflexivity|].
    repeat (split; [destruct (get_session db session_id); reflexivity|]).
    split; discriminate.
Qed.

Lemma py_rate_all (n : Z) :
  n <> 0 -> py_round1 (fmul (fdiv (exact_int n) (exact_int n)) (exact_int 100)) = f100.
Proof.
  intros Hn. destruct n as [|p|p]; [congruence| |]; simpl exact_int;
    rewrite fdiv_self; vm_compute; reflexivity.
Qed.

Lemma py_rate_none (n : Z) :
  0 < n -> py_round1 (fmul (fdiv (exact_int 0) (exact_int n)) (exact_int 100)) = f0.
Proof.
  intros Hn. destruct n as [|p|p]; try lia. reflexivity.
Qed.

(** X6.  For a session with answer records, the overall success rate of
    [get_aggregated_results] is the float 100.0 when every record is correct
    and the float 0.0 when none is. *)
Theorem overall_rate_extremes (db : Store) (session_id : Z) (a : Aggregated) :
  get_aggregated_results db session_id = Ok a ->
  filter (of_session session_id) (results db) <> [] ->
  (Forall (fun r => r_is_correct r = true)
          (filter (of_session session_id) (results db)) ->
   overall_success_rate a = PyFloat f100) /\
  (Forall (fun r => r_is_correct r = false)
          (filter (of_session session_id) (results db)) ->
   overall_success_rate a = PyFloat f0).
Proof.
  unfold get_aggregated_results, overall_row. intros Ha Hne.
  set (rows := filter (of_session session_id) (results db)) in *.
  assert (Hlen : 0 < Z.of_nat (length rows))
    by (destruct rows; [congruence | simpl length; lia]).
  destruct rows as [|r l] eqn:Hrows; [congruence|]. rewrite <- Hrows in *.
  unfold py_truediv in Ha.
  rewrite bool_decide_eq_true_2 in Ha by lia.
  rewrite bool_decide_eq_false_2 in Ha by lia.
  simpl in Ha. injection Ha as <-. simpl. split; intros Hall.
  - replace (filter (fun r0 => r_is_correct r0 = true) rows) with rows.
    + rewrite py_rate_all by lia. reflexivity.
    + symmetry. clear -Hall. induction Hall as [|x l Hx _ IH]; [reflexivity|].
      rewrite filter_cons_True by exact Hx. rewrite IH. reflexivity.
  - replace (filter (fun r0 => r_is_correct r0 = true) rows) with (@nil ResultRow).
    + simpl length. rewrite py_rate_none by lia. reflexivity.
    + symmetry. apply filter_nil_iff. intros x Hx Ht.
      rewrite Forall_forall in Hall. specialize (Hall x Hx). congruence.
Qed.

Lemma overall_rate_extremes_witness :
  exists a, get_aggregated_results (store blank_timed_out) 1 = Ok a /\
            overall_success_rate a = PyFloat f0.
Proof.
  destruct (aggregated_results_total (store blank_timed_out) 1) as (a & Ha & _).
  exists a. split; [exact Ha|].
  apply (overall_rate_extremes (store blank_timed_out) 1 a Ha).
  - vm_compute. discriminate.
  - apply (bool_decide_unpack _). vm_compute. exact I.
Defined.


(** ** Totals of the skill rows *)

Lemma group_sizes_add_up {A} (key : A -> string) (l : list A) (tags : list string) :
  NoDup tags -> (forall x, x ∈ l -> key x ∈ tags) ->
  foldr Z.add 0 ((fun t => Z.of_nat (length (filter (fun x => key x = t) l))) <$> tags)
  = Z.of_nat (length l).
Proof.
  intros Hnd. induction l as [|x l IH]; intros Hin.
  - clear. induction tags as [|t tags IH]; [reflexivity|].
    rewrite fmap_cons. cbn [foldr]. rewrite IH. reflexivity.
  - specialize (IH (fun y Hy => Hin y (list_elem_of_further _ _ _ Hy))).
    assert (Hx : key x ∈ tags) by (apply Hin; left).
    transitivity (1 + foldr Z.add 0
      ((fun t => Z.of_nat (length (filter (fun x0 => key x0 = t) l))) <$> tags));
      [|rewrite IH; simpl length; lia].
    clear IH Hin. induction tags as [|t tags IH]; [inversion Hx|].
    apply NoDup_cons in Hnd as [Ht Hnd].
    rewrite !fmap_cons. cbn [foldr]. rewrite filter_cons.
    destruct (decide (key x = t)) as [Heq|Hne].
    + simpl length. subst t.
      assert (Hrest : foldr Z.add 0
                ((fun t => Z.of_nat (length (filter (fun x0 => key x0 = t) (x :: l)))) <$> tags)
              = foldr Z.add 0
                ((fun t => Z.of_nat (length (filter (fun x0 => key x0 = t) l))) <$> tags)).
      { f_equal. apply list_fmap_ext. intros i t Hlook.
        rewrite filter_cons_False; [reflexivity|].
        intros Heq. apply Ht. rewrite Heq. eapply list_elem_of_lookup_2. exact Hlook. }
      rewrite Hrest. lia.
    + apply elem_of_cons in Hx as [Hx|Hx]; [congruence|].
      rewrite (IH Hnd Hx). lia.
Qed.

(** X7.  Every row of the skill statistics counts at least one answer and no
    more correct answers than answers, and the totals of the rows add up to
    the number of rows of the join; with unique question ids and every
    answer record pointing to a question of the table, this is the number
    of answer records of the session. *)
Theorem skill_totals_add_up (db : Store) (session_id : Z) :
  Forall (fun row => 1 <= total_answers row /\
                     0 <= correct_answers row <= total_answers row)
         (get_skill_statistics db session_id) /\
  sum_of total_answers (get_skill_statistics db session_id) =
    Z.of_nat (length (joined db session_id)) /\
  (unique_question_ids db ->
   (forall r, r ∈ results db -> r_question_id r ∈ q_id <$> questions db) ->
   sum_of total_answers (get_skill_statistics db session_id) =
     Z.of_nat (length (filter (of_session session_id) (results db)))).
Proof.
  assert (Hsum : sum_of total_answers (get_skill_statistics db session_id) =
                 Z.of_nat (length (joined db session_id))).
  { unfold sum_of, get_skill_statistics. rewrite <- list_fmap_compose.
    apply (group_sizes_add_up (fun rq : ResultRow * Question => q_skill_tag rq.2)).
    - apply NoDup_sort_tags, NoDup_remove_dups.
    - intros rq Hin. apply elem_of_sort_tags, elem_of_remove_dups, list_elem_of_fmap.
      eauto. }
  split; [|split; [exact Hsum|]].
  - apply Forall_forall. intros row Hin.
    apply elem_of_statistics in Hin as [Hne ->]. unfold group_of in Hne.
    unfold skill_row. cbn [total_answers correct_answers skill_tag].
    pose proof (count_correct_le (filter (in_group (skill_tag row)) (joined db session_id))).
    destruct (filter (in_group (skill_tag row)) (joined db session_id));
      [congruence | simpl length in *; lia].
  - intros Hu Hrefs. rewrite Hsum. f_equal. unfold joined.
    assert (Hsub : forall r, r ∈ filter (of_session session_id) (results db) ->
                             r ∈ results db).
    { intros r Hr. apply list_elem_of_filter in Hr. tauto. }
    induction (filter (of_session session_id) (results db)) as [|r l IH]; [reflexivity|].
    rewrite bind_cons, length_app, IH by (intros r' Hr'; apply Hsub; right; exact Hr').
    assert (Hone : length (filter (fun q => q_id q = r_question_id r) (questions db)
                           ≫= fun q => [(r, q)]) = 1%nat).
    { pose proof (question_filter_le (questions db) (r_question_id r) Hu) as Hle.
      assert (Hex : r_question_id r ∈ q_id <$> questions db)
        by (apply Hrefs, Hsub; left).
      apply list_elem_of_fmap in Hex as (q & Hid & Hq).
      assert (Hq' : q ∈ filter (fun q => q_id q = r_question_id r) (questions db))
        by (apply list_elem_of_filter; auto).
      destruct (filter _ (questions db)) as [|q1 [|q2 qs]]; simpl in *;
        [inversion Hq' | reflexivity | lia]. }
    rewrite Hone. reflexivity.
Qed.

Lemma skill_totals_add_up_witness :
  sum_of total_answers (get_skill_statistics (store timed_out) 1) = 5.
Proof.
  destruct (skill_totals_add_up (store timed_out) 1) as (_ & _ & Hsum).
  rewrite Hsum.
  - vm_compute. reflexivity.
  - apply (bool_decide_unpack _). vm_compute. exact I.
  - intros r Hr. apply list_elem_of_In in Hr. apply list_elem_of_In.
    vm_compute in Hr. vm_compute. intuition (subst; simpl; tauto).
Defined.

(** ** Session ids *)

Lemma next_id_pos (ids : list Z) : 0 < next_id ids.
Proof. unfold next_id. induction ids as [|x ids IH]; simpl; lia. Qed.

Lemma next_id_snoc (ids : list Z) :
  Forall (fun x => 0 <= x) ids -> next_id (ids ++ [next_id ids]) = next_id ids + 1.
Proof.
  unfold next_id. intros Hpos.
  assert (H : forall m, 0 <= m -> fold_right Z.max 0 (ids ++ [m]) =
                         Z.max m (fold_right Z.max 0 ids)).
  { intros m Hm. induction ids as [|x ids IH]; simpl; [lia|].
    apply Forall_cons in Hpos as [_ Hpos]. rewrite IH by exact Hpos. lia. }
  assert (Hge : 0 <= fold_right Z.max 0 ids).
  { clear. induction ids; simpl; lia. }
  rewrite H by lia. lia.
Qed.

(** X8.  [create_session] hands out ids in increasing order: the id it
    returns is positive and larger than the id of every session in the
    table, the session stored under it carries the given teacher, topic and
    subtopic, no other session is affected, and the next session created
    gets the next id (for a table with ids that are not negative). *)
Theorem create_session_assigns_next_id (db : Store) (now now' : Z)
    (teacher_id topic subtopic teacher_id' topic' subtopic' : string) :
  let '(db1, id) := create_session db now teacher_id topic subtopic in
  0 < id /\
  Forall (fun s => ses_id s < id) (sessions db) /\
  get_session db1 id =
    Some {| ses_id := id; ses_teacher_id := teacher_id; ses_topic := topic;
            ses_subtopic := subtopic; ses_created_at := now;
            ses_is_active := true |} /\
  Forall (fun s => get_session db (ses_id s) = get_session db1 (ses_id s)) (sessions db) /\
  questions db1 = questions db /\ results db1 = results db /\
  (Forall (fun s => 0 <= ses_id s) (sessions db) ->
   (create_session db1 now' teacher_id' topic' subtopic').2 = id + 1).
Proof.
  unfold create_session. cbn [fst snd].
  set (id := next_id (ses_id <$> sessions db)).
  assert (Habove : forall s, s ∈ sessions db -> ses_id s < id).
  { intros s Hs. apply next_id_above, list_elem_of_fmap. eauto. }
  split; [apply next_id_pos|].
  split; [apply Forall_forall; exact Habove|].
  split.
  { unfold get_session. simpl. rewrite find_session_app.
    rewrite (find_session_none (sessions db) id) by apply next_id_fresh.
    simpl. rewrite bool_decide_eq_true_2 by reflexivity. reflexivity. }
  split.
  { apply Forall_forall. intros s Hs. unfold get_session. simpl.
    rewrite find_session_app.
    destruct (find _ (sessions db)) as [s'|] eqn:Hf; [reflexivity|].
    exfalso. apply list_elem_of_In in Hs.
    eapply find_none in Hf; [|exact Hs]. simpl in Hf.
    rewrite bool_decide_eq_true_2 in Hf by reflexivity. discriminate. }
  split; [reflexivity|]. split; [reflexivity|].
  intros Hpos. simpl. rewrite fmap_app. simpl. apply next_id_snoc.
  apply Forall_fmap. exact Hpos.
Qed.


Lemma create_session_assigns_next_id_witness :
  (create_session (store two_answered) 9 "teacher" business_plan "Fundamental Components").2 = 2 /\
  (create_session
     (create_session (store two_answered) 9 "teacher" business_plan "Fundamental Components").1
     10 "teacher" business_plan "Fundamental Components").2 = 2 + 1.
Proof.
  pose proof (create_session_assigns_next_id (store two_answered) 9 10
                "teacher" business_plan "Fundamental Components"
                "teacher" business_plan "Fundamental Components") as H.
  destruct (create_session (store two_answered) 9 "teacher" business_plan
              "Fundamental Components") as [db1 id] eqn:Hc.
  assert (Hid : id = 2) by (vm_compute in Hc; injection Hc as _ <-; reflexivity).
  subst id. destruct H as (_ & _ & _ & _ & _ & _ & Hnext).
  split; [reflexivity|]. apply Hnext.
  apply (bool_decide_unpack _). vm_compute. exact I.
Defined.

(** X9.  Ending a session loses nothing: [close_session] leaves questions
    and results as they are, leaves every other session as it is, and the
    participation count, the skill statistics, the completion check and the
    aggregated results (with topic and subtopic) of every session, the
    closed one included, are the same after it as before. *)
Theorem close_session_keeps_reports (db : Store) (session_id other : Z)
    (student : string) :
  questions (close_session db session_id) = questions db /\
  results (close_session db session_id) = results db /\
  (other <> session_id ->
   get_session (close_session db session_id) other = get_session db other) /\
  get_participation_count (close_session db session_id) other =
    get_participation_count db other /\
  get_skill_statistics (close_session db session_id) other =
    get_skill_statistics db other /\
  check_student_completed (close_session db session_id) other student =
    check_student_completed db other student /\
  get_aggregated_results (close_session db session_id) other =
    get_aggregated_results db other.
Proof.
  split; [reflexivity|]. split; [reflexivity|]. split.
  { intros Hne. rewrite get_session_close.
    destruct (get_session db other) as [s|] eqn:Hs; [|reflexivity]. simpl.
    apply get_session_id in Hs.
    rewrite bool_decide_eq_false_2 by congruence. reflexivity. }
  split; [reflexivity|]. split; [reflexivity|]. split; [reflexivity|].
  unfold get_aggregated_results. rewrite get_session_close.
  change (get_participation_count (close_session db session_id) other)
    with (get_participation_count db other).
  change (get_skill_statistics (close_session db session_id) other)
    with (get_skill_statistics db other).
  change (overall_row (close_session db session_id) other)
    with (overall_row db other).
  destruct (overall_row db other) as [total correct].
  destruct (get_session db other) as [s|]; [|reflexivity]. simpl.
  case_bool_decide; reflexivity.
Qed.

Lemma close_session_keeps_reports_witness :
  get_session (close_session (store second_session) 2) 1 =
  get_session (store second_session) 1.
Proof.
  destruct (close_session_keeps_reports (store second_session) 2 1 student)
    as (_ & _ & Hother & _).
  apply Hother. lia.
Defined.

(** ** get_teacher_sessions *)

Lemma elem_of_insert_newest s x l : x ∈ insert_newest s l <-> x = s \/ x ∈ l.
Proof.
  induction l as [|y l IH]; simpl.
  - rewrite list_elem_of_singleton, elem_of_nil. tauto.
  - case_bool_decide; rewrite !elem_of_cons, ?IH; tauto.
Qed.

Lemma elem_of_newest_first x l : x ∈ newest_first l <-> x ∈ l.
Proof.
  induction l as [|y l IH]; simpl; [reflexivity|].
  rewrite elem_of_insert_newest, elem_of_cons, IH. reflexivity.
Qed.

Lemma insert_newest_sorted s l :
  StronglySorted (fun a b => ses_created_at b <= ses_created_at a) l ->
  StronglySorted (fun a b => ses_created_at b <= ses_created_at a) (insert_newest s l).
Proof.
  induction 1 as [|y l Hs IH Hall]; simpl; [repeat constructor|].
  case_bool_decide as Hlt.
  - constructor; [constructor; assumption|].
    constructor; [lia|]. eapply Forall_impl; [exact Hall|]. simpl. intros; lia.
  - constructor; [exact IH|]. apply Forall_forall. intros x Hx.
    apply elem_of_insert_newest in Hx as [->|Hx]; [lia|].
    rewrite Forall_forall in Hall. auto.
Qed.

Lemma insert_newest_perm s l : insert_newest s l ≡ₚ s :: l.
Proof.
  induction l as [|y l IH]; simpl; [reflexivity|].
  case_bool_decide; [reflexivity|].
  rewrite IH. apply Permutation_swap.
Qed.

Lemma newest_first_perm l : newest_first l ≡ₚ l.
Proof.
  induction l as [|s l IH]; simpl; [reflexivity|].
  rewrite insert_newest_perm, IH. reflexivity.
Qed.

Lemma newest_first_sorted l :
  StronglySorted (fun a b => ses_created_at b <= ses_created_at a) (newest_first l).
Proof.
  induction l as [|s l IH]; simpl; [constructor|].
  apply insert_newest_sorted, IH.
Qed.

(** X20.  [get_teacher_sessions] returns the sessions of the teacher, all of
    them and no others, each as often as it is in the table, with the
    creation times never rising from one row to the next; exactly a teacher
    without sessions gets the empty list. *)
Theorem teacher_sessions_newest_first (db : Store) (teacher_id : string) :
  (forall s, s ∈ get_teacher_sessions db teacher_id <->
             s ∈ sessions db /\ ses_teacher_id s = teacher_id) /\
  get_teacher_sessions db teacher_id ≡ₚ
    filter (fun s => ses_teacher_id s = teacher_id) (sessions db) /\
  StronglySorted (fun a b => ses_created_at b <= ses_created_at a)
                 (get_teacher_sessions db teacher_id) /\
  (get_teacher_sessions db teacher_id = [] <->
   Forall (fun s => ses_teacher_id s <> teacher_id) (sessions db)).
Proof.
  unfold get_teacher_sessions.
  set (mine := filter (fun s => ses_teacher_id s = teacher_id) (sessions db)).
  assert (Hmem : forall s, s ∈ newest_first mine <->
                           s ∈ sessions db /\ ses_teacher_id s = teacher_id).
  { intros s. rewrite elem_of_newest_first. unfold mine.
    rewrite list_elem_of_filter. tauto. }
  split; [exact Hmem|]. split; [|split].
  - apply newest_first_perm.
  - apply newest_first_sorted.
  - split.
    + intros Hnil. apply Forall_forall. intros s Hs Ht.
      assert (Hin : s ∈ newest_first mine) by (apply Hmem; auto).
      rewrite Hnil in Hin. inversion Hin.
    + intros Hall. destruct (newest_first mine) as [|s l] eqn:Hn; [reflexivity|].
      exfalso. assert (Hin : s ∈ s :: l) by left.
      apply Hmem in Hin as [Hin Ht]. rewrite Forall_forall in Hall.
      exact (Hall s Hin Ht).
Qed.

(** ** Renaming students *)

Lemma remove_dups_fmap_inj {A B} `{EqDecision A, EqDecision B} (f : A -> B)
    `{!Inj (=) (=) f} (l : list A) :
  remove_dups (f <$> l) = f <$> remove_dups l.
Proof.
  induction l as [|x l IH]; [reflexivity|]. rewrite fmap_cons. cbn [remove_dups].
  destruct (decide_rel elem_of (f x) (f <$> l)) as [Hin|Hout];
    destruct (decide_rel elem_of x l) as [Hin'|Hout'].
  - exact IH.
  - exfalso. apply list_elem_of_fmap in Hin as (y & Heq & Hy).
    apply (inj f) in Heq. subst y. contradiction.
  - exfalso. apply Hout. apply list_elem_of_fmap. eauto.
  - rewrite IH. reflexivity.
Qed.

Lemma remove_dups_fmap_le {A B} `{EqDecision A, EqDecision B} (f : A -> B) (l : list A) :
  (length (remove_dups (f <$> l)) <= length (remove_dups l))%nat.
Proof.
  induction l as [|x l IH]; [reflexivity|]. rewrite fmap_cons. cbn [remove_dups].
  destruct (decide_rel elem_of (f x) (f <$> l)) as [Hin|Hout];
    destruct (decide_rel elem_of x l) as [Hin'|Hout']; cbn [length]; try lia.
  exfalso. apply Hout. apply list_elem_of_fmap. eauto.
Qed.

Lemma of_session_renamed name sid (l : list ResultRow) :
  filter (of_session sid) (with_student name <$> l) =
  with_student name <$> filter (of_session sid) l.
Proof.
  induction l as [|r l IH]; [reflexivity|].
  rewrite fmap_cons, !filter_cons, IH.
  destruct (decide (of_session sid (with_student name r))) as [H1|H1];
    destruct (decide (of_session sid r)) as [H2|H2]; try reflexivity;
    exfalso; unfold of_session in *; simpl in *; contradiction.
Qed.

Lemma joined_rename_students name db sid :
  joined (rename_students name db) sid =
  (fun rq => (with_student name rq.1, rq.2)) <$> joined db sid.
Proof.
  unfold joined. simpl. rewrite of_session_renamed.
  induction (filter (of_session sid) (results db)) as [|r l IH]; [reflexivity|].
  rewrite fmap_cons, !bind_cons, fmap_app, IH. f_equal. simpl.
  induction (filter (fun q => q_id q = r_question_id r) (questions db)) as [|q qs IHq];
    [reflexivity|].
  rewrite !bind_cons, fmap_app, IHq. reflexivity.
Qed.

Lemma statistics_rename_students name db sid :
  get_skill_statistics (rename_students name db) sid = get_skill_statistics db sid.
Proof.
  unfold get_skill_statistics. rewrite joined_rename_students.
  rewrite <- list_fmap_compose.
  apply list_fmap_ext. intros _ tag _.
  unfold skill_row, count_correct.
  rewrite (filter_fmap (fun rq : ResultRow * Question => (with_student name rq.1, rq.2))
             (in_group tag)).
  rewrite (filter_fmap (fun rq : ResultRow * Question => (with_student name rq.1, rq.2))
             (fun rq => r_is_correct rq.1 = true)).
  rewrite !length_fmap. reflexivity.
Qed.

(** X21.  The aggregates are anonymous.  Renaming the students of the
    answer records, in whatever way, leaves the skill statistics of every
    session as they are and cannot raise a participation count; a renaming
    that keeps different students apart leaves the participation count and
    the whole of the aggregated results as they are. *)
Theorem aggregates_are_anonymous (db : Store) (session_id : Z)
    (name : string -> string) :
  get_skill_statistics (rename_students name db) session_id =
    get_skill_statistics db session_id /\
  get_participation_count (rename_students name db) session_id <=
    get_participation_count db session_id /\
  ((forall a b, name a = name b -> a = b) ->
   get_participation_count (rename_students name db) session_id =
     get_participation_count db session_id /\
   get_aggregated_results (rename_students name db) session_id =
     get_aggregated_results db session_id).
Proof.
  split; [apply statistics_rename_students|].
  assert (Hids : r_student_id <$> filter (of_session session_id)
                                     (results (rename_students name db)) =
                 name <$> (r_student_id <$> filter (of_session session_id) (results db))).
  { simpl. rewrite of_session_renamed, <- !list_fmap_compose. reflexivity. }
  split.
  - unfold get_participation_count. rewrite Hids.
    apply inj_le, remove_dups_fmap_le.
  - intros Hinj.
    assert (Hcount : get_participation_count (rename_students name db) session_id =
                     get_participation_count db session_id).
    { unfold get_participation_count. rewrite Hids.
      rewrite (remove_dups_fmap_inj name (Inj0 := Hinj)), length_fmap. reflexivity. }
    split; [exact Hcount|].
    unfold get_aggregated_results. rewrite Hcount, statistics_rename_students.
    unfold overall_row. simpl. rewrite of_session_renamed.
    rewrite (filter_fmap (with_student name) (fun r => r_is_correct r = true)).
    rewrite !length_fmap. simpl.
    destruct (filter (of_session session_id) (results db)); reflexivity.
Qed.

Lemma aggregates_are_anonymous_witness :
  get_aggregated_results (rename_students (String "s") (store timed_out)) 1 =
  get_aggregated_results (store timed_out) 1.
Proof.
  destruct (aggregates_are_anonymous (store timed_out) 1 (String "s")) as (_ & _ & Hinj).
  apply Hinj. intros a b Heq. injection Heq as ->. reflexivity.
Defined.

(** ** Users *)

Lemma credentials_unique users row username password :
  NoDup (u_username <$> users) -> row ∈ users -> u_username row = username ->
  filter (credentials username password) users =
  if decide (u_password row = password) then [row] else [].
Proof.
  intros Hnd Hin Hname. induction users as [|u users IH]; [inversion Hin|].
  rewrite fmap_cons in Hnd. apply NoDup_cons in Hnd as [Hnotin Hnd].
  assert (Hrest : forall x, x ∈ users -> u_username x <> u_username u).
  { intros x Hx Heq. apply Hnotin. rewrite <- Heq.
    apply list_elem_of_fmap. eauto. }
  apply elem_of_cons in Hin as [->|Hin].
  - assert (Hnone : filter (credentials username password) users = []).
    { apply filter_nil_iff. intros x Hx [Hx1 _]. apply (Hrest x Hx). congruence. }
    rewrite filter_cons, Hnone.
    destruct (decide (credentials username password u)) as [[_ Hc]|Hc];
      destruct (decide (u_password u = password)) as [Hp|Hp];
      try reflexivity; exfalso; [auto | apply Hc; split; auto].
  - rewrite filter_cons, (IH Hnd Hin).
    destruct (decide (credentials username password u)) as [[Hc _]|Hc]; [|reflexivity].
    exfalso. apply (Hrest row Hin). congruence.
Qed.

Lemma credentials_unknown users username password :
  username ∉ (u_username <$> users) ->
  filter (credentials username password) users = [].
Proof.
  intros Hout. apply filter_nil_iff. intros x Hx [Hx1 _]. apply Hout.
  rewrite <- Hx1. apply list_elem_of_fmap. eauto.
Qed.

Lemma teacher_count users :
  length (filter (fun u => u_username u = "teacher") users) = 0%nat <->
  "teacher" ∉ (u_username <$> users).
Proof.
  rewrite length_zero_iff_nil, filter_nil_iff. split.
  - intros H Hin. apply list_elem_of_fmap in Hin as (u & Heq & Hu).
    apply (H u Hu). congruence.
  - intros H u Hu Heq. apply H. rewrite <- Heq. apply list_elem_of_fmap. eauto.
Qed.

(** X22.  With user names unique (the table's UNIQUE constraint),
    [authenticate_user] returns the id, name and role of the user with the
    given name when the password is that user's, and nothing when it is not
    or when no user has the name.  Seeding the default teacher keeps the
    names unique, is idempotent, never changes the answer for an account
    that can log in, and when no user was called teacher, the demo
    credentials log in with the role teacher afterwards. *)
Theorem default_teacher_can_log_in (users : list User) (username password : string) :
  NoDup (u_username <$> users) ->
  (forall row, row ∈ users -> u_username row = username ->
     authenticate_user users username password =
     if decide (u_password row = password) then Some (info_of row) else None) /\
  (username ∉ (u_username <$> users) ->
     authenticate_user users username password = None) /\
  NoDup (u_username <$> seed_default_teacher users) /\
  seed_default_teacher (seed_default_teacher users) = seed_default_teacher users /\
  (forall info, authenticate_user users username password = Some info ->
     authenticate_user (seed_default_teacher users) username password = Some info) /\
  ("teacher" ∉ (u_username <$> users) ->
     exists id, authenticate_user (seed_default_teacher users) "teacher" "demo123" =
                Some {| ui_id := id; ui_username := "teacher"; ui_role := "teacher" |}).
Proof.
  intros Hnd.
  assert (Hseeded : NoDup (u_username <$> seed_default_teacher users)).
  { unfold seed_default_teacher. case_bool_decide as Hc; [|exact Hnd].
    rewrite fmap_app. apply NoDup_app. split; [exact Hnd|]. split.
    - intros x Hx Hin. apply list_elem_of_singleton in Hin. simpl in Hin. subst x.
      apply teacher_count in Hc. contradiction.
    - apply NoDup_singleton. }
  split; [|split; [|split; [|split; [|split]]]].
  - intros row Hin Hname. unfold authenticate_user.
    rewrite (credentials_unique users row username password Hnd Hin Hname).
    case_decide; reflexivity.
  - intros Hout. unfold authenticate_user.
    rewrite (credentials_unknown _ _ _ Hout). reflexivity.
  - exact Hseeded.
  - destruct (decide (length (filter (fun u => u_username u = "teacher") users) = 0%nat))
      as [Hc|Hc].
    + unfold seed_default_teacher at 2 3. rewrite bool_decide_eq_true_2 by exact Hc.
      unfold seed_default_teacher. rewrite bool_decide_eq_false_2; [reflexivity|].
      rewrite filter_app, length_app. simpl. lia.
    + unfold seed_default_teacher at 2 3. rewrite bool_decide_eq_false_2 by exact Hc.
      unfold seed_default_teacher. rewrite bool_decide_eq_false_2 by exact Hc.
      reflexivity.
  - intros info. unfold authenticate_user, seed_default_teacher.
    case_bool_decide; [|auto]. rewrite filter_app.
    destruct (filter (credentials username password) users); [discriminate|auto].
  - intros Hout. unfold authenticate_user, seed_default_teacher.
    rewrite bool_decide_eq_true_2 by (apply teacher_count; exact Hout).
    rewrite filter_app, (credentials_unknown _ _ _ Hout). simpl.
    eexists. reflexivity.
Qed.

Lemma default_teacher_can_log_in_witness :
  authenticate_user (seed_default_teacher []) "teacher" "demo123" =
    Some {| ui_id := 1; ui_username := "teacher"; ui_role := "teacher" |} /\
  authenticate_user (seed_default_teacher []) "teacher" "demo" = None.
Proof.
  destruct (default_teacher_can_log_in (seed_default_teacher []) "teacher" "demo")
    as (Hknown & _).
  - vm_compute. repeat constructor. intros H. inversion H.
  - split; [vm_compute; reflexivity|].
    rewrite (Hknown {| u_id := 1; u_username := "teacher"; u_password := "demo123";
                       u_role := "teacher" |}).
    + vm_compute. reflexivity.
    + vm_compute. left.
    + reflexivity.
Defined.

End StoreExtras.

(* ===================================================================== *)
(** * Further properties of the quiz run *)
(* ===================================================================== *)

Module RunExtras.
Import Float64 Database App System Props Scenario DatabaseFacts AppFacts SystemFacts.

(** ** The timer *)

Lemma remaining_seconds_zero (end_time now : Z) :
  remaining_seconds end_time now <= 0 <-> end_time - now < 1000000.
Proof.
  unfold remaining_seconds. split.
  - intros H. destruct (Z_lt_ge_dec (end_time - now) 1000000) as [|Hge]; [assumption|].
    assert (1 <= Z.quot (end_time - now) 1000000); [|lia].
    apply Z.quot_le_lower_bound; lia.
  - intros H. destruct (Z_lt_ge_dec (end_time - now) 0) as [Hneg|Hpos].
    + assert (Z.quot (end_time - now) 1000000 <= 0); [|lia].
      apply Z.quot_le_upper_bound; lia.
    + rewrite Z.quot_small by lia. lia.
Qed.

(** X10.  The timer counts whole seconds, rounded down: a run started at
    [started] is submitted by the first execution of the view whose clock is
    more than 299 seconds later, the deadline itself being 300 seconds after
    the start; up to and including 299 seconds the quiz page is shown. *)
Theorem deadline_boundary (st : RunState) (started : Z) (req : Request) :
  quiz_end_time (start_quiz st started) = Some (started + 300000000) /\
  (deadline_passed (start_quiz st started) req <-> 299000000 < now req - started).
Proof.
  split; [reflexivity|]. unfold deadline_passed. simpl. split.
  - intros (t & [= <-] & H). apply remaining_seconds_zero in H. lia.
  - intros H. eexists. split; [reflexivity|]. apply remaining_seconds_zero. lia.
Qed.

(** ** The option buttons *)

Lemma option_buttons_spec (options : list string) (pressed : Click) : forall k,
  Forall (fun opt => opt <> "") options ->
  option_buttons options k pressed =
  Ok (match pressed with
      | ClickOption j =>
          if decide (k <= j)%nat then letter_of <$> options !! (j - k)%nat else None
      | _ => None
      end).
Proof.
  induction options as [|opt rest IH]; intros k Hall.
  - simpl. destruct pressed; try reflexivity. case_decide; reflexivity.
  - apply Forall_cons in Hall as [Hopt Hall]. simpl.
    destruct opt as [|c opt]; [congruence|]. simpl.
    case_bool_decide as Hp.
    + subst pressed. rewrite decide_True by lia. rewrite Nat.sub_diag. reflexivity.
    + rewrite IH by exact Hall. destruct pressed as [| |j| | |]; try reflexivity.
      destruct (decide (k <= j)%nat) as [Hle|Hgt].
      * assert (Hne : j <> k) by congruence.
        rewrite decide_True by lia.
        replace (j - k)%nat with (S (j - S k)) by lia. reflexivity.
      * rewrite decide_False by lia. reflexivity.
Qed.


(** ** The quiz page *)

(** What the quiz page does for each button, when the pointer is on a
    question whose options are well formed. *)
Lemma quiz_page_spec db st req sid qs q :
  0 <= current_question st ->
  qs !! Z.to_nat (current_question st) = Some q ->
  Forall (fun opt => opt <> "") (split "|" (sq_options q)) ->
  let n := Z.of_nat (length qs) in
  let cq := current_question st in
  let shown := (db, st, Rendered (QuizPage false)) in
  quiz_page db st req sid qs =
  match click req with
  | ClickOption j =>
      match split "|" (sq_options q) !! j with
      | Some opt => (db, set_answers st (<[sq_id q := letter_of opt]> (answers st)), Rerun)
      | None => shown
      end
  | ClickPrevious =>
      if bool_decide (cq > 0) then (db, set_current_question st (cq - 1), Rerun)
      else shown
  | ClickNext =>
      if bool_decide (cq < n - 1) then (db, set_current_question st (cq + 1), Rerun)
      else shown
  | ClickSubmit =>
      if bool_decide (cq < n - 1) then shown
      else if bool_decide (Z.of_nat (size (answers st)) < n)
      then (db, st, Rendered (QuizPage true))
      else match submit_all_answers db st (now req) sid qs with
           | Ok db' => (db', set_quiz_completed st true, Rerun)
           | Raise e => (db, st, Raised e)
           end
  | NoClick | ClickStart => shown
  end.
Proof.
  intros Hpos Hq Hopts n cq shown. subst n cq shown. unfold quiz_page.
  assert (Hlt : current_question st < Z.of_nat (length qs)).
  { apply lookup_lt_Some in Hq. lia. }
  rewrite bool_decide_eq_false_2 by lia.
  rewrite Hq. rewrite (option_buttons_spec _ _ 0%nat Hopts).
  destruct (click req) as [| |j| | |] eqn:Hclick; simpl.
  - repeat case_bool_decide; simpl; try congruence; rewrite ?andb_false_r; reflexivity.
  - repeat case_bool_decide; simpl; try congruence; rewrite ?andb_false_r; reflexivity.
  - rewrite Nat.sub_0_r.
    destruct (split "|" (sq_options q) !! j) as [opt|]; simpl; [reflexivity|].
    repeat case_bool_decide; simpl; try congruence; rewrite ?andb_false_r; reflexivity.
  - repeat case_bool_decide; simpl; try congruence; try lia; reflexivity.
  - repeat case_bool_decide; simpl; try congruence; try lia;
      rewrite ?andb_false_r; reflexivity.
  - repeat case_bool_decide; simpl; try congruence; try lia;
      rewrite ?andb_false_r; reflexivity.
Qed.

(** An in-progress run in an active session, before the deadline, gets the
    quiz page. *)
Lemma student_quiz_page db st req sid ses stu :
  session_id_param req = Some sid ->
  get_session db sid = Some ses -> ses_is_active ses = true ->
  in_progress db sid stu st ->
  get_questions_for_student db business_plan <> [] ->
  ~ deadline_passed st req ->
  student_quiz db st req =
  quiz_page db st req sid (get_questions_for_student db business_plan).
Proof.
  intros Hp Hs Ha (Hid & Hst & Hq & Hc) Hne Hd.
  assert (Hw : with_id st req = st) by (eapply with_id_known; eauto).
  unfold student_quiz. rewrite Hp, Hs, Ha. simpl.
  fold (with_id st req). rewrite Hw, Hid. simpl. rewrite Hc, Hq.
  destruct (get_questions_for_student db business_plan) as [|q qs] eqn:Hqs;
    [congruence|].
  rewrite Hst. simpl.
  destruct (quiz_end_time st) as [t|] eqn:Ht; [|reflexivity].
  rewrite bool_decide_eq_false_2 by (intros Hrem; apply Hd; exists t; auto).
  reflexivity.
Qed.

Lemma pointer_lookup db st :
  pointer_in_range db st ->
  get_questions_for_student db business_plan <> [] ->
  exists q, get_questions_for_student db business_plan
              !! Z.to_nat (current_question st) = Some q.
Proof.
  intros [Hpos Hrange] Hne. apply lookup_lt_is_Some_2.
  destruct (get_questions_for_student db business_plan); [congruence|].
  simpl length in *. lia.
Qed.

(** X11.  Pressing an option button on the quiz page records the letter of
    that option for the question on display, whatever was selected for it
    before, leaves the selections of the other questions alone, and writes
    nothing to the store. *)
Theorem option_click_selects (db : Store) (st : RunState) (req : Request)
    (session_id : Z) (session : Session) (student : string)
    (q : StudentQuestion) (k : nat) (opt : string) :
  session_id_param req = Some session_id ->
  get_session db session_id = Some session -> ses_is_active session = true ->
  in_progress db session_id student st ->
  ~ deadline_passed st req ->
  0 <= current_question st ->
  get_questions_for_student db business_plan !! Z.to_nat (current_question st) = Some q ->
  Forall (fun o => o <> "") (split "|" (sq_options q)) ->
  split "|" (sq_options q) !! k = Some opt ->
  click req = ClickOption k ->
  exists st',
    student_quiz db st req = (db, st', Rerun) /\
    answers st' !! sq_id q = Some (letter_of opt) /\
    (forall other, other <> sq_id q -> answers st' !! other = answers st !! other) /\
    current_question st' = current_question st /\
    in_progress db session_id student st'.
Proof.
  intros Hp Hs Ha Hin Hd Hpos Hq Hopts Hopt Hclick.
  assert (Hne : get_questions_for_student db business_plan <> []).
  { intros Hnil. rewrite Hnil in Hq. discriminate. }
  rewrite (student_quiz_page db st req session_id session student Hp Hs Ha Hin Hne Hd).
  rewrite (quiz_page_spec db st req session_id _ q Hpos Hq Hopts).
  rewrite Hclick, Hopt.
  eexists. split; [reflexivity|]. simpl.
  split; [apply lookup_insert_eq|].
  split; [intros other Hother; apply lookup_insert_ne; congruence|].
  split; [reflexivity|]. exact Hin.
Qed.

Lemma option_click_selects_witness :
  exists st',
    student_quiz (store two_answered) (client_state two_answered 0)
      (request 55000000 (ClickOption 1)) = (store two_answered, st', Rerun) /\
    answers st' !! 5 = Some "B"%string.
Proof.
  destruct (option_click_selects (store two_answered) (client_state two_answered 0)
              (request 55000000 (ClickOption 1)) 1
              {| ses_id := 1; ses_teacher_id := "teacher";
                 ses_topic := business_plan;
                 ses_subtopic := "Fundamental Components";
                 ses_created_at := 0; ses_is_active := true |}
              student
              {| sq_id := 5;
                 sq_question_text := "Warum ist das Gründerteam im Businessplan wichtig?";
                 sq_skill_tag := "Gründerteam";
                 sq_options := "A) Weil viele Gründer immer besser sind|B) Weil Investoren zuerst auf die Menschen schauen|C) Weil es gesetzlich vorgeschrieben ist|D) Weil das Team für Werbung zuständig ist" |}
              1%nat "B) Weil Investoren zuerst auf die Menschen schauen")
    as (st' & Heq & Hsel & _).
  - reflexivity.
  - vm_compute. reflexivity.
  - reflexivity.
  - repeat (apply conj); vm_compute; reflexivity.
  - intros (t & Ht & Hrem). vm_compute in Ht. injection Ht as <-.
    vm_compute in Hrem. apply Hrem. reflexivity.
  - vm_compute. discriminate.
  - vm_compute. reflexivity.
  - apply (bool_decide_unpack _). vm_compute. exact I.
  - vm_compute. reflexivity.
  - reflexivity.
  - exists st'. split; [exact Heq | exact Hsel].
Defined.


(** ** The question pointer *)

Lemma quiz_page_pointer db st req sid qs db' st' out :
  quiz_page db st req sid qs = (db', st', out) ->
  0 <= current_question st /\
    (current_question st = 0 \/ current_question st < Z.of_nat (length qs)) ->
  0 <= current_question st' /\
    (current_question st' = 0 \/ current_question st' < Z.of_nat (length qs)).
Proof.
  unfold quiz_page. intros H Hptr.
  repeat (case_match; simplify_eq; auto); simpl;
    repeat match goal with
           | H : _ && _ = true |- _ => apply andb_true_iff in H as [? ?]
           | H : bool_decide _ = true |- _ => apply bool_decide_eq_true_1 in H
           | H : bool_decide _ = false |- _ => apply bool_decide_eq_false_1 in H
           end; lia.
Qed.

Lemma student_quiz_questions db st req db' st' out :
  student_quiz db st req = (db', st', out) ->
  get_questions_for_student db' business_plan =
  get_questions_for_student db business_plan.
Proof.
  intros H. destruct (student_quiz_frame _ _ _ _ _ _ H) as (_ & Hq & _).
  unfold get_questions_for_student. rewrite Hq. reflexivity.
Qed.

Lemma student_quiz_pointer db st req db' st' out :
  student_quiz db st req = (db', st', out) ->
  pointer_in_range db st -> pointer_in_range db' st'.
Proof.
  intros H Hptr. unfold pointer_in_range.
  rewrite (student_quiz_questions _ _ _ _ _ _ H).
  revert H. unfold student_quiz.
  destruct (session_id_param req) as [sid|]; [|intros; simplify_eq; auto].
  destruct (get_session db sid) as [ses|]; [|intros; simplify_eq; auto].
  destruct (ses_is_active ses); simpl; [|intros; simplify_eq; auto].
  fold (with_id st req).
  destruct (with_id_fields st req) as (Hid & Hcq & Hans & Hstarted & Hend & Hcompl).
  assert (Hptr1 : 0 <= current_question (with_id st req) /\
            (current_question (with_id st req) = 0 \/
             current_question (with_id st req) <
               Z.of_nat (length (get_questions_for_student db business_plan))))
    by (rewrite Hcq; exact Hptr).
  destruct (get_questions_for_student db business_plan) as [|q qs] eqn:Hqs.
  { intros H. repeat (case_match; simplify_eq; auto). }
  intros H.
  repeat (case_match; simplify_eq; simpl; auto);
    try (split; [lia | left; reflexivity]);
    change (S (length qs)) with (length (q :: qs));
    eapply quiz_page_pointer; eauto.
Qed.

(** ** No exception *)

Lemma quiz_page_no_exception db st req sid qs stu e :
  student_id st = Some stu ->
  0 <= current_question st ->
  current_question st < Z.of_nat (length qs) ->
  (forall q, q ∈ qs -> Forall (fun opt => opt <> "") (split "|" (sq_options q))) ->
  (quiz_page db st req sid qs).2 <> Raised e.
Proof.
  intros Hid Hpos Hlt Hopts.
  destruct (lookup_lt_is_Some_2 qs (Z.to_nat (current_question st)) ltac:(lia)) as [q Hq].
  rewrite (quiz_page_spec db st req sid qs q Hpos Hq)
    by (apply Hopts; eapply list_elem_of_lookup_2; eauto).
  rewrite (submit_all_answers_some _ _ _ _ _ _ Hid).
  repeat case_match; simpl; discriminate.
Qed.

Lemma student_quiz_no_exception db st req e :
  options_well_formed db -> pointer_in_range db st ->
  (student_quiz db st req).2 <> Raised e.
Proof.
  intros Hopts [Hpos Hrange]. unfold student_quiz.
  destruct (session_id_param req) as [sid|]; [|discriminate].
  destruct (get_session db sid) as [ses|]; [|discriminate].
  destruct (ses_is_active ses); simpl; [|discriminate].
  fold (with_id st req).
  destruct (with_id_fields st req) as (Hid & Hcq & Hans & Hstarted & Hend & Hcompl).
  assert (Hpage : forall qs, qs = get_questions_for_student db business_plan ->
            qs <> [] ->
            (quiz_page db (with_id st req) req sid qs).2 <> Raised e).
  { intros qs -> Hne.
    apply (quiz_page_no_exception _ _ _ _ _ (effective_id st req)); auto.
    - rewrite Hcq. exact Hpos.
    - rewrite Hcq. destruct Hrange as [->|]; [|assumption].
      destruct (get_questions_for_student db business_plan); [congruence|].
      simpl length. lia. }
  destruct (get_questions_for_student db business_plan) as [|q qs] eqn:Hqs.
  { repeat case_match; simpl; discriminate. }
  specialize (Hpage (q :: qs) eq_refl ltac:(discriminate)).
  rewrite Hid. simpl.
  destruct (check_student_completed _ _ _); simpl; [discriminate|].
  destruct (quiz_completed (with_id st req)); [discriminate|].
  destruct (quiz_started (with_id st req)); simpl;
    [|case_bool_decide; discriminate].
  rewrite (submit_all_answers_some _ _ _ _ _ _ Hid).
  destruct (quiz_end_time (with_id st req)); [|exact Hpage].
  case_bool_decide; [discriminate | exact Hpage].
Qed.

Lemma client_state_step sys client req c :
  client_state (step sys (StudentRun client req)) c =
  if decide (client = c)
  then (student_quiz (store sys) (client_state sys client) req).1.2
  else client_state sys c.
Proof.
  simpl. destruct (student_quiz _ _ _) as [[db st] out]. unfold client_state. simpl.
  case_decide as Hc.
  - subst c. rewrite lookup_insert_eq. reflexivity.
  - rewrite lookup_insert_ne by exact Hc. reflexivity.
Qed.

Lemma pointer_step sys a :
  (forall c, pointer_in_range (store sys) (client_state sys c)) ->
  forall c, pointer_in_range (store (step sys a)) (client_state (step sys a) c).
Proof.
  intros Hall c. destruct a as [now teacher|sid|client req].
  - apply Hall.
  - apply Hall.
  - rewrite client_state_step. simpl.
    destruct (student_quiz (store sys) (client_state sys client) req)
      as [[db st] out] eqn:H. simpl.
    case_decide.
    + eapply student_quiz_pointer; eauto.
    + unfold pointer_in_range. rewrite (student_quiz_questions _ _ _ _ _ _ H).
      apply Hall.
Qed.

Lemma options_step sys a :
  options_well_formed (store sys) -> options_well_formed (store (step sys a)).
Proof.
  unfold options_well_formed, get_questions_for_student.
  rewrite (proj1 (step_frame sys a)). auto.
Qed.

Lemma options_run sys actions :
  options_well_formed (store sys) -> options_well_formed (store (run sys actions)).
Proof.
  revert sys. induction actions as [|a actions IH]; intros sys H; [exact H|].
  simpl. apply IH, options_step, H.
Qed.

Lemma pointers_run actions : forall sys,
  (forall c, pointer_in_range (store sys) (client_state sys c)) ->
  forall c, pointer_in_range (store (run sys actions)) (client_state (run sys actions) c).
Proof.
  induction actions as [|a actions IH]; intros sys H; [exact H|].
  simpl. apply IH, pointer_step, H.
Qed.

(** X12.  From a state in which every browser's question pointer is within
    the question set and every option has at least one character, the
    pointer of every browser is within the question set after any sequence
    of teacher and student actions, and no execution of the student view
    ends in an IndexError or in an IntegrityError: the question list and the
    options are never indexed out of range, and no answer is inserted
    without a student identifier. *)
Theorem no_index_or_integrity_error (sys : State) (actions : list Action)
    (client : nat) (req : Request) :
  options_well_formed (store sys) ->
  (forall c, pointer_in_range (store sys) (client_state sys c)) ->
  let s := run sys actions in
  pointer_in_range (store s) (client_state s client) /\
  (student_quiz (store s) (client_state s client) req).2 <> Raised IndexError /\
  (student_quiz (store s) (client_state s client) req).2 <> Raised IntegrityError.
Proof.
  intros Hopts Hptr s. subst s.
  pose proof (options_run sys actions Hopts) as Ho.
  pose proof (pointers_run actions sys Hptr) as Hp.
  split; [apply Hp|].
  split; apply student_quiz_no_exception; auto.
Qed.

Lemma initial_options : options_well_formed (store initial).
Proof.
  intros q Hq. apply list_elem_of_In in Hq. vm_compute in Hq.
  repeat (destruct Hq as [<-|Hq];
          [apply (bool_decide_unpack _); vm_compute; exact I|]).
  contradiction.
Qed.

Lemma initial_pointers c : pointer_in_range (store initial) (client_state initial c).
Proof.
  unfold client_state. simpl. rewrite lookup_empty. simpl.
  split; [reflexivity|]. left. reflexivity.
Qed.

Lemma no_index_or_integrity_error_witness :
  pointer_in_range (store two_answered) (client_state two_answered 0) /\
  (student_quiz (store two_answered) (client_state two_answered 0) early_submit).2
    <> Raised IndexError /\
  (student_quiz (store two_answered) (client_state two_answered 0) early_submit).2
    <> Raised IntegrityError.
Proof.
  apply (no_index_or_integrity_error initial answering 0 early_submit
           initial_options initial_pointers).
Defined.


(** ** Navigation *)

(** X13.  On the quiz page of an in-progress run, Next moves the pointer
    forward by one except on the last question and Previous moves it back by
    one except on the first, where they do nothing; an execution without a
    pressed button shows the page and changes nothing.  None of them
    writes to the store. *)
Theorem navigation_is_clamped (db : Store) (st : RunState) (req : Request)
    (session_id : Z) (session : Session) (student : string) :
  session_id_param req = Some session_id ->
  get_session db session_id = Some session -> ses_is_active session = true ->
  in_progress db session_id student st ->
  ~ deadline_passed st req ->
  options_well_formed db -> pointer_in_range db st ->
  get_questions_for_student db business_plan <> [] ->
  let n := Z.of_nat (length (get_questions_for_student db business_plan)) in
  let cq := current_question st in
  let shown := (db, st, Rendered (QuizPage false)) in
  (click req = ClickNext ->
   student_quiz db st req =
   if bool_decide (cq < n - 1) then (db, set_current_question st (cq + 1), Rerun)
   else shown) /\
  (click req = ClickPrevious ->
   student_quiz db st req =
   if bool_decide (cq > 0) then (db, set_current_question st (cq - 1), Rerun)
   else shown) /\
  (click req = NoClick -> student_quiz db st req = shown).
Proof.
  intros Hp Hs Ha Hin Hd Hopts Hptr Hne n cq shown.
  destruct (pointer_lookup db st Hptr Hne) as [q Hq].
  rewrite (student_quiz_page db st req session_id session student Hp Hs Ha Hin Hne Hd).
  rewrite (quiz_page_spec db st req session_id _ q (proj1 Hptr) Hq)
    by (apply Hopts; eapply list_elem_of_lookup_2; eauto).
  repeat split; intros ->; reflexivity.
Qed.

Lemma navigation_is_clamped_witness :
  student_quiz (store two_answered) (client_state two_answered 0)
    (request 55000000 ClickNext) =
  (store two_answered, client_state two_answered 0, Rendered (QuizPage false)) /\
  student_quiz (store two_answered) (client_state two_answered 0)
    (request 55000000 ClickPrevious) =
  (store two_answered, set_current_question (client_state two_answered 0) 3, Rerun).
Proof.
  destruct (navigation_is_clamped (store two_answered) (client_state two_answered 0)
              (request 55000000 ClickNext) 1
              {| ses_id := 1; ses_teacher_id := "teacher";
                 ses_topic := business_plan;
                 ses_subtopic := "Fundamental Components";
                 ses_created_at := 0; ses_is_active := true |}
              student) as (Hnext & _ & _).
  1: reflexivity.
  1: vm_compute; reflexivity.
  1: reflexivity.
  1: repeat (apply conj); vm_compute; reflexivity.
  1: { intros (t & Ht & Hrem). vm_compute in Ht. injection Ht as <-.
       vm_compute in Hrem. apply Hrem. reflexivity. }
  1: { unfold two_answered. apply (options_run initial answering).
       apply initial_options. }
  1: { apply (pointers_run answering initial initial_pointers). }
  1: vm_compute; discriminate.
  destruct (navigation_is_clamped (store two_answered) (client_state two_answered 0)
              (request 55000000 ClickPrevious) 1
              {| ses_id := 1; ses_teacher_id := "teacher";
                 ses_topic := business_plan;
                 ses_subtopic := "Fundamental Components";
                 ses_created_at := 0; ses_is_active := true |}
              student) as (_ & Hprev & _).
  1: reflexivity.
  1: vm_compute; reflexivity.
  1: reflexivity.
  1: repeat (apply conj); vm_compute; reflexivity.
  1: { intros (t & Ht & Hrem). vm_compute in Ht. injection Ht as <-.
       vm_compute in Hrem. apply Hrem. reflexivity. }
  1: { unfold two_answered. apply (options_run initial answering).
       apply initial_options. }
  1: { apply (pointers_run answering initial initial_pointers). }
  1: vm_compute; discriminate.
  split.
  - rewrite (Hnext eq_refl). vm_compute. reflexivity.
  - rewrite (Hprev eq_refl). vm_compute. reflexivity.
Defined.

(** ** All answers or none *)

Lemma check_completed_app db db' rows sid stu :
  results db' = results db ++ rows ->
  filter (of_student sid stu) rows = [] ->
  check_student_completed db' sid stu = check_student_completed db sid stu.
Proof.
  unfold check_student_completed. intros -> Hnone.
  rewrite filter_app, Hnone, app_nil_r. reflexivity.
Qed.

Lemma complete_or_absent_step sys a :
  unique_question_ids (store sys) ->
  complete_or_absent (store sys) -> complete_or_absent (store (step sys a)).
Proof.
  intros Hu H. destruct a as [now teacher|sid|client req]; simpl; [exact H..|].
  destruct (student_quiz _ _ _) as [[db st] out] eqn:Hq. simpl.
  destruct (student_quiz_cases _ _ _ _ _ _ Hq) as [->|[Hsub _]]; [exact H|].
  pose proof (submitted_counts _ _ _ _ _ Hu Hsub) as [Hcount _].
  destruct Hsub as (sid & ses & rows & Hsub). simpl in Hsub.
  destruct Hsub as (Hp & _ & _ & Hc & _ & _ & _ & _ & _ & Hqs & Hr & Hall & _).
  assert (Hserved : get_questions_for_student db business_plan =
                    get_questions_for_student (store sys) business_plan)
    by (unfold get_questions_for_student; rewrite Hqs; reflexivity).
  intros sid' stu' Hdone q Hin. rewrite Hserved in Hin.
  destruct (decide (sid' = sid /\ stu' = effective_id (client_state sys client) req))
    as [[-> ->]|Hother].
  - apply Hcount; assumption.
  - assert (Hnone : filter (of_student sid' stu') rows = []).
    { apply filter_nil_iff. intros r Hin' [H1 H2]. apply Hother.
      apply list_elem_of_lookup in Hin' as [i Hi].
      destruct (Forall2_lookup_r _ _ _ _ _ Hall Hi) as (q' & _ & Hrow).
      destruct Hrow as (Hs & Hst & _). split; congruence. }
    rewrite (check_completed_app _ _ _ _ _ Hr Hnone) in Hdone.
    rewrite (answer_count_app _ _ _ _ _ _ Hr).
    rewrite (rows_count _ _ _ _ _ _ _ _ _ _ Hall).
    rewrite decide_False by exact Hother.
    rewrite (H sid' stu' Hdone q Hin). reflexivity.
Qed.

(** X14.  Answer records come in complete sets: from a store with unique
    question ids in which every student with an answer record in a session
    has exactly one record per question on offer, this stays so whatever the
    teacher and the students do.  In particular it holds in every state
    reachable from a new database. *)
Theorem answers_all_or_none (sys : State) (actions : list Action) :
  unique_question_ids (store sys) ->
  complete_or_absent (store sys) ->
  complete_or_absent (store (run sys actions)).
Proof.
  revert sys. induction actions as [|a actions IH]; intros sys Hu H; [exact H|].
  simpl. apply IH.
  - unfold unique_question_ids. rewrite (proj1 (step_frame sys a)). exact Hu.
  - apply complete_or_absent_step; assumption.
Qed.

Lemma answers_all_or_none_witness :
  complete_or_absent (store (run initial (answering ++ [StudentRun 0 late]))).
Proof.
  apply (answers_all_or_none initial (answering ++ [StudentRun 0 late])).
  - apply well_formed_initial.
  - intros sid stu Hdone. vm_compute in Hdone. discriminate.
Defined.


(** ** The browser's identity and completion *)

Lemma quiz_page_identity db st req sid qs db' st' out :
  quiz_page db st req sid qs = (db', st', out) ->
  student_id st' = student_id st /\
  (quiz_completed st = true -> quiz_completed st' = true).
Proof.
  unfold quiz_page. intros H.
  repeat (case_match; simplify_eq; auto).
Qed.

(** X17.  The student identifier is generated once per browser: an execution
    of the view never changes an identifier that is set, and after an
    execution that got past the session checks it is set.  The completed
    flag is never taken back, and a browser whose flag is set gets no quiz
    in any session: such an execution writes nothing, starts nothing and
    ends on the completion screen or on one of the session messages. *)
Theorem identity_and_completion_are_final (db : Store) (st : RunState) (req : Request)
    (db' : Store) (st' : RunState) (out : Outcome) :
  student_quiz db st req = (db', st', out) ->
  (forall s, student_id st = Some s -> student_id st' = Some s) /\
  (student_id st' = None ->
   out = Rendered InvalidAccess \/ out = Rendered SessionNotFound \/
   out = Rendered SessionEnded) /\
  (quiz_completed st = true ->
   quiz_completed st' = true /\ db' = db /\
   quiz_started st' = quiz_started st /\ answers st' = answers st /\
   (out = Rendered InvalidAccess \/ out = Rendered SessionNotFound \/
    out = Rendered SessionEnded \/ out = Rendered QuizCompletion)).
Proof.
  unfold student_quiz. intros H.
  destruct (session_id_param req) as [sid|]; [|simplify_eq; auto 10].
  destruct (get_session db sid) as [ses|]; [|simplify_eq; auto 10].
  destruct (ses_is_active ses); simpl in H; [|simplify_eq; auto 10].
  fold (with_id st req) in H.
  destruct (with_id_fields st req) as (Hid & Hcq & Hans & Hstarted & Hend & Hcompl).
  assert (Hkeep : forall s, student_id st = Some s ->
                            student_id (with_id st req) = Some s).
  { intros s Hs. rewrite Hid. unfold effective_id. rewrite Hs. reflexivity. }
  rewrite Hid in H. simpl in H.
  destruct (check_student_completed db sid (effective_id st req)); simpl in H.
  { simplify_eq. simpl. split; [exact Hkeep|]. split; [congruence|]. auto 10. }
  rewrite Hcompl in H.
  destruct (quiz_completed st) eqn:Hq.
  { simplify_eq. split; [exact Hkeep|]. split; [congruence|]. auto 10. }
  split; [|split; [|discriminate]].
  - intros s Hs. specialize (Hkeep s Hs).
    repeat (case_match; simplify_eq; simpl; auto);
      match goal with
      | H : quiz_page _ _ _ _ _ = _ |- _ =>
          apply quiz_page_identity in H as [Heq _]; congruence
      end.
  - intros Hnone. exfalso.
    repeat (case_match; simplify_eq; simpl in *; try congruence);
      match goal with
      | H : quiz_page _ _ _ _ _ = _ |- _ =>
          apply quiz_page_identity in H as [Heq _]; congruence
      end.
Qed.

Lemma identity_and_completion_are_final_witness :
  student_quiz (store timed_out) (client_state timed_out 0)
    (request 10 ClickStart) =
  (store timed_out, client_state timed_out 0, Rendered QuizCompletion).
Proof.
  destruct (student_quiz (store timed_out) (client_state timed_out 0)
              (request 10 ClickStart)) as [[db' st'] out] eqn:H.
  destruct (identity_and_completion_are_final _ _ _ _ _ _ H) as (_ & _ & Hdone).
  destruct (Hdone ltac:(vm_compute; reflexivity)) as (_ & -> & _).
  vm_compute in H. injection H as <- <-. vm_compute. reflexivity.
Defined.

(** ** The store only grows *)

Lemma session_kept_step sys a sid s :
  get_session (store sys) sid = Some s ->
  exists s', get_session (store (step sys a)) sid = Some s' /\
             same_session_but_flag s s'.
Proof.
  intros Hs. destruct a as [now teacher|sid'|client req]; simpl.
  - exists s. split; [apply get_session_create_old, Hs|]. repeat split; auto.
  - rewrite get_session_close, Hs. simpl. eexists. split; [reflexivity|].
    case_bool_decide; repeat split; auto.
  - destruct (student_quiz _ _ _) as [[db st] out] eqn:H. simpl.
    destruct (student_quiz_frame _ _ _ _ _ _ H) as (Hss & _).
    exists s. split; [unfold get_session; rewrite Hss; exact Hs|]. repeat split; auto.
Qed.

(** X18.  Nothing is ever deleted or rewritten: along any sequence of
    teacher and student actions the questions stay the same, the answer
    records present at the start remain, unchanged and in place, at the head
    of the results, and every session stays in the table with its teacher,
    topic, subtopic and creation time; only its active flag may have
    dropped. *)
Theorem store_only_grows (sys : State) (actions : list Action) (session_id : Z)
    (s : Session) :
  get_session (store sys) session_id = Some s ->
  questions (store (run sys actions)) = questions (store sys) /\
  (exists rows, results (store (run sys actions)) = results (store sys) ++ rows) /\
  exists s', get_session (store (run sys actions)) session_id = Some s' /\
             same_session_but_flag s s'.
Proof.
  revert sys s. induction actions as [|a actions IH]; intros sys s Hs.
  - split; [reflexivity|]. split; [exists []; rewrite app_nil_r; reflexivity|].
    exists s. split; [exact Hs|]. repeat split; auto.
  - destruct (session_kept_step sys a session_id s Hs) as (s1 & Hs1 & Hsame1).
    destruct (IH (step sys a) s1 Hs1) as (Hq & (rows & Hr) & s2 & Hs2 & Hsame2).
    destruct (step_frame sys a) as (Hq1 & rows1 & Hr1).
    simpl. split; [congruence|].
    split; [exists (rows1 ++ rows); rewrite Hr, Hr1, app_assoc; reflexivity|].
    exists s2. split; [exact Hs2|].
    destruct Hsame1 as (?&?&?&?&?&?), Hsame2 as (?&?&?&?&?&?).
    repeat split; try congruence. auto.
Qed.

Lemma store_only_grows_witness :
  questions (store (run two_answered [StudentRun 0 late; EndSession 1])) =
  questions (store two_answered) /\
  exists s', get_session (store (run two_answered [StudentRun 0 late; EndSession 1])) 1
             = Some s' /\ ses_topic s' = business_plan.
Proof.
  destruct (store_only_grows two_answered [StudentRun 0 late; EndSession 1] 1
              {| ses_id := 1; ses_teacher_id := "teacher";
                 ses_topic := business_plan;
                 ses_subtopic := "Fundamental Components";
                 ses_created_at := 0; ses_is_active := true |}
              ltac:(vm_compute; reflexivity))
    as (Hq & _ & s' & Hs' & _ & _ & Ht & _).
  split; [exact Hq|]. exists s'. split; [exact Hs' | exact Ht].
Defined.

(** ** Scoring *)

(** X19.  For a browser with a student identifier, [submit_all_answers]
    appends one answer record per given question, in order, with the
    selection made for it or the empty string.  With unique question ids the
    record is marked correct exactly when the selection is the correct
    answer of the question with that id; for an id that no question has, it
    is marked correct exactly when there is no selection.  Without an
    identifier the first insert fails and nothing is written. *)
Theorem submit_all_answers_scores (db : Store) (st : RunState) (now session_id : Z)
    (questions : list StudentQuestion) (student : string) :
  student_id st = Some student ->
  unique_question_ids db ->
  (exists db' rows,
     submit_all_answers db st now session_id questions = Ok db' /\
     results db' = results db ++ rows /\
     Forall2 (fun q r =>
        r_session_id r = session_id /\ r_student_id r = student /\
        r_question_id r = sq_id q /\
        r_selected_answer r = default "" (answers st !! sq_id q) /\
        (forall q0, q0 ∈ Database.questions db -> q_id q0 = sq_id q ->
           (r_is_correct r = true <-> r_selected_answer r = q_correct_answer q0)) /\
        (sq_id q ∉ q_id <$> Database.questions db ->
           (r_is_correct r = true <-> answers st !! sq_id q = None \/
                                      answers st !! sq_id q = Some "")))
       questions rows) /\
  (questions <> [] ->
   submit_all_answers db (set_student_id st None) now session_id questions =
   Raise IntegrityError).
Proof.
  intros Hid Hu. split.
  - rewrite (submit_all_answers_some _ _ _ _ _ _ Hid).
    destruct (submit_fold now session_id student (answers st) questions db)
      as (_ & _ & rows & Hr & Hall).
    eexists. exists rows. split; [reflexivity|]. split; [exact Hr|].
    eapply Forall2_impl; [exact Hall|].
    intros q r (H1 & H2 & H3 & H4 & H5 & _).
    repeat (split; [assumption|]). split.
    + intros q0 Hq0 Heq. rewrite H5, H4, <- Heq.
      unfold get_correct_answer. rewrite (StoreExtras.find_question_unique _ _ Hu Hq0).
      apply bool_decide_eq_true.
    + intros Hnot. rewrite H5. unfold get_correct_answer.
      rewrite (StoreExtras.find_question_absent _ _ Hnot). rewrite bool_decide_eq_true.
      destruct (answers st !! sq_id q) as [sel|]; simpl; split.
      * intros ->. auto.
      * intros [|[= ->]]; [discriminate | reflexivity].
      * auto.
      * reflexivity.
  - intros Hne. unfold submit_all_answers. simpl.
    destruct questions; [congruence | reflexivity].
Qed.

Lemma submit_all_answers_scores_witness :
  exists db' rows,
    submit_all_answers (store two_answered) (client_state two_answered 0) 7 1
      (get_questions_for_student (store two_answered) business_plan) = Ok db' /\
    results db' = results (store two_answered) ++ rows /\ length rows = 5%nat.
Proof.
  destruct (submit_all_answers_scores (store two_answered) (client_state two_answered 0)
              7 1 (get_questions_for_student (store two_answered) business_plan) student)
    as [(db' & rows & Heq & Hr & Hall) _].
  - vm_compute. reflexivity.
  - apply (bool_decide_unpack _). vm_compute. exact I.
  - exists db', rows. split; [exact Heq|]. split; [exact Hr|].
    apply Forall2_length in Hall. rewrite <- Hall. vm_compute. reflexivity.
Defined.

End RunExtras.

(* ===================================================================== *)
(** * Further properties of the reports *)
(* ===================================================================== *)

Module ReportExtras.
Import Float64 AiEngine Props Scenario Float64Facts AiEngineFacts.

(** X15.  [analyze_individual_performance] answers that no answers are
    recorded when the total is 0 or missing, whatever the number of correct
    answers, without dividing; a student with every answer correct is told
    Excellent with 100 percent and one with none correct is told to review,
    with 0 percent; and for the quiz of five questions three correct answers
    give Good job, four and five Excellent, fewer than three the advice to
    review. *)
Theorem individual_performance_bands (correct total : Z) :
  analyze_individual_performance {| sr_correct := Some correct; sr_total := None |}
    = NoAnswersRecorded /\
  analyze_individual_performance {| sr_correct := Some correct; sr_total := Some 0 |}
    = NoAnswersRecorded /\
  (total <> 0 ->
   analyze_individual_performance {| sr_correct := Some total; sr_total := Some total |}
     = Excellent total total f100) /\
  (0 < total ->
   analyze_individual_performance {| sr_correct := None; sr_total := Some total |}
     = ReviewAgain 0 total f0) /\
  (analyze_individual_performance <$>
     ((fun c => {| sr_correct := Some c; sr_total := Some 5 |}) <$> [0; 1; 2; 3; 4; 5]))
  = [ ReviewAgain 0 5 f0;
      ReviewAgain 1 5 (of_int 20);
      ReviewAgain 2 5 (of_int 40);
      GoodJob 3 5 (of_int 60);
      Excellent 4 5 (of_int 80);
      Excellent 5 5 f100 ].
Proof.
  split; [reflexivity|]. split; [reflexivity|].
  split; [|split; [|vm_compute; reflexivity]].
  - intros Hne. unfold analyze_individual_performance. simpl default.
    rewrite bool_decide_eq_false_2 by exact Hne.
    assert (Hp : fmul (fdiv (exact_int total) (exact_int total)) (exact_int 100) = f100).
    { destruct total as [|p|p]; [congruence| |]; simpl exact_int;
        rewrite fdiv_self; vm_compute; reflexivity. }
    rewrite Hp. reflexivity.
  - intros Hpos. unfold analyze_individual_performance. simpl default.
    rewrite bool_decide_eq_false_2 by lia.
    destruct total as [|p|p]; try lia. reflexivity.
Qed.

Lemma individual_performance_bands_witness :
  analyze_individual_performance {| sr_correct := Some 7; sr_total := Some 7 |}
    = Excellent 7 7 f100 /\
  analyze_individual_performance {| sr_correct := None; sr_total := Some 7 |}
    = ReviewAgain 0 7 f0.
Proof.
  destruct (individual_performance_bands 7 7) as (_ & _ & Hall & Hnone & _).
  split; [apply Hall; lia | apply Hnone; lia].
Defined.


(** ** Which entries the report names *)

Lemma head_insert_stable x l :
  head (insert_stable x l) =
  match head l with
  | Some y => if Qltb (sort_key y) (sort_key x) then Some y else Some x
  | None => Some x
  end.
Proof. destruct l as [|y l]; simpl; [reflexivity|]. destruct (Qltb _ _); reflexivity. Qed.

Lemma last_insert_stable x l :
  ascending l ->
  last (insert_stable x l) =
  match last l with
  | Some y => if Qltb (sort_key y) (sort_key x) then Some x else Some y
  | None => Some x
  end.
Proof.
  unfold ascending. induction 1 as [|z l Hs IH Hall]; [reflexivity|].
  simpl insert_stable. destruct (Qltb (sort_key z) (sort_key x)) eqn:E.
  - destruct l as [|y l].
    + simpl. rewrite E. reflexivity.
    + change (last (z :: insert_stable x (y :: l))) with
        (match insert_stable x (y :: l) with
         | [] => Some z | _ => last (insert_stable x (y :: l)) end).
      destruct (insert_stable x (y :: l)) as [|a b] eqn:Hins.
      { simpl in Hins. destruct (Qltb _ _); discriminate. }
      rewrite IH. reflexivity.
  - assert (Hlast : exists g, last (z :: l) = Some g /\ (sort_key z <= sort_key g)%Q).
    { destruct (last (z :: l)) as [g|] eqn:Hl; [|apply last_None in Hl; discriminate].
      exists g. split; [reflexivity|].
      apply last_Some_elem_of in Hl. apply elem_of_cons in Hl as [->|Hl];
        [apply Qle_refl|].
      rewrite Forall_forall in Hall. auto. }
    destruct Hlast as (g & Hg & Hzg).
    change (last (x :: z :: l)) with (last (z :: l)). rewrite Hg.
    apply Qltb_ge in E.
    assert (Hxg : Qltb (sort_key g) (sort_key x) = false).
    { apply Qltb_ge. eapply Qle_trans; eauto. }
    rewrite Hxg. reflexivity.
Qed.

(** The first of the sorted entries is the first entry of lowest key in the
    order of the input. *)
Lemma sorted_head_first l w :
  head (sorted l) = Some w ->
  exists before after,
    l = before ++ w :: after /\
    (forall s, s ∈ before -> (sort_key w < sort_key s)%Q) /\
    (forall s, s ∈ after -> (sort_key w <= sort_key s)%Q).
Proof.
  revert w. induction l as [|x l IH]; intros w Hw; [discriminate|].
  simpl in Hw. rewrite head_insert_stable in Hw.
  destruct (head (sorted l)) as [y|] eqn:Hy.
  - destruct (IH y eq_refl) as (before & after & -> & Hb & Ha).
    destruct (Qltb (sort_key y) (sort_key x)) eqn:E; injection Hw as <-.
    + apply Qltb_lt in E. exists (x :: before), after. split; [reflexivity|].
      split; [|exact Ha]. intros s [->|Hs]%elem_of_cons; auto.
    + apply Qltb_ge in E. exists [], (before ++ y :: after). split; [reflexivity|].
      split; [intros s Hs; inversion Hs|].
      intros s [Hs|[->|Hs]%elem_of_cons]%elem_of_app.
      * eapply Qle_trans; [exact E|]. apply Qlt_le_weak. auto.
      * exact E.
      * eapply Qle_trans; [exact E|]. auto.
  - injection Hw as <-. destruct l as [|z l].
    + exists [], []. split; [reflexivity|]. split; intros s Hs; inversion Hs.
    + exfalso. simpl in Hy. rewrite head_insert_stable in Hy.
      destruct (head (sorted l)); [destruct (Qltb _ _)|]; discriminate.
Qed.

(** The last of the sorted entries is the last entry of highest key in the
    order of the input. *)
Lemma sorted_last_last l g :
  last (sorted l) = Some g ->
  exists before after,
    l = before ++ g :: after /\
    (forall s, s ∈ before -> (sort_key s <= sort_key g)%Q) /\
    (forall s, s ∈ after -> (sort_key s < sort_key g)%Q).
Proof.
  revert g. induction l as [|x l IH]; intros g Hg; [discriminate|].
  simpl in Hg. rewrite last_insert_stable in Hg by apply sorted_ascending.
  destruct (last (sorted l)) as [y|] eqn:Hy.
  - destruct (IH y eq_refl) as (before & after & Hl & Hb & Ha).
    destruct (Qltb (sort_key y) (sort_key x)) eqn:E; injection Hg as <-.
    + apply Qltb_lt in E. exists [], l. split; [reflexivity|].
      split; [intros s Hs; inversion Hs|].
      intros s Hs. eapply Qle_lt_trans; [|exact E].
      apply (ascending_last (sorted l) y (sorted_ascending l) Hy).
      apply elem_of_sorted. exact Hs.
    + apply Qltb_ge in E. subst l. exists (x :: before), after.
      split; [reflexivity|]. split; [|exact Ha].
      intros s [->|Hs]%elem_of_cons; auto.
  - injection Hg as <-. destruct l as [|z l].
    + exists [], []. split; [reflexivity|]. split; intros s Hs; inversion Hs.
    + exfalso. apply last_None in Hy.
      assert (Hz : z ∈ sorted (z :: l)) by (apply elem_of_sorted; left).
      rewrite Hy in Hz. inversion Hz.
Qed.

Lemma skill_line_not_flag (skills : list SkillEntry) t r :
  (FocusArea t r ∉ (skill_line <$> skills)) /\ (Strength t r ∉ (skill_line <$> skills)).
Proof.
  split; intros Hin; apply list_elem_of_fmap in Hin as (s & Heq & _);
    unfold skill_line in Heq; discriminate.
Qed.

Lemma general_note_not_flag overall t r :
  (FocusArea t r ∉ general_note overall) /\ (Strength t r ∉ general_note overall).
Proof.
  unfold general_note.
  split; intros Hin; repeat case_match;
    repeat (apply elem_of_cons in Hin as [Hin|Hin]; [discriminate|]);
    inversion Hin.
Qed.

Lemma flag_location (header x : Fragment) (lines focus strong note : list Fragment) :
  x ∈ [header] ++ lines ++ [RecommendationsHeading] ++ focus ++ strong ++ note ++ [Footer] ->
  x <> header -> x ∉ lines -> x <> RecommendationsHeading -> x ∉ note -> x <> Footer ->
  x ∈ focus \/ x ∈ strong.
Proof.
  rewrite !elem_of_app, !list_elem_of_singleton. tauto.
Qed.

Lemma focus_area_only_focus w t r : Strength t r ∉ focus_area w.
Proof.
  unfold focus_area. intros Hin. repeat case_match;
    try (apply list_elem_of_singleton in Hin; discriminate); inversion Hin.
Qed.

Lemma strength_only_strength g t r : FocusArea t r ∉ strength g.
Proof.
  unfold strength. intros Hin. repeat case_match;
    try (apply list_elem_of_singleton in Hin; discriminate); inversion Hin.
Qed.

(** X16.  The fallback report says that no data is available exactly when
    the skill breakdown is missing or empty.  Otherwise a focus area in the
    report names the first entry, in the order of the breakdown, whose rate
    is the lowest, and that entry carries a rate below 70; a strength names
    the last entry whose rate is the highest, and that entry carries a rate
    of at least 80.  An entry without a rate is never named. *)
Theorem fallback_flags_identify (aggregated_results : ReportInput) :
  let skills := default [] (in_skill_breakdown aggregated_results) in
  (generate_fallback_report aggregated_results = NoData <-> skills = []) /\
  forall fragments tag rate,
    generate_fallback_report aggregated_results = Full fragments ->
    (FocusArea tag rate ∈ fragments ->
     exists before weakest after,
       skills = before ++ weakest :: after /\
       se_skill_tag weakest = tag /\ se_success_rate weakest = Some rate /\
       (rate < 70)%Q /\
       (forall s, s ∈ before -> (sort_key weakest < sort_key s)%Q) /\
       (forall s, s ∈ after -> (sort_key weakest <= sort_key s)%Q)) /\
    (Strength tag rate ∈ fragments ->
     exists before strongest after,
       skills = before ++ strongest :: after /\
       se_skill_tag strongest = tag /\ se_success_rate strongest = Some rate /\
       (80 <= rate)%Q /\
       (forall s, s ∈ before -> (sort_key s <= sort_key strongest)%Q) /\
       (forall s, s ∈ after -> (sort_key s < sort_key strongest)%Q)).
Proof.
  intros skills. unfold generate_fallback_report. fold skills.
  destruct skills as [|s0 rest] eqn:Hskills.
  { split; [tauto|]. intros fragments tag rate H. discriminate. }
  rewrite <- Hskills. split; [split; intros H; [discriminate | congruence]|].
  intros fragments tag rate [= <-].
  pose proof (skill_line_not_flag skills tag rate) as [Hl1 Hl2].
  pose proof (general_note_not_flag
                (default 0%Q (in_overall_success_rate aggregated_results)) tag rate)
    as [Hn1 Hn2].
  split; intros Hin.
  - assert (Hfocus : FocusArea tag rate ∈ focus_area (head (sorted skills))).
    { apply flag_location in Hin as [Hin|Hin]; try discriminate; try assumption.
      exfalso. exact (strength_only_strength _ _ _ Hin). }
    unfold focus_area in Hfocus.
    destruct (head (sorted skills)) as [w|] eqn:Hw; [|inversion Hfocus].
    destruct (Qltb (default 100%Q (se_success_rate w)) 70) eqn:E; [|inversion Hfocus].
    apply list_elem_of_singleton in Hfocus. injection Hfocus as -> ->.
    destruct (sorted_head_first skills w Hw) as (before & after & Heq & Hb & Ha).
    exists before, w, after.
    destruct (se_success_rate w) as [r|] eqn:Hr.
    + simpl in *. apply Qltb_lt in E. auto 10.
    + simpl in E. vm_compute in E. discriminate.
  - assert (Hstrong : Strength tag rate ∈ strength (last (sorted skills))).
    { apply flag_location in Hin as [Hin|Hin]; try discriminate; try assumption.
      exfalso. exact (focus_area_only_focus _ _ _ Hin). }
    unfold strength in Hstrong.
    destruct (last (sorted skills)) as [g|] eqn:Hg; [|inversion Hstrong].
    destruct (Qle_bool 80 (default 0%Q (se_success_rate g))) eqn:E; [|inversion Hstrong].
    apply list_elem_of_singleton in Hstrong. injection Hstrong as -> ->.
    destruct (sorted_last_last skills g Hg) as (before & after & Heq & Hb & Ha).
    exists before, g, after.
    destruct (se_success_rate g) as [r|] eqn:Hr.
    + simpl in *. apply Qle_bool_iff in E. auto 10.
    + simpl in E. vm_compute in E. discriminate.
Qed.

Lemma fallback_flags_identify_witness :
  exists before weakest after,
    default [] (in_skill_breakdown two_skills) = before ++ weakest :: after /\
    se_skill_tag weakest = "A" /\ se_success_rate weakest = Some 40%Q.
Proof.
  destruct (fallback_flags_identify two_skills) as [_ Hnamed].
  assert (Hreport : exists fragments,
            generate_fallback_report two_skills = Full fragments /\
            FocusArea "A" 40%Q ∈ fragments).
  { eexists. split; [vm_compute; reflexivity|].
    apply list_elem_of_In; simpl; tauto. }
  destruct Hreport as (fragments & Hfull & Hfocus).
  destruct (Hnamed fragments "A" 40%Q Hfull) as [Hweak _].
  destruct (Hweak Hfocus) as (before & weakest & after & Hsplit & Htag & Hrate & _).
  exists before, weakest, after. auto.
Defined.

End ReportExtras.
